(** * ProxWarden: failure detection and recovery orchestration

    A shallow embedding of the monitor ([internal/monitor]), the failover
    engine ([internal/failover/engine.go]), the bundled platform client
    ([internal/api/client.go]) and the daemon wiring
    ([internal/daemon/daemon.go]), with the properties the design document
    states about them.

    Conventions.
    - Go's [int] is the 64-bit two's-complement integer of the build targets
      (amd64, arm64): a [Z] in [int_min .. int_max], [++] wraps around.
    - Go's [string] is a [string] (a sequence of bytes).
    - A Go function returning [(T, error)] returns [result T]; one returning
      only [error] returns [option error] ([None] is [nil]).
    - Every call that leaves the process (platform API, hook script, probe,
      clock, sleep, goroutine start) appends one [Event] to a chronological
      trace; what the outside world answers is a function of the trace so
      far, so any deterministic environment can be expressed.
    - Logger calls do not influence control flow or results and are left out. *)

From Stdlib Require Import ZArith List String Ascii Bool Lia Permutation Sorted.
From stdpp Require Import base option gmap strings pretty.
Import ListNotations.
Local Open Scope Z_scope.
Local Open Scope string_scope.
Local Open Scope list_scope.

(** ** Go integers *)

Module GoInt.

Definition int_min : Z := - 2 ^ 63.
Definition int_max : Z := 2 ^ 63 - 1.

Definition in_range (z : Z) : Prop := int_min <= z <= int_max.

(** Two's-complement wrap-around of a mathematical integer. *)
Definition wrap (z : Z) : Z := (z - int_min) mod 2 ^ 64 + int_min.

(** [x++] *)
Definition incr (z : Z) : Z := wrap (z + 1).

End GoInt.

(** ** Errors *)

(** [fmt.Errorf] without and with a wrapped cause ([%w]). Messages carry the
    source's text with the numeric arguments printed in decimal. *)
Inductive error : Type :=
| Errorf (msg : string)
| Wrapf (msg : string) (cause : error).

Inductive result (A : Type) : Type :=
| Ok (a : A)
| Err (e : error).
Arguments Ok {A} a.
Arguments Err {A} e.

(** What a function whose loop is run with a bound on its iterations gives. *)
Inductive outcome (A : Type) : Type :=
| Returned (a : A)
| OutOfFuel.
Arguments Returned {A} a.
Arguments OutOfFuel {A}.

(** [%d] *)
Definition fmt_d (z : Z) : string := pretty z.

(** ** Data model *)

Definition Time := Z.
Definition Duration := Z.

(** [t.Sub(u)], without the saturation of the library at the ends of the
    [int64] range. *)
Definition time_Sub (t u : Time) : Duration := t - u.

(** [internal/config] *)
Record HealthCheck : Type := {
  hc_Type : string;
  hc_Target : string;
  hc_Port : Z;
  hc_Path : string;
  hc_Timeout : Duration;
  hc_Interval : Duration
}.

Record ContainerConfig : Type := {
  cc_ID : Z;
  cc_Name : string;
  cc_HealthChecks : list HealthCheck;
  cc_Priority : Z;
  cc_FailoverNodes : list string;
  cc_Storage : string;
  cc_BackupStorage : string
}.

Record BackupConfig : Type := {
  bk_Storage : string;
  bk_BackupDir : string
}.

Record MonitoringConfig : Type := {
  mon_FailureThreshold : Z;
  mon_Containers : list ContainerConfig
}.

Record FailoverConfig : Type := {
  fo_AutoFailover : bool;
  fo_MaxRetries : Z;
  fo_RetryDelay : Duration;
  fo_BackupBeforeFailover : bool;
  fo_PreFailoverHooks : list string;
  fo_PostFailoverHooks : list string
}.

Record Config : Type := {
  cfg_Backup : BackupConfig;
  cfg_Monitoring : MonitoringConfig;
  cfg_Failover : FailoverConfig
}.

(** [internal/api] *)
Record ContainerInfo : Type := {
  ci_ID : Z;
  ci_Name : string;
  ci_Node : string;
  ci_Status : string;
  ci_State : string
}.

Record NodeInfo : Type := {
  ni_Name : string;
  ni_Status : string;
  ni_Online : bool
}.

Record BackupInfo : Type := {
  bi_Node : string;
  bi_Storage : string;
  bi_Filename : string;
  bi_Size : Z;
  bi_Format : string
}.

(** [internal/health] *)
Record CheckResult : Type := {
  cr_Type : string;
  cr_Target : string;
  cr_Success : bool;
  cr_Error : option error;
  cr_Duration : Duration;
  cr_Timestamp : Time
}.

(** The failure callbacks a monitor can hold: the one [daemon.New]
    registers, and any other (numbered) callback. *)
Inductive FailureCallback : Type :=
| FailoverCallback
| OtherCallback (n : nat).

(** ** Interaction with the outside world *)

Inductive Event : Type :=
| EvGetContainer (id : Z)
| EvGetNodes
| EvStopContainer (id : Z)
| EvStartContainer (id : Z)
| EvBackupContainer (id : Z) (storage backupDir : string)
| EvRestoreContainerFromBackup (id : Z) (targetNode storage backupPath : string) (force : bool)
| EvGetBackups (storage : string)
| EvHook (hook : string) (id : Z) (name : string)
| EvRunHealthCheck (check : HealthCheck)
| EvSleep (d : Duration)
| EvNow
| EvGo (callback : FailureCallback) (id : Z).

Definition Trace := list Event.

(** Calls on the platform API client. *)
Definition is_platform_call (e : Event) : bool :=
  match e with
  | EvGetContainer _ | EvGetNodes | EvStopContainer _ | EvStartContainer _
  | EvBackupContainer _ _ _ | EvRestoreContainerFromBackup _ _ _ _ _
  | EvGetBackups _ => true
  | _ => false
  end.

Definition is_hook (e : Event) : bool :=
  match e with EvHook _ _ _ => true | _ => false end.

Definition is_probe (e : Event) : bool :=
  match e with EvRunHealthCheck _ => true | _ => false end.

Definition is_sleep (e : Event) : bool :=
  match e with EvSleep _ => true | _ => false end.

Definition is_stop (e : Event) : bool :=
  match e with EvStopContainer _ => true | _ => false end.

Definition is_restore (e : Event) : bool :=
  match e with EvRestoreContainerFromBackup _ _ _ _ _ => true | _ => false end.

Definition is_start (e : Event) : bool :=
  match e with EvStartContainer _ => true | _ => false end.

Definition is_go (e : Event) : bool :=
  match e with EvGo _ _ => true | _ => false end.

(** The state-and-trace monad the embedded code runs in. *)
Definition M (A : Type) : Type := Trace -> A * Trace.

Definition ret {A} (a : A) : M A := fun tr => (a, tr).

Definition bind {A B} (m : M A) (k : A -> M B) : M B :=
  fun tr => let (a, tr') := m tr in k a tr'.

(** One outside call: the answer depends on the history, the call is logged. *)
Definition call {A} (e : Event) (answer : Trace -> A) : M A :=
  fun tr => (answer tr, (tr ++ [e])%list).

Declare Scope go_scope.
Delimit Scope go_scope with go.
Notation "x <- m ;; k" := (bind m (fun x => k))
  (at level 100, m at next level, right associativity) : go_scope.
Notation "m ;;; k" := (bind m (fun _ => k))
  (at level 100, right associativity) : go_scope.
Local Open Scope go_scope.

(** The platform client interface ([APIClient] of the monitor's tests), given
    by what each method answers after a given history. *)
Class APIClient : Type := {
  answer_GetContainer : Trace -> Z -> result ContainerInfo;
  answer_GetNodes : Trace -> result (list NodeInfo);
  answer_StopContainer : Trace -> Z -> option error;
  answer_StartContainer : Trace -> Z -> option error;
  answer_BackupContainer : Trace -> Z -> string -> string -> result string;
  answer_RestoreContainerFromBackup :
    Trace -> Z -> string -> string -> string -> bool -> option error;
  answer_GetBackups : Trace -> string -> result (list BackupInfo)
}.

(** Everything else outside the process: hook scripts, probes, the clock. *)
Class Host : Type := {
  answer_Hook : Trace -> string -> Z -> string -> option error;
  answer_RunHealthCheck : Trace -> HealthCheck -> CheckResult;
  answer_Now : Trace -> Time
}.

Section Calls.
Context `{APIClient} `{Host}.

Definition GetContainer (id : Z) : M (result ContainerInfo) :=
  call (EvGetContainer id) (fun tr => answer_GetContainer tr id).

Definition GetNodes : M (result (list NodeInfo)) :=
  call EvGetNodes answer_GetNodes.

Definition StopContainer (id : Z) : M (option error) :=
  call (EvStopContainer id) (fun tr => answer_StopContainer tr id).

Definition StartContainer (id : Z) : M (option error) :=
  call (EvStartContainer id) (fun tr => answer_StartContainer tr id).

Definition BackupContainer (id : Z) (storage backupDir : string)
  : M (result string) :=
  call (EvBackupContainer id storage backupDir)
       (fun tr => answer_BackupContainer tr id storage backupDir).

Definition RestoreContainerFromBackup
    (id : Z) (targetNode storage backupPath : string) (force : bool)
  : M (option error) :=
  call (EvRestoreContainerFromBackup id targetNode storage backupPath force)
       (fun tr => answer_RestoreContainerFromBackup
                    tr id targetNode storage backupPath force).

Definition GetBackups (storage : string) : M (result (list BackupInfo)) :=
  call (EvGetBackups storage) (fun tr => answer_GetBackups tr storage).

(** [exec.Command("sh", "-c", hook)] with [CONTAINER_ID] and
    [CONTAINER_NAME] in its environment, then [cmd.Run()]. *)
Definition runHook (hook : string) (id : Z) (name : string) : M (option error) :=
  call (EvHook hook id name) (fun tr => answer_Hook tr hook id name).

(** [checker.RunHealthCheck] of [internal/health]: one network probe, taken
    as one outside call. *)
Definition RunHealthCheck (check : HealthCheck) : M CheckResult :=
  call (EvRunHealthCheck check) (fun tr => answer_RunHealthCheck tr check).

(** [time.Now()] *)
Definition Now : M Time := call EvNow answer_Now.

(** [time.Sleep(d)] *)
Definition Sleep (d : Duration) : M unit := call (EvSleep d) (fun _ => tt).

(** [go callback(id, state)] *)
Definition Go (callback : FailureCallback) (id : Z) : M unit :=
  call (EvGo callback id) (fun _ => tt).
End Calls.

(** ** The failover engine ([internal/failover/engine.go]) *)

Record FailoverResult : Type := {
  fr_ContainerID : Z;
  fr_SourceNode : string;
  fr_TargetNode : string;
  fr_Success : bool;
  fr_Error : option error;
  fr_Duration : Duration;
  fr_StartTime : Time;
  fr_EndTime : Time
}.

Record nodeCandidate : Type := {
  nc_name : string;
  nc_priority : Z;
  nc_online : bool
}.

(** [nodeStatus[node.Name] = node] for every node of the snapshot, in order:
    a later entry of the same name replaces an earlier one. *)
Definition nodeStatusMap (nodes : list NodeInfo) : gmap string NodeInfo :=
  fold_left (fun m node => <[ni_Name node := node]> m) nodes ∅.

(** The loop over [containerConfig.FailoverNodes] from index [i] on. The
    index of a slice element stays below the largest [int], so [i + 1] never
    wraps around. *)
Fixpoint collectCandidates (nodeStatus : gmap string NodeInfo)
    (currentNode : string) (i : Z) (names : list string) : list nodeCandidate :=
  match names with
  | [] => []
  | nodeName :: rest =>
      if String.eqb nodeName currentNode then
        collectCandidates nodeStatus currentNode (i + 1) rest
      else
        match nodeStatus !! nodeName with
        | None => collectCandidates nodeStatus currentNode (i + 1) rest
        | Some node =>
            {| nc_name := nodeName; nc_priority := i; nc_online := ni_Online node |}
              :: collectCandidates nodeStatus currentNode (i + 1) rest
        end
  end.

(** The [less] function handed to [sort.Slice]. *)
Definition candidateLess (a b : nodeCandidate) : bool :=
  if negb (Bool.eqb (nc_online a) (nc_online b)) then nc_online a
  else (nc_priority a <? nc_priority b)%Z.

(** [sort.Slice]: an insertion sort. The candidates carry pairwise distinct
    priorities, on which [candidateLess] is a strict total order, so every
    sorting algorithm yields the same slice (see [sorted_permutation_unique]). *)
Fixpoint insertBy {A} (less : A -> A -> bool) (x : A) (l : list A) : list A :=
  match l with
  | [] => [x]
  | y :: l' => if less y x then y :: insertBy less x l' else x :: y :: l'
  end.

Definition sortSlice {A} (less : A -> A -> bool) (l : list A) : list A :=
  fold_right (insertBy less) [] l.

Section Engine.
Context `{APIClient} `{Host}.
Variable config : Config.

Definition selectBestNode (containerConfig : ContainerConfig)
    (currentNode : string) : M (result string) :=
  match cc_FailoverNodes containerConfig with
  | [] =>
      ret (Err (Errorf ("no failover nodes configured for container "
                        +:+ fmt_d (cc_ID containerConfig))))
  | _ :: _ =>
      r <- GetNodes ;;
      match r with
      | Err err => ret (Err (Wrapf "failed to get nodes" err))
      | Ok nodes =>
          let nodeStatus := nodeStatusMap nodes in
          let candidates :=
            collectCandidates nodeStatus currentNode 0
                              (cc_FailoverNodes containerConfig) in
          match candidates with
          | [] =>
              ret (Err (Errorf ("no available failover nodes for container "
                                +:+ fmt_d (cc_ID containerConfig))))
          | c :: _ =>
              (* candidates[0] after sorting; sorting keeps the length, so
                 the default of [hd] is never used *)
              let c0 := hd c (sortSlice candidateLess candidates) in
              if negb (nc_online c0) then
                ret (Err (Errorf ("no online failover nodes available for container "
                                  +:+ fmt_d (cc_ID containerConfig))))
              else ret (Ok (nc_name c0))
          end
      end
  end.

Fixpoint executeHooks_loop (hooks : list string)
    (containerConfig : ContainerConfig) : M (option error) :=
  match hooks with
  | [] => ret None
  | hook :: rest =>
      r <- runHook hook (cc_ID containerConfig) (cc_Name containerConfig) ;;
      match r with
      | Some err => ret (Some (Wrapf ("hook '" +:+ hook +:+ "' failed") err))
      | None => executeHooks_loop rest containerConfig
      end
  end.

Definition executeHooks (hooks : list string)
    (containerConfig : ContainerConfig) : M (option error) :=
  match hooks with
  | [] => ret None
  | _ => executeHooks_loop hooks containerConfig
  end.

(** The loop of [findLatestBackup] over the listed backups. *)
Definition latestBackup_step (containerBackupPrefix : string)
    (latestBackup : option BackupInfo) (backup : BackupInfo) : option BackupInfo :=
  if negb (String.prefix containerBackupPrefix (bi_Filename backup)) then latestBackup
  else
    match latestBackup with
    | None => Some backup
    | Some latest =>
        if String.ltb (bi_Filename latest) (bi_Filename backup)
        then Some backup else latestBackup
    end.

Definition findLatestBackup (containerID : Z) : M (result string) :=
  r <- GetBackups (bk_Storage (cfg_Backup config)) ;;
  match r with
  | Err err => ret (Err (Wrapf "failed to get backups" err))
  | Ok backups =>
      let containerBackupPrefix := "vzdump-lxc-" +:+ fmt_d containerID +:+ "-" in
      match fold_left (latestBackup_step containerBackupPrefix) backups None with
      | None =>
          ret (Err (Errorf ("no backup found for container " +:+ fmt_d containerID)))
      | Some latestBackup =>
          ret (Ok (bi_Storage latestBackup +:+ ":" +:+ bi_Filename latestBackup))
      end
  end.

Definition performBackupRestoreFailover (containerConfig : ContainerConfig)
    (sourceNode targetNode backupPath : string) : M (option error) :=
  let containerID := cc_ID containerConfig in
  (* Step 1: stop the original container; a failure is tolerated *)
  _ <- StopContainer containerID ;;
  (* Step 2: restore from backup on the target node *)
  let storage :=
    if String.eqb (cc_Storage containerConfig) "" then "local-lvm"
    else cc_Storage containerConfig in
  err <- RestoreContainerFromBackup containerID targetNode storage backupPath true ;;
  match err with
  | Some err => ret (Some (Wrapf "failed to restore container" err))
  | None =>
      (* Step 3: start the restored container *)
      err <- StartContainer containerID ;;
      match err with
      | Some err => ret (Some (Wrapf "failed to start restored container" err))
      | None => ret None
      end
  end.

(** The [for attempt := 1; attempt <= MaxRetries; attempt++] loop of
    [performFailover], entered at the loop condition with the current
    values of [attempt] and of the function's [err] variable. It returns
    [result.Success] and [err] as they are when the loop is left.
    [fuel] bounds the number of times the condition is evaluated. *)
Fixpoint retryLoop (fuel : nat) (containerConfig : ContainerConfig)
    (sourceNode targetNode backupPath : string)
    (attempt : Z) (err : option error) : M (outcome (bool * option error)) :=
  match fuel with
  | O => ret OutOfFuel
  | S fuel' =>
      if (attempt <=? fo_MaxRetries (cfg_Failover config))%Z then
        err <- performBackupRestoreFailover containerConfig sourceNode
                 targetNode backupPath ;;
        match err with
        | None => ret (Returned (true, None))
        | Some e =>
            (if (attempt <? fo_MaxRetries (cfg_Failover config))%Z
             then Sleep (fo_RetryDelay (cfg_Failover config))
             else ret tt) ;;;
            retryLoop fuel' containerConfig sourceNode targetNode backupPath
                      (GoInt.incr attempt) (Some e)
        end
      else ret (Returned (false, err))
  end.

(** [result.Error = err; result.EndTime = time.Now(); result.Duration = ...] *)
Definition failAt (result : FailoverResult) (err : error) (endTime : Time)
  : FailoverResult :=
  {| fr_ContainerID := fr_ContainerID result;
     fr_SourceNode := fr_SourceNode result;
     fr_TargetNode := fr_TargetNode result;
     fr_Success := fr_Success result;
     fr_Error := Some err;
     fr_Duration := time_Sub endTime (fr_StartTime result);
     fr_StartTime := fr_StartTime result;
     fr_EndTime := endTime |}.

(** Step 1 of [performFailover]: create a backup or find the latest one. *)
Definition obtainBackup (containerConfig : ContainerConfig) : M (result string) :=
  if fo_BackupBeforeFailover (cfg_Failover config) then
    let backupStorage :=
      if String.eqb (cc_BackupStorage containerConfig) ""
      then bk_Storage (cfg_Backup config)
      else cc_BackupStorage containerConfig in
    r <- BackupContainer (cc_ID containerConfig) backupStorage
           (bk_BackupDir (cfg_Backup config)) ;;
    match r with
    | Err err => ret (Err (Wrapf "backup failed" err))
    | Ok backupPath => ret (Ok backupPath)
    end
  else
    r <- findLatestBackup (cc_ID containerConfig) ;;
    match r with
    | Err err => ret (Err (Wrapf "failed to find backup" err))
    | Ok backupPath => ret (Ok backupPath)
    end.

(** The part of [performFailover] from the retry loop to the end: the
    loop, the end time, and either the error after the last attempt or the
    post-failover hooks. *)
Definition failoverWithRetries (fuel : nat) (containerConfig : ContainerConfig)
    (sourceNode targetNode backupPath : string) (startTime : Time)
  : M (outcome FailoverResult) :=
  l <- retryLoop fuel containerConfig sourceNode targetNode backupPath 1 None ;;
  match l with
  | OutOfFuel => ret OutOfFuel
  | Returned (success, err) =>
      endTime <- Now ;;
      let result :=
        {| fr_ContainerID := cc_ID containerConfig;
           fr_SourceNode := sourceNode;
           fr_TargetNode := targetNode;
           fr_Success := success;
           fr_Error := None;
           fr_Duration := time_Sub endTime startTime;
           fr_StartTime := startTime;
           fr_EndTime := endTime |} in
      match err with
      | Some err =>
          ret (Returned
                 (failAt result
                    (Wrapf ("backup-restore failover failed after "
                            +:+ fmt_d (fo_MaxRetries (cfg_Failover config))
                            +:+ " attempts") err)
                    endTime))
      | None =>
          (* Execute post-failover hooks; a failure is only logged *)
          _ <- executeHooks (fo_PostFailoverHooks (cfg_Failover config))
                 containerConfig ;;
          ret (Returned result)
      end
  end.

Definition performFailover (fuel : nat) (containerConfig : ContainerConfig)
    (sourceNode targetNode : string) : M (outcome FailoverResult) :=
  startTime <- Now ;;
  let result :=
    {| fr_ContainerID := cc_ID containerConfig;
       fr_SourceNode := sourceNode;
       fr_TargetNode := targetNode;
       fr_Success := false;
       fr_Error := None;
       fr_Duration := 0;
       fr_StartTime := startTime;
       fr_EndTime := 0 |} in
  (* Execute pre-failover hooks *)
  err <- executeHooks (fo_PreFailoverHooks (cfg_Failover config)) containerConfig ;;
  match err with
  | Some err =>
      endTime <- Now ;;
      ret (Returned (failAt result (Wrapf "pre-failover hooks failed" err) endTime))
  | None =>
      (* Step 1: create a backup if required or find the latest backup *)
      r <- obtainBackup containerConfig ;;
      match r with
      | Err err =>
          endTime <- Now ;;
          ret (Returned (failAt result err endTime))
      | Ok backupPath =>
          (* Perform backup-restore based failover with retries *)
          failoverWithRetries fuel containerConfig sourceNode targetNode
                              backupPath startTime
      end
  end.

(** [for _, c := range Containers { if c.ID == containerID { ...; break } }] *)
Definition findContainerConfig (containerID : Z) : option ContainerConfig :=
  List.find (fun c => (cc_ID c =? containerID)%Z)
            (mon_Containers (cfg_Monitoring config)).

Definition HandleContainerFailure (fuel : nat) (containerID : Z)
  : M (outcome (option error)) :=
  if negb (fo_AutoFailover (cfg_Failover config)) then ret (Returned None)
  else
    match findContainerConfig containerID with
    | None =>
        ret (Returned (Some (Errorf ("container " +:+ fmt_d containerID
                                     +:+ " not found in configuration"))))
    | Some containerConfig =>
        r <- GetContainer containerID ;;
        match r with
        | Err err => ret (Returned (Some (Wrapf "failed to get container info" err)))
        | Ok containerInfo =>
            t <- selectBestNode containerConfig (ci_Node containerInfo) ;;
            match t with
            | Err err =>
                ret (Returned (Some (Wrapf "failed to select target node" err)))
            | Ok targetNode =>
                o <- performFailover fuel containerConfig
                       (ci_Node containerInfo) targetNode ;;
                match o with
                | OutOfFuel => ret OutOfFuel
                | Returned result =>
                    if fr_Success result then ret (Returned None)
                    else ret (Returned (fr_Error result))
                end
            end
        end
    end.
End Engine.

(** A run of [k] consecutive attempts starting after the history [tr]: every
    attempt but the last fails and is followed by exactly one sleep of [d];
    the last one ends with [final] and nothing follows it. The fourth
    argument lists the events of the run. *)
Inductive attempts_from (attempt : M (option error)) (d : Duration)
  : Trace -> nat -> option error -> list Event -> Prop :=
| attempts_last tr final chunk :
    attempt tr = (final, (tr ++ chunk)%list) ->
    attempts_from attempt d tr 1 final chunk
| attempts_retry tr e chunk k final evs :
    attempt tr = (Some e, (tr ++ chunk)%list) ->
    attempts_from attempt d (tr ++ chunk ++ [EvSleep d])%list k final evs ->
    attempts_from attempt d tr (S k) final (chunk ++ EvSleep d :: evs)%list.

(** The events of one attempt: stop, restore and, when the restore went
    through, start. *)
Definition attempt_storage (cc : ContainerConfig) : string :=
  if String.eqb (cc_Storage cc) "" then "local-lvm" else cc_Storage cc.

Definition attempt_events (cc : ContainerConfig) (targetNode backupPath : string)
    (restored : bool) : list Event :=
  EvStopContainer (cc_ID cc)
  :: EvRestoreContainerFromBackup (cc_ID cc) targetNode (attempt_storage cc)
       backupPath true
  :: (if restored then [EvStartContainer (cc_ID cc)] else []).

Definition is_none {A} (o : option A) : bool :=
  match o with None => true | Some _ => false end.

Definition hook_event (cc : ContainerConfig) (hook : string) : Event :=
  EvHook hook (cc_ID cc) (cc_Name cc).

Definition prio_lt (a b : nodeCandidate) : Prop := nc_priority a < nc_priority b.

(** [a] may stand before [b] in a slice sorted by [candidateLess]. *)
Definition candidate_le (a b : nodeCandidate) : Prop := candidateLess b a = false.

(** The hooks all succeed when run one after the other from the history [tr]. *)
Fixpoint hooks_pass `{Host} (cc : ContainerConfig) (hooks : list string)
    (tr : Trace) : bool :=
  match hooks with
  | [] => true
  | hook :: rest =>
      is_none (answer_Hook tr hook (cc_ID cc) (cc_Name cc))
      && hooks_pass cc rest (tr ++ [hook_event cc hook])
  end.

(** ** The bundled platform client ([internal/api/client.go]) *)

(** What the Proxmox SDK calls behind the client answer; [sdk_timestamp] is
    [time.Now().Format("2006_01_02-15_04_05")]. *)
Record ProxmoxSDK : Type := {
  sdk_GetContainer : Trace -> Z -> result ContainerInfo;
  sdk_GetNodes : Trace -> result (list NodeInfo);
  sdk_StopContainer : Trace -> Z -> option error;
  sdk_StartContainer : Trace -> Z -> option error;
  sdk_timestamp : Trace -> string
}.

Definition Client_BackupContainer (sdk : ProxmoxSDK) (tr : Trace)
    (containerID : Z) (storage backupDir : string) : result string :=
  let backupFilename :=
    "vzdump-lxc-" +:+ fmt_d containerID +:+ "-" +:+ sdk_timestamp sdk tr
    +:+ ".tar.zst" in
  Ok (storage +:+ ":" +:+ backupDir +:+ "/" +:+ backupFilename).

Definition Client_RestoreContainerFromBackup (tr : Trace) (containerID : Z)
    (targetNode storage backupPath : string) (force : bool) : option error :=
  Some (Errorf "restore functionality not yet implemented - requires direct API calls").

Definition Client_GetBackups (tr : Trace) (storage : string)
  : result (list BackupInfo) := Ok [].

#[export] Instance Client (sdk : ProxmoxSDK) : APIClient := {|
  answer_GetContainer := sdk_GetContainer sdk;
  answer_GetNodes := sdk_GetNodes sdk;
  answer_StopContainer := sdk_StopContainer sdk;
  answer_StartContainer := sdk_StartContainer sdk;
  answer_BackupContainer := Client_BackupContainer sdk;
  answer_RestoreContainerFromBackup := Client_RestoreContainerFromBackup;
  answer_GetBackups := Client_GetBackups
|}.

(** ** The monitor ([internal/monitor]) *)

Record ContainerState : Type := {
  cs_ID : Z;
  cs_Name : string;
  cs_Node : string;
  cs_LastSeen : Time;
  cs_FailureCount : Z;
  cs_HealthyCount : Z;
  cs_Status : string;
  cs_LastHealthCheck : Time;
  cs_HealthResults : list CheckResult
}.

(** The monitor's configuration and callbacks. The state it keeps per
    container ([m.states]) is passed to and returned by the functions below,
    and held by [System] further down. *)
Record Monitor : Type := {
  m_config : Config;
  m_callbacks : list FailureCallback
}.

(** [New] and [AddFailureCallback] *)
Definition Monitor_New (cfg : Config) : Monitor :=
  {| m_config := cfg; m_callbacks := [] |}.

Definition AddFailureCallback (m : Monitor) (callback : FailureCallback) : Monitor :=
  {| m_config := m_config m; m_callbacks := (m_callbacks m ++ [callback])%list |}.

(** The state [Start] creates for a configured container. *)
Definition initialState (container : ContainerConfig) (now : Time) : ContainerState :=
  {| cs_ID := cc_ID container;
     cs_Name := cc_Name container;
     cs_Node := "";
     cs_LastSeen := now;
     cs_FailureCount := 0;
     cs_HealthyCount := 0;
     cs_Status := "unknown";
     cs_LastHealthCheck := 0;
     cs_HealthResults := [] |}.

Definition set_FailureCount (state : ContainerState) (n : Z) : ContainerState :=
  {| cs_ID := cs_ID state;
     cs_Name := cs_Name state;
     cs_Node := cs_Node state;
     cs_LastSeen := cs_LastSeen state;
     cs_FailureCount := n;
     cs_HealthyCount := cs_HealthyCount state;
     cs_Status := cs_Status state;
     cs_LastHealthCheck := cs_LastHealthCheck state;
     cs_HealthResults := cs_HealthResults state |}.

Definition set_HealthyCount (state : ContainerState) (n : Z) : ContainerState :=
  {| cs_ID := cs_ID state;
     cs_Name := cs_Name state;
     cs_Node := cs_Node state;
     cs_LastSeen := cs_LastSeen state;
     cs_FailureCount := cs_FailureCount state;
     cs_HealthyCount := n;
     cs_Status := cs_Status state;
     cs_LastHealthCheck := cs_LastHealthCheck state;
     cs_HealthResults := cs_HealthResults state |}.

(** [state.Node = ...; state.Status = ...; state.LastSeen = time.Now()] *)
Definition set_info (state : ContainerState) (node status : string) (now : Time)
  : ContainerState :=
  {| cs_ID := cs_ID state;
     cs_Name := cs_Name state;
     cs_Node := node;
     cs_LastSeen := now;
     cs_FailureCount := cs_FailureCount state;
     cs_HealthyCount := cs_HealthyCount state;
     cs_Status := status;
     cs_LastHealthCheck := cs_LastHealthCheck state;
     cs_HealthResults := cs_HealthResults state |}.

(** [state.LastHealthCheck = time.Now(); state.HealthResults = results] *)
Definition set_results (state : ContainerState) (now : Time)
    (results : list CheckResult) : ContainerState :=
  {| cs_ID := cs_ID state;
     cs_Name := cs_Name state;
     cs_Node := cs_Node state;
     cs_LastSeen := cs_LastSeen state;
     cs_FailureCount := cs_FailureCount state;
     cs_HealthyCount := cs_HealthyCount state;
     cs_Status := cs_Status state;
     cs_LastHealthCheck := now;
     cs_HealthResults := results |}.

Definition recordSuccess (state : ContainerState) : ContainerState :=
  let state := set_HealthyCount state (GoInt.incr (cs_HealthyCount state)) in
  if (cs_FailureCount state >? 0)%Z then set_FailureCount state 0 else state.

Section MonitorOps.
Context `{APIClient} `{Host}.
Variable m : Monitor.

(** [for _, callback := range m.callbacks { go callback(state.ID, state) }] *)
Fixpoint triggerCallbacks (callbacks : list FailureCallback) (id : Z) : M unit :=
  match callbacks with
  | [] => ret tt
  | callback :: rest => Go callback id ;;; triggerCallbacks rest id
  end.

Definition recordFailure (state : ContainerState) : M ContainerState :=
  let state := set_FailureCount state (GoInt.incr (cs_FailureCount state)) in
  let failureCount := cs_FailureCount state in
  if (failureCount >=? mon_FailureThreshold (cfg_Monitoring (m_config m)))%Z then
    triggerCallbacks (m_callbacks m) (cs_ID state) ;;; ret state
  else ret state.

(** The loop of [checkContainer] over the configured health checks. *)
Fixpoint runHealthChecks (checks : list HealthCheck) (allHealthy : bool)
    (results : list CheckResult) : M (bool * list CheckResult) :=
  match checks with
  | [] => ret (allHealthy, results)
  | healthCheck :: rest =>
      result <- RunHealthCheck healthCheck ;;
      runHealthChecks rest
        (if negb (cr_Success result) then false else allHealthy)
        (results ++ [result])%list
  end.

Definition checkContainer (container : ContainerConfig) (state : ContainerState)
  : M ContainerState :=
  r <- GetContainer (cc_ID container) ;;
  match r with
  | Err _ => recordFailure state
  | Ok containerInfo =>
      now <- Now ;;
      let state := set_info state (ci_Node containerInfo)
                            (ci_Status containerInfo) now in
      (* Skip health checks if container is not running *)
      if negb (String.eqb (ci_Status containerInfo) "running") then ret state
      else
        p <- runHealthChecks (cc_HealthChecks container) true [] ;;
        let (allHealthy, results) := p in
        now <- Now ;;
        let state := set_results state now results in
        if allHealthy then ret (recordSuccess state) else recordFailure state
  end.

(** One recorded cycle outcome, and a sequence of them. *)
Definition recordCycle (healthy : bool) (state : ContainerState) : M ContainerState :=
  if healthy then ret (recordSuccess state) else recordFailure state.

Fixpoint recordCycles (cycles : list bool) (state : ContainerState)
  : M ContainerState :=
  match cycles with
  | [] => ret state
  | healthy :: rest =>
      state <- recordCycle healthy state ;; recordCycles rest state
  end.
End MonitorOps.

(** ** Target selection as the design document words it

    Remove the current host from the candidate list; resolve the liveness of
    each remaining candidate from the snapshot (a host absent from the
    snapshot is not live); order the remaining candidates by liveness
    descending, then preference rank ascending; return the first entry;
    fail when nothing remains or the remaining candidates are all non-live. *)

Record HostCandidate : Type := {
  host_name : string;
  host_rank : Z;
  host_live : bool
}.

Fixpoint ranked (rank : Z) (candidates : list string) : list (string * Z) :=
  match candidates with
  | [] => []
  | name :: rest => (name, rank) :: ranked (rank + 1) rest
  end.

Definition resolve_liveness (snapshot : gmap string bool) (c : string * Z)
  : HostCandidate :=
  {| host_name := fst c;
     host_rank := snd c;
     host_live := default false (snapshot !! fst c) |}.

(** [a] comes strictly before [b]: live before non-live, then lower rank. *)
Definition spec_before (a b : HostCandidate) : bool :=
  (host_live a && negb (host_live b))
  || (Bool.eqb (host_live a) (host_live b) && (host_rank a <? host_rank b)%Z).

(** The first entry of a list under a strict order. *)
Definition first_under {A} (before : A -> A -> bool) (l : list A) : option A :=
  fold_left (fun best x =>
               match best with
               | None => Some x
               | Some b => if before x b then Some x else Some b
               end) l None.

Definition spec_select (candidates : list string) (current : string)
    (snapshot : gmap string bool) : option string :=
  let remaining :=
    List.filter (fun c => negb (String.eqb (fst c) current)) (ranked 0 candidates) in
  match first_under spec_before (map (resolve_liveness snapshot) remaining) with
  | None => None
  | Some first => if host_live first then Some (host_name first) else None
  end.

(** The liveness snapshot a node listing amounts to, read off the listing
    itself: every listed name with the online flag of its entry, the last
    one when a name is listed more than once ([list_to_map] keeps the first
    binding of a key, hence the [rev]). *)
Definition liveness (nodes : list NodeInfo) : gmap string bool :=
  list_to_map (rev (map (fun node => (ni_Name node, ni_Online node)) nodes)).

Definition is_live (nodes : list NodeInfo) (name : string) : bool :=
  default false (liveness nodes !! name).

Definition result_target (r : result string) : option string :=
  match r with Ok t => Some t | Err _ => None end.

(** The two errors of [selectBestNode] that say no target is eligible. *)
Definition ErrNoAvailable (id : Z) : error :=
  Errorf ("no available failover nodes for container " +:+ fmt_d id).
Definition ErrNoOnline (id : Z) : error :=
  Errorf ("no online failover nodes available for container " +:+ fmt_d id).

(** A candidate that is not the current host and is live. *)
Definition eligible (nodes : list NodeInfo) (current name : string) : bool :=
  negb (String.eqb name current) && is_live nodes name.

(** ** Scripted environments

    A platform client in the manner of the monitor tests' [mockAPIClient]:
    fixed answers, except that the first [restoreFailures] restore calls of
    a run fail. *)

Definition count_events (p : Event -> bool) (tr : Trace) : nat :=
  length (List.filter p tr).

Definition scriptedClient (info : result ContainerInfo) (nodes : list NodeInfo)
    (restoreFailures : nat) : APIClient := {|
  answer_GetContainer := fun _ _ => info;
  answer_GetNodes := fun _ => Ok nodes;
  answer_StopContainer := fun _ _ => None;
  answer_StartContainer := fun _ _ => None;
  answer_BackupContainer := fun _ _ _ _ => Ok "mock:backup/file.tar.zst";
  answer_RestoreContainerFromBackup := fun tr _ _ _ _ _ =>
    if (count_events is_restore tr <? restoreFailures)%nat
    then Some (Errorf "restore failed") else None;
  answer_GetBackups := fun _ _ => Ok []
|}.

(** A host on which exactly the hooks named in [failingHooks] fail, exactly
    the probes against [failingTargets] fail, and the clock shows the number
    of events so far. *)
Definition scriptedHost (failingHooks failingTargets : list string) : Host := {|
  answer_Hook := fun _ hook _ _ =>
    if existsb (String.eqb hook) failingHooks
    then Some (Errorf "exit status 1") else None;
  answer_RunHealthCheck := fun tr check =>
    let failed := existsb (String.eqb (hc_Target check)) failingTargets in
    {| cr_Type := hc_Type check;
       cr_Target := hc_Target check;
       cr_Success := negb failed;
       cr_Error := if failed then Some (Errorf "connection refused") else None;
       cr_Duration := 1;
       cr_Timestamp := Z.of_nat (length tr) |};
  answer_Now := fun tr => Z.of_nat (length tr)
|}.

Definition node (name : string) (online : bool) : NodeInfo :=
  {| ni_Name := name;
     ni_Status := if online then "online" else "offline";
     ni_Online := online |}.

Definition container100 (failoverNodes : list string) : ContainerConfig :=
  {| cc_ID := 100;
     cc_Name := "test-container";
     cc_HealthChecks :=
       [ {| hc_Type := "tcp"; hc_Target := "localhost"; hc_Port := 80;
            hc_Path := ""; hc_Timeout := 10; hc_Interval := 30 |} ];
     cc_Priority := 0;
     cc_FailoverNodes := failoverNodes;
     cc_Storage := "";
     cc_BackupStorage := "" |}.

Definition info100 (node status : string) : ContainerInfo :=
  {| ci_ID := 100; ci_Name := "test-container"; ci_Node := node;
     ci_Status := status; ci_State := status |}.

Definition rank_lt (a b : HostCandidate) : Prop := host_rank a < host_rank b.

Definition remaining_of (snapshot : gmap string bool) (current : string)
    (i : Z) (names : list string) : list HostCandidate :=
  map (resolve_liveness snapshot)
      (List.filter (fun c => negb (String.eqb (fst c) current)) (ranked i names)).

(** The candidates left after removing the current host. *)
Definition remaining_candidates (candidates : list string) (current : string)
  : list string :=
  List.filter (fun c => negb (String.eqb c current)) candidates.

(** A configuration in the manner of the tests: one monitored container
    (id 100) with failover nodes B and C. *)
Definition testConfig (autoFailover : bool) (maxRetries failureThreshold : Z)
    (preHooks postHooks : list string) : Config :=
  {| cfg_Backup := {| bk_Storage := "local"; bk_BackupDir := "backup" |};
     cfg_Monitoring :=
       {| mon_FailureThreshold := failureThreshold;
          mon_Containers := [container100 ["B"; "C"]] |};
     cfg_Failover :=
       {| fo_AutoFailover := autoFailover;
          fo_MaxRetries := maxRetries;
          fo_RetryDelay := 5;
          fo_BackupBeforeFailover := true;
          fo_PreFailoverHooks := preHooks;
          fo_PostFailoverHooks := postHooks |} |}.

(** Node A hosts container 100 (running); B is offline, C online. *)
Definition clusterClient (restoreFailures : nat) : APIClient :=
  scriptedClient (Ok (info100 "A" "running"))
                 [node "A" true; node "B" false; node "C" true] restoreFailures.

Definition quietHost : Host := scriptedHost ["veto.sh"] [].

(** The error every attempt ends with on the bundled client. *)
Definition restoreError : error :=
  Wrapf "failed to restore container"
    (Errorf "restore functionality not yet implemented - requires direct API calls").

(** An SDK behind which the cluster of [clusterClient] is always reachable. *)
Definition idleSDK : ProxmoxSDK :=
  {| sdk_GetContainer := fun _ _ => Ok (info100 "A" "running");
     sdk_GetNodes := fun _ => Ok [node "A" true; node "B" false; node "C" true];
     sdk_StopContainer := fun _ _ => None;
     sdk_StartContainer := fun _ _ => None;
     sdk_timestamp := fun _ => "2024_01_01-00_00_00" |}.

(** ** Counting over recorded cycles ([true] is a healthy cycle) *)

(** The callback goroutines one breach starts. *)
Definition dispatch_events (m : Monitor) (id : Z) : list Event :=
  map (fun callback => EvGo callback id) (m_callbacks m).

(** How many of [k] consecutive failed cycles, entered with the failure
    counter at [c], leave it at or above the threshold. *)
Fixpoint dispatch_rounds (threshold c : Z) (k : nat) : nat :=
  match k with
  | O => O
  | S k' =>
      ((if (threshold <=? c + 1)%Z then 1 else 0)
       + dispatch_rounds threshold (c + 1) k')%nat
  end.

(** The failed cycles since the last healthy one, and the healthy cycles. *)
Definition failure_streak (cycles : list bool) : Z :=
  fold_left (fun c healthy => if healthy : bool then 0 else c + 1) cycles 0.

Definition healthy_total (cycles : list bool) : Z :=
  Z.of_nat (length (List.filter (fun healthy : bool => healthy) cycles)).

Definition testMonitor (failureThreshold : Z) : Monitor :=
  AddFailureCallback (Monitor_New (testConfig true 3 failureThreshold [] []))
                     FailoverCallback.

Definition state100 : ContainerState := initialState (container100 ["B"; "C"]) 0.

(** ** The daemon ([internal/daemon/daemon.go]): monitor, callback goroutines
    and recoveries in flight *)

(** [daemon.New]: engine and monitor share the configuration, and the monitor
    gets one failure callback, which calls [HandleContainerFailure]. *)
Definition Daemon_monitor (cfg : Config) : Monitor :=
  AddFailureCallback (Monitor_New cfg) FailoverCallback.

(** What [HandleContainerFailure] has decided when it reaches the call of
    [performFailover]: it has returned already, or it goes on to recover. *)
Inductive Prepared : Type :=
| Skip (err : option error)
| Proceed (containerConfig : ContainerConfig) (sourceNode targetNode : string).

Section Daemon.
Context `{APIClient} `{Host}.
Variable config : Config.

(** [HandleContainerFailure] up to the call of [performFailover]. *)
Definition prepareFailover (containerID : Z) : M Prepared :=
  if negb (fo_AutoFailover (cfg_Failover config)) then ret (Skip None)
  else
    match findContainerConfig config containerID with
    | None =>
        ret (Skip (Some (Errorf ("container " +:+ fmt_d containerID
                                 +:+ " not found in configuration"))))
    | Some containerConfig =>
        r <- GetContainer containerID ;;
        match r with
        | Err err => ret (Skip (Some (Wrapf "failed to get container info" err)))
        | Ok containerInfo =>
            t <- selectBestNode containerConfig (ci_Node containerInfo) ;;
            match t with
            | Err err => ret (Skip (Some (Wrapf "failed to select target node" err)))
            | Ok targetNode =>
                ret (Proceed containerConfig (ci_Node containerInfo) targetNode)
            end
        end
    end.

(** A goroutine started by [go callback(id, state)] that has not returned:
    it has not reached [performFailover] yet, or it is inside it. *)
Inductive Phase : Type :=
| Dispatched
| Recovering (containerConfig : ContainerConfig) (sourceNode targetNode : string).

Record Goroutine : Type := {
  g_callback : FailureCallback;
  g_containerID : Z;
  g_phase : Phase
}.

Record System : Type := {
  sys_states : gmap Z ContainerState;
  sys_trace : Trace;
  sys_goroutines : list Goroutine
}.

(** The goroutines the [go] statements among some events start. *)
Definition started_by (evs : list Event) : list Goroutine :=
  omap (fun e =>
          match e with
          | EvGo callback id =>
              Some {| g_callback := callback; g_containerID := id;
                      g_phase := Dispatched |}
          | _ => None
          end) evs.

(** What can happen next: the monitor checks one container; the goroutine at
    index [i] runs [HandleContainerFailure] up to [performFailover]; the
    goroutine at index [i] runs [performFailover] and returns. Nothing else
    in the daemon looks at, or waits for, the goroutines in flight. *)
Inductive Step : Type :=
| StepCheck (container : ContainerConfig)
| StepEnter (i : nat)
| StepLeave (i : nat).

(** One step. A step that does not apply (no state for the container, which
    [Start] rules out for configured containers; no such goroutine, or one in
    another phase) leaves the system as it is. The goroutines a check starts
    are those of the [go] statements among the events it adds. *)
Definition sys_step (fuel : nat) (step : Step) (s : System) : System :=
  match step with
  | StepCheck container =>
      match sys_states s !! cc_ID container with
      | None => s
      | Some state =>
          let (state', tr') :=
            checkContainer (Daemon_monitor config) container state (sys_trace s) in
          {| sys_states := <[cc_ID container := state']> (sys_states s);
             sys_trace := tr';
             sys_goroutines :=
               sys_goroutines s
               ++ started_by (drop (length (sys_trace s)) tr') |}
      end
  | StepEnter i =>
      match sys_goroutines s !! i with
      | Some {| g_callback := FailoverCallback; g_containerID := id;
                g_phase := Dispatched |} =>
          let (p, tr') := prepareFailover id (sys_trace s) in
          {| sys_states := sys_states s;
             sys_trace := tr';
             sys_goroutines :=
               match p with
               | Skip _ => delete i (sys_goroutines s)
               | Proceed containerConfig sourceNode targetNode =>
                   <[i := {| g_callback := FailoverCallback;
                             g_containerID := id;
                             g_phase := Recovering containerConfig sourceNode
                                                   targetNode |}]>
                     (sys_goroutines s)
               end |}
      | _ => s
      end
  | StepLeave i =>
      match sys_goroutines s !! i with
      | Some {| g_callback := FailoverCallback;
                g_phase := Recovering containerConfig sourceNode targetNode |} =>
          let (_, tr') :=
            performFailover config fuel containerConfig sourceNode targetNode
                            (sys_trace s) in
          {| sys_states := sys_states s;
             sys_trace := tr';
             sys_goroutines := delete i (sys_goroutines s) |}
      | _ => s
      end
  end.

Definition sys_run (fuel : nat) (schedule : list Step) (s : System) : System :=
  fold_left (fun s step => sys_step fuel step s) schedule s.

(** The loop of [Start] that creates the states. *)
Fixpoint initStates (containers : list ContainerConfig)
    (states : gmap Z ContainerState) : M (gmap Z ContainerState) :=
  match containers with
  | [] => ret states
  | container :: rest =>
      now <- Now ;;
      initStates rest (<[cc_ID container := initialState container now]> states)
  end.

(** The system when the first tick is due: one state per configured
    container, nothing in flight. *)
Definition sys_init : System :=
  let (states, tr) := initStates (mon_Containers (cfg_Monitoring config)) ∅ [] in
  {| sys_states := states; sys_trace := tr; sys_goroutines := [] |}.
End Daemon.

Definition dispatched (id : Z) : Goroutine :=
  {| g_callback := FailoverCallback; g_containerID := id; g_phase := Dispatched |}.

Definition recovering (id : Z) (cc : ContainerConfig) (src tgt : string)
  : Goroutine :=
  {| g_callback := FailoverCallback; g_containerID := id;
     g_phase := Recovering cc src tgt |}.

Definition is_recovering (id : Z) (g : Goroutine) : bool :=
  match g_phase g with
  | Recovering _ _ _ => (g_containerID g =? id)%Z
  | Dispatched => false
  end.

(** The number of recoveries in flight for a container. *)
Definition recoveries_in_flight (s : System) (id : Z) : nat :=
  length (List.filter (is_recovering id) (sys_goroutines s)).

(** Two monitored containers, 100 and 101, failure threshold 1. *)
Definition container101 : ContainerConfig :=
  {| cc_ID := 101;
     cc_Name := "second-container";
     cc_HealthChecks :=
       [ {| hc_Type := "tcp"; hc_Target := "localhost"; hc_Port := 81;
            hc_Path := ""; hc_Timeout := 10; hc_Interval := 30 |} ];
     cc_Priority := 0;
     cc_FailoverNodes := ["C"];
     cc_Storage := "";
     cc_BackupStorage := "" |}.

Definition twoConfig : Config :=
  {| cfg_Backup := {| bk_Storage := "local"; bk_BackupDir := "backup" |};
     cfg_Monitoring :=
       {| mon_FailureThreshold := 1;
          mon_Containers := [container100 ["B"; "C"]; container101] |};
     cfg_Failover :=
       {| fo_AutoFailover := true;
          fo_MaxRetries := 3;
          fo_RetryDelay := 5;
          fo_BackupBeforeFailover := true;
          fo_PreFailoverHooks := [];
          fo_PostFailoverHooks := [] |} |}.

(** A host on which every probe against localhost fails. *)
Definition failingHost : Host := scriptedHost [] ["localhost"].

(** The daemon on [twoConfig] after the first failed cycle of container 100
    has started a recovery, and after the second failed cycle has. *)
Definition one_recovery_run : System :=
  sys_run (H := clusterClient 0) (H0 := failingHost) twoConfig 4
    [ StepCheck (container100 ["B"; "C"]); StepEnter 0 ]
    (sys_init (H0 := failingHost) twoConfig).

Definition overlapping_run : System :=
  sys_run (H := clusterClient 0) (H0 := failingHost) twoConfig 4
    [ StepCheck (container100 ["B"; "C"]); StepEnter 1 ]
    one_recovery_run.

(** * Further code of the same files *)

(** ** Manual failover ([Engine.TriggerFailover]) *)

Section Manual.
Context `{APIClient} `{Host}.
Variable config : Config.

(** [if targetNode == "" { targetNode, err = e.selectBestNode(...) }] *)
Definition chooseTarget (containerConfig : ContainerConfig)
    (currentNode targetNode : string) : M (result string) :=
  if String.eqb targetNode "" then
    t <- selectBestNode containerConfig currentNode ;;
    match t with
    | Err err => ret (Err (Wrapf "failed to select target node" err))
    | Ok targetNode => ret (Ok targetNode)
    end
  else ret (Ok targetNode).

Definition TriggerFailover (fuel : nat) (containerID : Z) (targetNode : string)
    (force : bool) : M (outcome (option error)) :=
  match findContainerConfig config containerID with
  | None =>
      ret (Returned (Some (Errorf ("container " +:+ fmt_d containerID
                                   +:+ " not found in configuration"))))
  | Some containerConfig =>
      r <- GetContainer containerID ;;
      match r with
      | Err err => ret (Returned (Some (Wrapf "failed to get container info" err)))
      | Ok containerInfo =>
          (* Check if force is required *)
          if negb force && String.eqb (ci_Status containerInfo) "running" then
            ret (Returned (Some (Errorf "container is running and force flag not set")))
          else
            t <- chooseTarget containerConfig (ci_Node containerInfo) targetNode ;;
            match t with
            | Err err => ret (Returned (Some err))
            | Ok targetNode =>
                o <- performFailover config fuel containerConfig
                       (ci_Node containerInfo) targetNode ;;
                match o with
                | OutOfFuel => ret OutOfFuel
                | Returned result =>
                    if fr_Success result then ret (Returned None)
                    else ret (Returned (fr_Error result))
                end
            end
      end
  end.
End Manual.

(** ** Configuration checks ([validate] of [internal/config]) *)

Record ProxmoxConfig : Type := {
  px_Endpoint : string;
  px_Username : string;
  px_Password : string;
  px_TokenID : string;
  px_Secret : string;
  px_Insecure : bool
}.

(** The loaded configuration: the connection settings together with the
    parts the engine and the monitor read. *)
Record LoadedConfig : Type := {
  lc_Proxmox : ProxmoxConfig;
  lc_Config : Config
}.

(** The loop of [validate] over the monitored containers. *)
Fixpoint validateContainers (containers : list ContainerConfig) : option error :=
  match containers with
  | [] => None
  | container :: rest =>
      if (cc_ID container <=? 0)%Z then
        Some (Errorf "container ID must be positive")
      else if (length (cc_HealthChecks container) =? 0)%nat then
        Some (Errorf ("container " +:+ fmt_d (cc_ID container)
                      +:+ " must have at least one health check"))
      else if (length (cc_FailoverNodes container) =? 0)%nat then
        Some (Errorf ("container " +:+ fmt_d (cc_ID container)
                      +:+ " must have at least one failover node"))
      else validateContainers rest
  end.

Definition validate (config : LoadedConfig) : option error :=
  if String.eqb (px_Endpoint (lc_Proxmox config)) "" then
    Some (Errorf "proxmox endpoint is required")
  else if String.eqb (px_Username (lc_Proxmox config)) "" then
    Some (Errorf "proxmox username is required")
  else if String.eqb (px_Password (lc_Proxmox config)) ""
          && (String.eqb (px_TokenID (lc_Proxmox config)) ""
              || String.eqb (px_Secret (lc_Proxmox config)) "") then
    Some (Errorf "either password or token authentication must be configured")
  else if (length (mon_Containers (cfg_Monitoring (lc_Config config))) =? 0)%nat then
    Some (Errorf "at least one container must be configured for monitoring")
  else validateContainers (mon_Containers (cfg_Monitoring (lc_Config config))).

(** What [validate] asks of one container. *)
Definition container_ok (container : ContainerConfig) : Prop :=
  0 < cc_ID container
  /\ cc_HealthChecks container <> []
  /\ cc_FailoverNodes container <> [].

(** ** Daemon start-up ([Daemon.validateConnectivity], [Daemon.Start]) *)

Section Startup.
Context `{APIClient} `{Host}.
Variable config : Config.

(** The loop of [validateConnectivity] over the configured containers: a
    container that cannot be fetched is logged and skipped. *)
Fixpoint lookupContainers (containers : list ContainerConfig) : M unit :=
  match containers with
  | [] => ret tt
  | container :: rest =>
      _ <- GetContainer (cc_ID container) ;;
      lookupContainers rest
  end.

Definition validateConnectivity : M (option error) :=
  r <- GetNodes ;;
  match r with
  | Err err => ret (Some (Wrapf "failed to get nodes" err))
  | Ok _ =>
      lookupContainers (mon_Containers (cfg_Monitoring config)) ;;;
      ret None
  end.

(** [Daemon.Start] up to the first tick of the monitor: the connectivity
    check, then the states [Monitor.Start] creates. *)
Definition Daemon_Start : M (result (gmap Z ContainerState)) :=
  err <- validateConnectivity ;;
  match err with
  | Some err => ret (Err (Wrapf "failed to validate Proxmox connectivity" err))
  | None =>
      states <- initStates (mon_Containers (cfg_Monitoring config)) ∅ ;;
      ret (Ok states)
  end.
End Startup.

Definition is_lookup (e : Event) : bool :=
  match e with EvGetContainer _ | EvGetNodes => true | _ => false end.

(** ** The health checker ([internal/health/checker.go])

    What the network answers: a dial on a network and address, the creation
    of a GET request for a URL, and the status code of its response. *)

Record Network : Type := {
  net_Dial : string -> string -> option error;
  net_NewRequest : string -> option error;
  net_Do : string -> result Z
}.

Definition pingCheck (net : Network) (target : string) : bool * option error :=
  match net_Dial net "ip4:icmp" target with
  | Some err => (false, Some (Wrapf "ping failed" err))
  | None => (true, None)
  end.

Definition tcpCheck (net : Network) (target : string) (port : Z)
  : bool * option error :=
  let address := target +:+ ":" +:+ fmt_d port in
  match net_Dial net "tcp" address with
  | Some err => (false, Some (Wrapf "tcp check failed" err))
  | None => (true, None)
  end.

Definition httpURL (scheme target : string) (port : Z) (path : string) : string :=
  let path := if String.eqb path "" then "/" else path in
  if (port >? 0)%Z then scheme +:+ "://" +:+ target +:+ ":" +:+ fmt_d port +:+ path
  else scheme +:+ "://" +:+ target +:+ path.

Definition httpCheck (net : Network) (scheme target : string) (port : Z)
    (path : string) : bool * option error :=
  let url := httpURL scheme target port path in
  match net_NewRequest net url with
  | Some err => (false, Some (Wrapf "failed to create request" err))
  | None =>
      match net_Do net url with
      | Err err => (false, Some (Wrapf "http check failed" err))
      | Ok statusCode =>
          if (statusCode >=? 200)%Z && (statusCode <? 400)%Z then (true, None)
          else (false, Some (Errorf ("http check failed with status: "
                                     +:+ fmt_d statusCode)))
      end
  end.

Definition known_check_type (type : string) : bool :=
  existsb (String.eqb type) ["ping"; "icmp"; "tcp"; "http"; "https"].

(** [Checker.RunHealthCheck], started at time [start] and finished at time
    [finish]. *)
Definition Checker_RunHealthCheck (net : Network) (check : HealthCheck)
    (start finish : Time) : CheckResult :=
  let outcome :=
    if String.eqb (hc_Type check) "ping" || String.eqb (hc_Type check) "icmp" then
      pingCheck net (hc_Target check)
    else if String.eqb (hc_Type check) "tcp" then
      tcpCheck net (hc_Target check) (hc_Port check)
    else if String.eqb (hc_Type check) "http"
            || String.eqb (hc_Type check) "https" then
      httpCheck net (hc_Type check) (hc_Target check) (hc_Port check)
                (hc_Path check)
    else
      (false, Some (Errorf ("unknown health check type: " +:+ hc_Type check))) in
  {| cr_Type := hc_Type check;
     cr_Target := hc_Target check;
     cr_Success := fst outcome;
     cr_Error := snd outcome;
     cr_Duration := time_Sub finish start;
     cr_Timestamp := start |}.

(** The host whose probes are those of the checker on a given network. *)
Definition checkerHost (net : Network) (hooks : Trace -> string -> Z -> string -> option error)
    (clock : Trace -> Time) : Host := {|
  answer_Hook := hooks;
  answer_RunHealthCheck := fun tr check =>
    Checker_RunHealthCheck net check (clock tr) (clock (tr ++ [EvRunHealthCheck check]));
  answer_Now := clock
|}.

(** ** The status command ([runStatus]) *)

(** [err.Error()] *)
Fixpoint error_string (e : error) : string :=
  match e with
  | Errorf msg => msg
  | Wrapf msg cause => msg +:+ ": " +:+ error_string cause
  end.

Record ContainerStatus : Type := {
  st_ID : Z;
  st_Name : string;
  st_Node : string;
  st_Status : string;
  st_LastChecked : Time;
  st_HealthStatus : string;
  st_Error : string
}.

Section Status.
Context `{APIClient} `{Host}.

(** The loop of [runStatus] that collects one status per configured
    container. *)
Fixpoint collectStatuses (containers : list ContainerConfig)
    (containerStatuses : list ContainerStatus) : M (list ContainerStatus) :=
  match containers with
  | [] => ret containerStatuses
  | container :: rest =>
      now <- Now ;;
      r <- GetContainer (cc_ID container) ;;
      let status :=
        match r with
        | Err err =>
            {| st_ID := cc_ID container; st_Name := cc_Name container;
               st_Node := ""; st_Status := ""; st_LastChecked := now;
               st_HealthStatus := "error"; st_Error := error_string err |}
        | Ok containerInfo =>
            {| st_ID := cc_ID container; st_Name := cc_Name container;
               st_Node := ci_Node containerInfo;
               st_Status := ci_Status containerInfo; st_LastChecked := now;
               st_HealthStatus := "reachable"; st_Error := "" |}
        end in
      collectStatuses rest (containerStatuses ++ [status])
  end.
End Status.


(** ** The restore command ([runBackupRestore]), after the arguments are
    parsed and the configuration is loaded *)

Section RestoreCommand.
Context `{APIClient}.

Definition restoreTarget (targetNode : string) : M (result string) :=
  if String.eqb targetNode "" then
    r <- GetNodes ;;
    match r with
    | Err err => ret (Err (Wrapf "failed to get nodes" err))
    | Ok [] => ret (Err (Errorf "no nodes available"))
    | Ok (first :: _) => ret (Ok (ni_Name first))
    end
  else ret (Ok targetNode).

Definition runBackupRestore (containerID : Z)
    (backupPath targetNode storage : string) (force : bool) : M (option error) :=
  t <- restoreTarget targetNode ;;
  match t with
  | Err err => ret (Some err)
  | Ok targetNode =>
      let storage := if String.eqb storage "" then "local-lvm" else storage in
      err <- RestoreContainerFromBackup containerID targetNode storage
               backupPath force ;;
      match err with
      | Some err => ret (Some (Wrapf "restore failed" err))
      | None => ret None
      end
  end.
End RestoreCommand.

(** ** Vocabulary for the further properties *)

(** The events of an attempt loop: stop, restore, start and sleep. *)
Definition is_attempt_event (e : Event) : bool :=
  is_stop e || is_restore e || is_start e || is_sleep e.

(** Events that look at the cluster, probe a workload or start a goroutine:
    what a recovery itself never does. *)
Definition is_observation (e : Event) : bool :=
  is_lookup e || is_probe e || is_go e.

(** What [HandleContainerFailure] and [TriggerFailover] return for a result:
    [nil] on success, [result.Error] otherwise. *)
Definition verdict (result : FailoverResult) : option error :=
  if fr_Success result then None else fr_Error result.

Definition has_backup_prefix (containerID : Z) (backup : BackupInfo) : bool :=
  String.prefix ("vzdump-lxc-" +:+ fmt_d containerID +:+ "-") (bi_Filename backup).

(** The file name [Client.BackupContainer] makes up for a container. *)
Definition backupFilename (containerID : Z) (timestamp : string) : string :=
  "vzdump-lxc-" +:+ fmt_d containerID +:+ "-" +:+ timestamp +:+ ".tar.zst".

(** ** Further scripted environments *)

Definition backup (storage filename : string) : BackupInfo :=
  {| bi_Node := "A"; bi_Storage := storage; bi_Filename := filename;
     bi_Size := 0; bi_Format := "tar.zst" |}.

(** Two backups of container 100 and, between them, one of container 1000. *)
Definition listedBackups : list BackupInfo :=
  [ backup "local" "vzdump-lxc-100-2024_03_01-00_00_00.tar.zst";
    backup "local" "vzdump-lxc-1000-2025_01_01-00_00_00.tar.zst";
    backup "local" "vzdump-lxc-100-2024_01_01-00_00_00.tar.zst" ].

(** The cluster of [clusterClient] with a storage that lists [backups]. *)
Definition backupClient (backups : list BackupInfo) : APIClient := {|
  answer_GetContainer := fun _ _ => Ok (info100 "A" "running");
  answer_GetNodes := fun _ => Ok [node "A" true; node "B" false; node "C" true];
  answer_StopContainer := fun _ _ => None;
  answer_StartContainer := fun _ _ => None;
  answer_BackupContainer := fun _ _ _ _ => Ok "mock:backup/file.tar.zst";
  answer_RestoreContainerFromBackup := fun _ _ _ _ _ _ => None;
  answer_GetBackups := fun _ _ => Ok backups
|}.

(** [testConfig] with [backup_before_failover] off. *)
Definition reuseConfig (maxRetries : Z) (preHooks postHooks : list string) : Config :=
  {| cfg_Backup := {| bk_Storage := "local"; bk_BackupDir := "backup" |};
     cfg_Monitoring :=
       {| mon_FailureThreshold := 3;
          mon_Containers := [container100 ["B"; "C"]] |};
     cfg_Failover :=
       {| fo_AutoFailover := true;
          fo_MaxRetries := maxRetries;
          fo_RetryDelay := 5;
          fo_BackupBeforeFailover := false;
          fo_PreFailoverHooks := preHooks;
          fo_PostFailoverHooks := postHooks |} |}.

(** A configuration as loaded from a file, with password authentication. *)
Definition loadedConfig (config : Config) : LoadedConfig :=
  {| lc_Proxmox :=
       {| px_Endpoint := "https://pve:8006"; px_Username := "root@pam";
          px_Password := "secret"; px_TokenID := ""; px_Secret := "";
          px_Insecure := false |};
     lc_Config := config |}.

(** The results of the probes of [checks] when they are run one after the
    other from the trace [tr]. *)
Fixpoint probeResults `{Host} (checks : list HealthCheck) (tr : Trace)
  : list CheckResult :=
  match checks with
  | [] => []
  | check :: rest =>
      answer_RunHealthCheck tr check
      :: probeResults rest (tr ++ [EvRunHealthCheck check])
  end.

(** The lookups of [validateConnectivity] and of the status command. *)
Definition lookup_events (containers : list ContainerConfig) : list Event :=
  map (fun container => EvGetContainer (cc_ID container)) containers.

(** A decimal digit. *)
Definition is_digit (c : ascii) : bool :=
  (48 <=? nat_of_ascii c)%nat && (nat_of_ascii c <=? 57)%nat.

Fixpoint all_digits (s : string) : bool :=
  match s with
  | EmptyString => true
  | String c rest => is_digit c && all_digits rest
  end.

(** A network on which every dial and every request succeeds with status
    [code]. *)
Definition openNetwork (code : Z) : Network :=
  {| net_Dial := fun _ _ => None;
     net_NewRequest := fun _ => None;
     net_Do := fun _ => Ok code |}.

(** Container 100 with one more health check, of a type the checker does
    not know. *)
Definition mistypedContainer : ContainerConfig :=
  {| cc_ID := 100;
     cc_Name := "test-container";
     cc_HealthChecks :=
       [ {| hc_Type := "tcp"; hc_Target := "localhost"; hc_Port := 80;
            hc_Path := ""; hc_Timeout := 10; hc_Interval := 30 |};
         {| hc_Type := "HTTP"; hc_Target := "localhost"; hc_Port := 80;
            hc_Path := "/health"; hc_Timeout := 10; hc_Interval := 30 |} ];
     cc_Priority := 0;
     cc_FailoverNodes := ["B"; "C"];
     cc_Storage := "";
     cc_BackupStorage := "" |}.

(** The state of a container the monitor has not checked yet. *)
Definition fresh_state (id : Z) (state : ContainerState) : Prop :=
  cs_ID state = id
  /\ cs_FailureCount state = 0
  /\ cs_HealthyCount state = 0
  /\ cs_Status state = "unknown"
  /\ cs_Node state = ""
  /\ cs_HealthResults state = [].

(** What the lookups of the status command answer when they are made one
    after the other from the trace [tr], each after a clock reading. *)
Fixpoint lookupAnswers `{APIClient} (containers : list ContainerConfig)
    (tr : Trace) : list (result ContainerInfo) :=
  match containers with
  | [] => []
  | container :: rest =>
      answer_GetContainer (tr ++ [EvNow]) (cc_ID container)
      :: lookupAnswers rest (tr ++ [EvNow; EvGetContainer (cc_ID container)])
  end.

(** What a row of the status command says about its container, given what
    the lookup of that container answered. *)
Definition status_row (container : ContainerConfig)
    (answer : result ContainerInfo) (row : ContainerStatus) : Prop :=
  st_ID row = cc_ID container
  /\ st_Name row = cc_Name container
  /\ match answer with
     | Ok containerInfo =>
         st_HealthStatus row = "reachable"
         /\ st_Error row = ""
         /\ st_Node row = ci_Node containerInfo
         /\ st_Status row = ci_Status containerInfo
     | Err err =>
         st_HealthStatus row = "error"
         /\ st_Error row = error_string err
         /\ st_Node row = ""
         /\ st_Status row = ""
     end.

(** The events of the status command for the configured containers. *)
Definition status_events (containers : list ContainerConfig) : list Event :=
  concat (map (fun container => [EvNow; EvGetContainer (cc_ID container)])
              containers).



(** The hooks that are run when [hooks] are executed from the history [tr]:
    the configured ones, in order, up to and including the first that
    fails. *)
Fixpoint hooks_run `{Host} (cc : ContainerConfig) (hooks : list string)
    (tr : Trace) : list string :=
  match hooks with
  | [] => []
  | hook :: rest =>
      hook :: (if is_none (answer_Hook tr hook (cc_ID cc) (cc_Name cc))
               then hooks_run cc rest (tr ++ [hook_event cc hook])
               else [])
  end.

(** * Properties *)

(** ** Go integers *)

Module GoIntFacts.
Import GoInt.

Lemma wrap_in_range z : in_range (wrap z).
Proof.
  unfold in_range, wrap, int_min, int_max.
  pose proof (Z.mod_pos_bound (z - - 2 ^ 63) (2 ^ 64) ltac:(lia)). lia.
Qed.

Lemma wrap_small z : in_range z -> wrap z = z.
Proof.
  unfold in_range, wrap, int_min, int_max. intros Hz.
  rewrite Z.mod_small by lia. lia.
Qed.

Lemma incr_small z : int_min <= z < int_max -> incr z = z + 1.
Proof.
  intros Hz. unfold incr. apply wrap_small.
  unfold in_range, int_min, int_max in *. lia.
Qed.

Lemma incr_max : incr int_max = int_min.
Proof. reflexivity. Qed.

Lemma incr_in_range z : in_range (incr z).
Proof. apply wrap_in_range. Qed.

End GoIntFacts.

(** ** The monad *)

Lemma bind_run {A B} (m : M A) (k : A -> M B) tr a tr' :
  m tr = (a, tr') -> bind m k tr = k a tr'.
Proof. intros E. unfold bind. now rewrite E. Qed.

Lemma call_run {A} (e : Event) (answer : Trace -> A) tr :
  call e answer tr = (answer tr, (tr ++ [e])%list).
Proof. reflexivity. Qed.

(** ** Target selection *)

Section SelectFacts.

Lemma candidateLess_online_first x y :
  nc_online x = true -> nc_priority x < nc_priority y ->
  candidateLess y x = false.
Proof.
  intros Hx Hlt. unfold candidateLess. rewrite Hx.
  destruct (nc_online y); simpl; [apply Z.ltb_ge; lia | reflexivity].
Qed.

Lemma insertBy_online x l :
  nc_online x = true -> Forall (prio_lt x) l ->
  insertBy candidateLess x l = x :: l.
Proof.
  intros Hx Hall. destruct l as [|y l]; [reflexivity|].
  inversion Hall as [|? ? Hy _]; subst. simpl.
  now rewrite candidateLess_online_first.
Qed.

Lemma insertBy_offline x onl offl :
  nc_online x = false ->
  Forall (fun y => nc_online y = true) onl ->
  Forall (fun y => nc_online y = false) offl ->
  Forall (prio_lt x) offl ->
  insertBy candidateLess x (onl ++ offl) = (onl ++ x :: offl)%list.
Proof.
  intros Hx Hon Hoff Hlt. induction Hon as [|y onl Hy _ IH]; simpl.
  - destruct offl as [|y offl]; [reflexivity|]. simpl.
    inversion Hoff; inversion Hlt; subst.
    unfold candidateLess. rewrite Hx.
    replace (nc_online y) with false by congruence. simpl.
    unfold prio_lt in *.
    destruct (Z.ltb_spec (nc_priority y) (nc_priority x)); [lia | reflexivity].
  - unfold candidateLess at 1. rewrite Hy, Hx. simpl. now rewrite IH.
Qed.

Lemma Forall_list_filter {A} (P : A -> Prop) (f : A -> bool) l :
  Forall P l -> Forall P (List.filter f l).
Proof.
  rewrite !List.Forall_forall. intros HP x Hx.
  apply HP. now apply List.filter_In in Hx.
Qed.

Lemma Forall_filter_true {A} (f : A -> bool) l :
  Forall (fun y => f y = true) (List.filter f l).
Proof.
  rewrite List.Forall_forall. intros x Hx. now apply List.filter_In in Hx.
Qed.

(** Sorting candidates of increasing priority puts the online ones first
    and keeps the configured order inside each group. *)
Lemma sortSlice_partition l :
  StronglySorted prio_lt l ->
  sortSlice candidateLess l
  = (List.filter nc_online l
     ++ List.filter (fun c => negb (nc_online c)) l)%list.
Proof.
  induction 1 as [|x l Hs IH Hx]; [reflexivity|].
  simpl. fold (sortSlice candidateLess l). rewrite IH.
  destruct (nc_online x) eqn:Ex; simpl.
  - apply insertBy_online; [exact Ex|].
    apply Forall_app; split; now apply Forall_list_filter.
  - apply insertBy_offline; [exact Ex | apply Forall_filter_true | |].
    + rewrite List.Forall_forall. intros y Hy.
      apply List.filter_In in Hy. now apply negb_true_iff.
    + now apply Forall_list_filter.
Qed.

Lemma collectCandidates_prio nodeStatus current names : forall i,
  Forall (fun c => i <= nc_priority c)
         (collectCandidates nodeStatus current i names).
Proof.
  induction names as [|n names IH]; intros i; simpl; [constructor|].
  assert (Hrest : Forall (fun c => i <= nc_priority c)
                    (collectCandidates nodeStatus current (i + 1) names)).
  { eapply List.Forall_impl; [|apply IH]. simpl. intros; lia. }
  destruct (String.eqb n current); [exact Hrest|].
  destruct (nodeStatus !! n); [|exact Hrest].
  constructor; [simpl; lia | exact Hrest].
Qed.

Lemma collectCandidates_sorted nodeStatus current names : forall i,
  StronglySorted prio_lt (collectCandidates nodeStatus current i names).
Proof.
  induction names as [|n names IH]; intros i; simpl; [constructor|].
  destruct (String.eqb n current); [apply IH|].
  destruct (nodeStatus !! n); [|apply IH].
  constructor; [apply IH|].
  eapply List.Forall_impl; [|apply (collectCandidates_prio _ _ _ (i + 1))].
  unfold prio_lt. simpl. intros; lia.
Qed.

(** *** [sort.Slice] leaves no choice here

    Whatever algorithm sorts the candidates, the outcome is the slice
    [sortSlice] computes: candidates of pairwise distinct priority have
    exactly one arrangement that is sorted by [candidateLess]. *)

Lemma sorted_perm_eq {A} (R : A -> A -> Prop) (l1 : list A) : forall l2,
  (forall a b, In a l1 -> In b l1 -> R a b -> R b a -> a = b) ->
  StronglySorted R l1 -> StronglySorted R l2 -> Permutation l1 l2 -> l1 = l2.
Proof.
  induction l1 as [|a l1 IH]; intros l2 Hanti Hs1 Hs2 Hp.
  - apply Permutation_nil in Hp. now subst.
  - destruct l2 as [|b l2].
    { apply Permutation_sym, Permutation_nil in Hp. discriminate. }
    inversion Hs1 as [|? ? Hs1' Ha]; subst.
    inversion Hs2 as [|? ? Hs2' Hb]; subst.
    rewrite List.Forall_forall in Ha, Hb.
    assert (Hab : a = b).
    { assert (Hin_a : In a (b :: l2))
        by (eapply Permutation_in; [exact Hp | now left]).
      assert (Hin_b : In b (a :: l1))
        by (eapply Permutation_in; [apply Permutation_sym; exact Hp | now left]).
      destruct Hin_a as [->|Hin_a]; [reflexivity|].
      destruct Hin_b as [->|Hin_b]; [reflexivity|].
      apply Hanti; [now left | now right | now apply Ha | now apply Hb]. }
    subst b. f_equal. apply IH; [|assumption|assumption|].
    + intros x y Hx Hy. apply Hanti; now right.
    + eapply Permutation_cons_inv. exact Hp.
Qed.

Lemma filter_partition_perm {A} (f : A -> bool) l :
  Permutation l (List.filter f l ++ List.filter (fun x => negb (f x)) l).
Proof.
  induction l as [|x l IH]; simpl; [constructor|].
  destruct (f x); simpl.
  - now constructor.
  - now apply Permutation_cons_app.
Qed.

Lemma StronglySorted_filter {A} (R : A -> A -> Prop) (f : A -> bool) l :
  StronglySorted R l -> StronglySorted R (List.filter f l).
Proof.
  induction 1 as [|x l Hs IH Hx]; simpl; [constructor|].
  destruct (f x); [|exact IH].
  constructor; [exact IH | now apply Forall_list_filter].
Qed.

Lemma StronglySorted_app_intro {A} (R : A -> A -> Prop) l1 l2 :
  StronglySorted R l1 -> StronglySorted R l2 ->
  (forall a b, In a l1 -> In b l2 -> R a b) ->
  StronglySorted R (l1 ++ l2).
Proof.
  induction 1 as [|x l1 Hs IH Hx]; intros Hs2 Hcross; simpl; [exact Hs2|].
  constructor.
  - apply IH; [exact Hs2|]. intros a b Ha Hb. apply Hcross; [now right | exact Hb].
  - apply Forall_app. split; [exact Hx|].
    rewrite List.Forall_forall. intros b Hb. apply Hcross; [now left | exact Hb].
Qed.

Lemma prio_lt_candidate_le a b :
  nc_online a = nc_online b -> prio_lt a b -> candidate_le a b.
Proof.
  unfold prio_lt, candidate_le, candidateLess. intros -> Hlt.
  rewrite eqb_reflx. simpl. apply Z.ltb_ge. lia.
Qed.

Lemma sortSlice_sorted l :
  StronglySorted prio_lt l ->
  StronglySorted candidate_le (sortSlice candidateLess l).
Proof.
  intros Hs. rewrite (sortSlice_partition l Hs).
  assert (Hgroup : forall (f : nodeCandidate -> bool) v,
             (forall x, f x = true -> nc_online x = v) ->
             StronglySorted candidate_le (List.filter f l)).
  { intros f v Hf.
    pose proof (StronglySorted_filter prio_lt f l Hs) as Hsf.
    pose proof (Forall_filter_true f l) as Hall.
    induction Hsf as [|x l' _ IH Hx]; [constructor|].
    inversion Hall as [|? ? Hfx Hall']; subst.
    constructor; [now apply IH|].
    rewrite List.Forall_forall in *. intros y Hy.
    apply prio_lt_candidate_le; [|now apply Hx].
    rewrite (Hf x Hfx). symmetry. apply Hf. now apply Hall'. }
  apply StronglySorted_app_intro.
  - apply (Hgroup nc_online true). auto.
  - apply (Hgroup (fun c => negb (nc_online c)) false).
    intros x. now rewrite negb_true_iff.
  - intros a b Ha Hb. apply List.filter_In in Ha, Hb.
    destruct Ha as [_ Ha], Hb as [_ Hb]. apply negb_true_iff in Hb.
    unfold candidate_le, candidateLess. now rewrite Ha, Hb.
Qed.

Lemma candidate_le_antisym l a b :
  StronglySorted prio_lt l -> In a l -> In b l ->
  candidate_le a b -> candidate_le b a -> a = b.
Proof.
  intros Hs Ha Hb Hab Hba.
  assert (Hprio : nc_priority a = nc_priority b).
  { unfold candidate_le, candidateLess in *.
    destruct (nc_online a), (nc_online b); simpl in *; try discriminate;
      apply Z.ltb_ge in Hab, Hba; lia. }
  clear Hab Hba. induction Hs as [|x l Hs IH Hx]; [destruct Ha|].
  rewrite List.Forall_forall in Hx. unfold prio_lt in Hx.
  destruct Ha as [->|Ha], Hb as [->|Hb]; auto.
  - specialize (Hx b Hb). lia.
  - specialize (Hx a Ha). lia.
Qed.

Lemma sorted_permutation_unique l l' :
  StronglySorted prio_lt l ->
  Permutation l l' ->
  StronglySorted candidate_le l' ->
  l' = sortSlice candidateLess l.
Proof.
  intros Hs Hp Hs'.
  assert (Hperm : Permutation l (sortSlice candidateLess l)).
  { rewrite (sortSlice_partition l Hs). apply filter_partition_perm. }
  symmetry. apply (sorted_perm_eq candidate_le).
  - intros a b Ha Hb. apply (candidate_le_antisym l a b Hs).
    + eapply Permutation_in; [apply Permutation_sym; exact Hperm | exact Ha].
    + eapply Permutation_in; [apply Permutation_sym; exact Hperm | exact Hb].
  - now apply sortSlice_sorted.
  - exact Hs'.
  - eapply Permutation_trans; [apply Permutation_sym; exact Hperm | exact Hp].
Qed.

Lemma find_hd_filter {A} (f : A -> bool) l :
  List.find f l = hd_error (List.filter f l).
Proof.
  induction l as [|x l IH]; simpl; [reflexivity|].
  destruct (f x); [reflexivity | exact IH].
Qed.

Lemma filter_all_false {A} (f : A -> bool) l :
  List.find f l = None -> List.filter (fun x => negb (f x)) l = l.
Proof.
  induction l as [|x l IH]; simpl; [reflexivity|].
  destruct (f x); simpl; [discriminate | intros E; now rewrite IH].
Qed.

(** [candidates[0]] after sorting: the first online candidate in the
    configured order, or the first candidate when none is online. *)
Lemma hd_sortSlice c l :
  StronglySorted prio_lt (c :: l) ->
  hd c (sortSlice candidateLess (c :: l))
  = match List.find nc_online (c :: l) with Some x => x | None => c end.
Proof.
  intros Hs. rewrite (sortSlice_partition _ Hs).
  rewrite find_hd_filter.
  destruct (List.filter nc_online (c :: l)) as [|x onl] eqn:Ef; simpl hd_error.
  - rewrite filter_all_false by now rewrite find_hd_filter, Ef.
    reflexivity.
  - reflexivity.
Qed.

Lemma nodeStatusMap_snoc nodes n :
  nodeStatusMap (nodes ++ [n]) = <[ni_Name n := n]> (nodeStatusMap nodes).
Proof. unfold nodeStatusMap. now rewrite fold_left_app. Qed.

(** The status map the engine builds holds, name by name, what the liveness
    snapshot of the listing says. *)
Lemma liveness_nodeStatusMap nodes :
  liveness nodes = ni_Online <$> nodeStatusMap nodes.
Proof.
  unfold liveness.
  induction nodes as [|n nodes IH] using rev_ind; [reflexivity|].
  rewrite map_app, rev_app_distr, nodeStatusMap_snoc, fmap_insert.
  cbn [map rev app]. rewrite list_to_map_cons. now rewrite IH.
Qed.

Lemma is_live_lookup nodes name :
  is_live nodes name
  = match nodeStatusMap nodes !! name with
    | Some node => ni_Online node
    | None => false
    end.
Proof.
  unfold is_live. rewrite liveness_nodeStatusMap, lookup_fmap.
  now destruct (nodeStatusMap nodes !! name).
Qed.

(** A name has no entry in the status map exactly when the listing does not
    name it. *)
Lemma nodeStatusMap_unlisted nodes name :
  nodeStatusMap nodes !! name = None <-> ~ In name (map ni_Name nodes).
Proof.
  induction nodes as [|n nodes IH] using rev_ind.
  - split; [now intros _ [] | reflexivity].
  - rewrite nodeStatusMap_snoc, lookup_insert_None, IH, map_app, in_app_iff.
    simpl. tauto.
Qed.

(** The online candidates the engine collects are the eligible names. *)
Lemma find_online_collect nodes current names : forall i,
  option_map nc_name
    (List.find nc_online
       (collectCandidates (nodeStatusMap nodes) current i names))
  = List.find (eligible nodes current) names.
Proof.
  induction names as [|n names IH]; intros i; simpl; [reflexivity|].
  unfold eligible at 1. rewrite is_live_lookup.
  destruct (String.eqb n current); simpl; [apply IH|].
  destruct (nodeStatusMap nodes !! n) as [node|]; [|apply IH].
  simpl. destruct (ni_Online node); [reflexivity | apply IH].
Qed.

Lemma collect_nil_not_eligible nodes current names : forall i,
  collectCandidates (nodeStatusMap nodes) current i names = [] ->
  List.find (eligible nodes current) names = None.
Proof.
  intros i E. rewrite <- (find_online_collect nodes current names i).
  now rewrite E.
Qed.

(** What [selectBestNode] returns, given the node listing. *)
Lemma selectBestNode_run `{APIClient} cc current nodes tr :
  cc_FailoverNodes cc <> [] ->
  answer_GetNodes tr = Ok nodes ->
  selectBestNode cc current tr
  = (match List.find (eligible nodes current) (cc_FailoverNodes cc) with
     | Some t => Ok t
     | None =>
         match collectCandidates (nodeStatusMap nodes) current 0
                                 (cc_FailoverNodes cc) with
         | [] => Err (ErrNoAvailable (cc_ID cc))
         | _ :: _ => Err (ErrNoOnline (cc_ID cc))
         end
     end, (tr ++ [EvGetNodes])%list).
Proof.
  intros Hne Hnodes. unfold selectBestNode.
  destruct (cc_FailoverNodes cc) as [|n0 names0] eqn:En; [congruence|].
  rewrite <- En. clear En Hne n0 names0.
  unfold bind, GetNodes, call. rewrite Hnodes.
  pose proof (find_online_collect nodes current (cc_FailoverNodes cc) 0) as Hf.
  pose proof (collectCandidates_sorted (nodeStatusMap nodes) current
                (cc_FailoverNodes cc) 0) as Hs.
  destruct (collectCandidates (nodeStatusMap nodes) current 0
              (cc_FailoverNodes cc)) as [|c l] eqn:Ec.
  - simpl in Hf. now rewrite <- Hf.
  - rewrite (hd_sortSlice c l Hs). rewrite <- Hf.
    destruct (List.find nc_online (c :: l)) as [x|] eqn:Ex; simpl.
    + apply List.find_some in Ex. destruct Ex as [_ Ex]. now rewrite Ex.
    + assert (Hc : nc_online c = false).
      { simpl in Ex. now destruct (nc_online c). }
      now rewrite Hc.
Qed.

(** The design document's selection, on the same terms. *)
Lemma first_under_from b l :
  StronglySorted rank_lt (b :: l) ->
  fold_left (fun best x =>
               match best with
               | None => Some x
               | Some b => if spec_before x b then Some x else Some b
               end) l (Some b)
  = if host_live b then Some b
    else match List.find host_live l with Some x => Some x | None => Some b end.
Proof.
  revert b. induction l as [|x l IH]; intros b Hs; simpl.
  - now destruct (host_live b).
  - inversion Hs as [|? ? Hxl Hb]; subst.
    inversion Hb as [|? ? Hx Hl]; subst.
    assert (Hbefore : spec_before x b = host_live x && negb (host_live b)).
    { unfold spec_before. unfold rank_lt in Hx.
      destruct (Z.ltb_spec (host_rank x) (host_rank b)); [lia|].
      now rewrite andb_false_r, orb_false_r. }
    rewrite Hbefore.
    destruct (host_live b) eqn:Eb.
    + rewrite andb_false_r. rewrite IH; [now rewrite Eb|].
      inversion Hxl; subst. now constructor.
    + rewrite andb_true_r. destruct (host_live x) eqn:Ex.
      * rewrite IH by exact Hxl. now rewrite Ex.
      * rewrite IH; [now rewrite Eb|].
        inversion Hxl; subst. now constructor.
Qed.

Lemma first_under_find l :
  StronglySorted rank_lt l ->
  match first_under spec_before l with
  | None => None
  | Some first => if host_live first then Some (host_name first) else None
  end
  = option_map host_name (List.find host_live l).
Proof.
  intros Hs. destruct l as [|b l]; [reflexivity|].
  unfold first_under. simpl fold_left. rewrite (first_under_from b l Hs).
  simpl. destruct (host_live b) eqn:Eb; [now rewrite Eb|].
  destruct (List.find host_live l) as [x|] eqn:Ex.
  - apply List.find_some in Ex. destruct Ex as [_ Ex]. now rewrite Ex.
  - now rewrite Eb.
Qed.

Lemma remaining_rank snapshot current names : forall i,
  Forall (fun c => i <= host_rank c) (remaining_of snapshot current i names).
Proof.
  unfold remaining_of.
  induction names as [|n names IH]; intros i; simpl; [constructor|].
  assert (Hrest : Forall (fun c => i <= host_rank c)
            (map (resolve_liveness snapshot)
               (List.filter (fun c => negb (String.eqb (fst c) current))
                  (ranked (i + 1) names)))).
  { eapply List.Forall_impl; [|apply IH]. simpl. intros; lia. }
  destruct (String.eqb n current); simpl; [exact Hrest|].
  constructor; [simpl; lia | exact Hrest].
Qed.

Lemma remaining_sorted snapshot current names : forall i,
  StronglySorted rank_lt (remaining_of snapshot current i names).
Proof.
  induction names as [|n names IH]; intros i; [constructor|].
  unfold remaining_of in *. simpl.
  destruct (String.eqb n current); simpl; [apply IH|].
  constructor; [apply IH|].
  eapply List.Forall_impl; [|apply (remaining_rank snapshot current names (i + 1))].
  unfold rank_lt. simpl. intros; lia.
Qed.

Lemma find_live_remaining nodes current names : forall i,
  option_map host_name
    (List.find host_live (remaining_of (liveness nodes) current i names))
  = List.find (eligible nodes current) names.
Proof.
  unfold remaining_of.
  induction names as [|n names IH]; intros i; simpl; [reflexivity|].
  unfold eligible at 1.
  destruct (String.eqb n current); simpl; [apply IH|].
  fold (is_live nodes n). destruct (is_live nodes n); [reflexivity | apply IH].
Qed.

Lemma spec_select_find names current nodes :
  spec_select names current (liveness nodes)
  = List.find (eligible nodes current) names.
Proof.
  unfold spec_select. fold (remaining_of (liveness nodes) current 0 names).
  rewrite first_under_find by apply remaining_sorted.
  apply find_live_remaining.
Qed.

(** [find] returns the earliest element that passes. *)
Lemma find_earliest {A} (f : A -> bool) l x :
  List.find f l = Some x ->
  exists before after,
    l = (before ++ x :: after)%list /\ f x = true
    /\ List.Forall (fun y => f y = false) before.
Proof.
  induction l as [|y l IH]; simpl; [discriminate|].
  destruct (f y) eqn:Ey.
  - intros [= <-]. exists [], l. repeat split; [exact Ey | constructor].
  - intros E. destruct (IH E) as (b & a & -> & Hx & Hb).
    exists (y :: b), a. repeat split; [exact Hx | now constructor].
Qed.

End SelectFacts.

Example select_example_live :
  fst (selectBestNode (H := scriptedClient (Ok (info100 "A" "running"))
                              [node "B" false; node "C" true] 0)
         (container100 ["B"; "C"]) "A" [])
  = Ok "C".
Proof. vm_compute. reflexivity. Qed.

Example select_example_none :
  fst (selectBestNode (H := scriptedClient (Ok (info100 "A" "running"))
                              [node "B" false] 0)
         (container100 ["B"]) "A" [])
  = Err (ErrNoOnline 100).
Proof. vm_compute. reflexivity. Qed.

(** The snapshot of the listing "B offline, C online" is B: false, C: true,
    and says nothing of A. *)
Example liveness_example :
  liveness [node "B" false; node "C" true] !! "B" = Some false
  /\ liveness [node "B" false; node "C" true] !! "C" = Some true
  /\ liveness [node "B" false; node "C" true] !! "A" = None.
Proof. vm_compute. auto. Qed.

(** C4. For a non-empty candidate list, a current host and a liveness
    snapshot (read off the node listing the platform returned: each listed
    name with the online flag of its entry, [liveness]), [selectBestNode]
    makes the single platform call [GetNodes] and
    - returns what the design document's selection returns: the first
      candidate under (liveness descending, preference rank ascending) after
      removing the current host, provided that candidate is live;
    - a returned target is never the current host, is live, and every
      candidate configured before it is the current host or not live;
    - it returns a target whenever some candidate other than the current
      host is live;
    - it fails exactly when every candidate remaining after the removal of
      the current host is non-live (in particular when none remains), and
      then with one of the two no-eligible-target errors. *)
Theorem selectBestNode_spec `{APIClient}
    (cc : ContainerConfig) (current : string) (nodes : list NodeInfo) (tr : Trace) :
  cc_FailoverNodes cc <> [] ->
  answer_GetNodes tr = Ok nodes ->
  let r := fst (selectBestNode cc current tr) in
  snd (selectBestNode cc current tr) = (tr ++ [EvGetNodes])%list
  /\ result_target r = spec_select (cc_FailoverNodes cc) current (liveness nodes)
  /\ (forall t, r = Ok t ->
        t <> current /\ is_live nodes t = true
        /\ exists before after,
             cc_FailoverNodes cc = (before ++ t :: after)%list
             /\ List.Forall (fun c => c = current \/ is_live nodes c = false) before)
  /\ ((exists c, In c (cc_FailoverNodes cc) /\ c <> current
                 /\ is_live nodes c = true) ->
      exists t, r = Ok t)
  /\ ((exists e, r = Err e) <->
      List.Forall (fun c => is_live nodes c = false)
                  (remaining_candidates (cc_FailoverNodes cc) current))
  /\ (forall e, r = Err e ->
        e = ErrNoAvailable (cc_ID cc) \/ e = ErrNoOnline (cc_ID cc)).
Proof.
  intros Hne Hnodes r. subst r.
  rewrite (selectBestNode_run cc current nodes tr Hne Hnodes). simpl fst. simpl snd.
  rewrite spec_select_find.
  set (names := cc_FailoverNodes cc).
  assert (Helig : forall c, eligible nodes current c = true
                            <-> c <> current /\ is_live nodes c = true).
  { intros c. unfold eligible. rewrite andb_true_iff, negb_true_iff.
    rewrite String.eqb_neq. tauto. }
  assert (Hnone : List.find (eligible nodes current) names = None <->
                  List.Forall (fun c => is_live nodes c = false)
                              (remaining_candidates names current)).
  { rewrite List.Forall_forall. unfold remaining_candidates. split.
    - intros Hf c Hc. apply List.filter_In in Hc. destruct Hc as [Hin Hc].
      pose proof (List.find_none _ _ Hf c Hin) as Hn.
      unfold eligible in Hn. rewrite Hc in Hn. exact Hn.
    - intros Hall. destruct (List.find (eligible nodes current) names) as [t|] eqn:Ef;
        [|reflexivity].
      apply List.find_some in Ef. destruct Ef as [Hin Ht].
      apply Helig in Ht. destruct Ht as [Hcur Hlive].
      rewrite (Hall t) in Hlive; [discriminate|].
      apply List.filter_In. split; [exact Hin|].
      now apply negb_true_iff, String.eqb_neq. }
  split; [reflexivity|].
  split; [now destruct (List.find (eligible nodes current) names); [|destruct (collectCandidates _ _ _ _)]|].
  split.
  { intros t Ht.
    destruct (List.find (eligible nodes current) names) as [t'|] eqn:Ef.
    - injection Ht as ->.
      destruct (find_earliest _ _ _ Ef) as (before & after & Hl & Hel & Hb).
      apply Helig in Hel. destruct Hel as [Hcur Hlive].
      repeat split; [exact Hcur | exact Hlive |].
      exists before, after. split; [exact Hl|].
      eapply List.Forall_impl; [|exact Hb]. intros c Hc. simpl in Hc.
      unfold eligible in Hc. apply andb_false_iff in Hc.
      destruct Hc as [Hc|Hc]; [left | now right].
      now apply negb_false_iff, String.eqb_eq in Hc.
    - now destruct (collectCandidates _ _ _ _). }
  split.
  { intros (c & Hin & Hcur & Hlive).
    destruct (List.find (eligible nodes current) names) as [t|] eqn:Ef; [now exists t|].
    pose proof (List.find_none _ _ Ef c Hin) as Hn.
    assert (eligible nodes current c = true) by now apply Helig.
    congruence. }
  split.
  { rewrite <- Hnone. split.
    - intros [e He].
      now destruct (List.find (eligible nodes current) names).
    - intros ->. destruct (collectCandidates _ _ _ _); eauto. }
  intros e He.
  destruct (List.find (eligible nodes current) names); [discriminate|].
  destruct (collectCandidates _ _ _ _); injection He as <-; auto.
Qed.

Lemma selectBestNode_spec_witness :
  result_target
    (fst (selectBestNode (H := scriptedClient (Ok (info100 "A" "running"))
                                [node "B" false; node "C" true] 0)
            (container100 ["B"; "C"]) "A" []))
  = spec_select ["B"; "C"] "A" (liveness [node "B" false; node "C" true]).
Proof.
  pose proof (selectBestNode_spec
                (H := scriptedClient (Ok (info100 "A" "running"))
                        [node "B" false; node "C" true] 0)
                (container100 ["B"; "C"]) "A"
                [node "B" false; node "C" true] []
                ltac:(discriminate) eq_refl) as W.
  exact (proj1 (proj2 W)).
Defined.

(** ** Hooks *)

Section EngineFacts.
Context `{APIClient} `{Host}.
Variable config : Config.

Lemma executeHooks_eq hooks cc :
  executeHooks hooks cc = executeHooks_loop hooks cc.
Proof. now destruct hooks. Qed.

(** Running hooks touches nothing but hooks: the events are the hook calls
    of a prefix of the configured list. *)
Lemma executeHooks_run hooks cc tr :
  exists ran,
    executeHooks hooks cc tr
    = (fst (executeHooks hooks cc tr), (tr ++ map (hook_event cc) ran)%list)
    /\ (exists rest, hooks = (ran ++ rest)%list)
    /\ (fst (executeHooks hooks cc tr) = None -> ran = hooks).
Proof.
  rewrite executeHooks_eq. revert tr.
  induction hooks as [|h hooks IH]; intros tr.
  - exists []. simpl. unfold ret. rewrite app_nil_r. repeat split. now exists [].
  - simpl. unfold bind, runHook, call.
    destruct (answer_Hook tr h (cc_ID cc) (cc_Name cc)) as [e|] eqn:Eh.
    + exists [h]. simpl. unfold ret. simpl. repeat split.
      * now exists hooks.
      * discriminate.
    + destruct (IH (tr ++ [hook_event cc h])%list) as (ran & Hrun & [rest Hrest] & Hall).
      exists (h :: ran). fold (hook_event cc h). rewrite Hrun at 1. simpl.
      rewrite <- app_assoc. simpl. repeat split.
      * exists rest. now rewrite Hrest.
      * intros Hn. now rewrite Hall.
Qed.

Lemma filter_hook_events (p : Event -> bool) cc ran :
  (forall h, p (hook_event cc h) = false) ->
  List.filter p (map (hook_event cc) ran) = [].
Proof.
  intros Hp. induction ran as [|h ran IH]; simpl; [reflexivity|].
  now rewrite Hp.
Qed.

Lemma map_hook_event_no_platform cc ran :
  List.filter is_platform_call (map (hook_event cc) ran) = [].
Proof. induction ran; simpl; auto. Qed.

(** A hook fails when its turn comes: the hooks configured after it are not
    run, and the error names the hook. *)
Lemma executeHooks_fails cc before hook after e : forall tr,
  hooks_pass cc before tr = true ->
  answer_Hook (tr ++ map (hook_event cc) before) hook (cc_ID cc) (cc_Name cc)
  = Some e ->
  executeHooks (before ++ hook :: after) cc tr
  = (Some (Wrapf ("hook '" +:+ hook +:+ "' failed") e),
     tr ++ map (hook_event cc) (before ++ [hook])).
Proof.
  rewrite executeHooks_eq.
  induction before as [|h before IH]; intros tr Hpass Hfail; simpl in *.
  - rewrite app_nil_r in Hfail. unfold bind, runHook, call. now rewrite Hfail.
  - apply andb_true_iff in Hpass. destruct Hpass as [Hh Hpass].
    unfold bind, runHook, call.
    destruct (answer_Hook tr h (cc_ID cc) (cc_Name cc)); [discriminate|].
    fold (hook_event cc h). rewrite IH; [now rewrite <- app_assoc | exact Hpass |].
    now rewrite <- app_assoc.
Qed.

(** Conversely, an error from [executeHooks] is the failure of one hook. *)
Lemma executeHooks_error_inv cc hooks : forall tr err,
  fst (executeHooks hooks cc tr) = Some err ->
  exists before hook after e,
    hooks = before ++ hook :: after
    /\ hooks_pass cc before tr = true
    /\ answer_Hook (tr ++ map (hook_event cc) before) hook (cc_ID cc) (cc_Name cc)
       = Some e
    /\ err = Wrapf ("hook '" +:+ hook +:+ "' failed") e.
Proof.
  rewrite executeHooks_eq.
  induction hooks as [|h hooks IH]; intros tr err; simpl; [discriminate|].
  unfold bind, runHook, call.
  destruct (answer_Hook tr h (cc_ID cc) (cc_Name cc)) as [e|] eqn:Eh.
  - simpl. intros [= <-]. exists [], h, hooks, e. simpl.
    rewrite app_nil_r. auto.
  - intros Herr. destruct (IH _ _ Herr) as (before & hook & after & e & -> & Hp & Hf & ->).
    exists (h :: before), hook, after, e. simpl. rewrite Eh. simpl.
    fold (hook_event cc h) in Hp. rewrite <- app_assoc in Hf.
    repeat split; assumption.
Qed.

(** C6. When a pre-failover hook fails (the hooks configured before it having
    passed), [performFailover] returns a result whose success flag is false
    and whose error is set, and between its two clock readings it has run
    hooks only, up to the failing one: no backup is created or looked up,
    nothing is stopped, restored or started. *)
Theorem performFailover_prehook_veto fuel cc src tgt tr before hook after e :
  fo_PreFailoverHooks (cfg_Failover config) = before ++ hook :: after ->
  hooks_pass cc before (tr ++ [EvNow]) = true ->
  answer_Hook ((tr ++ [EvNow]) ++ map (hook_event cc) before) hook
              (cc_ID cc) (cc_Name cc) = Some e ->
  exists result,
    performFailover config fuel cc src tgt tr
    = (Returned result,
       tr ++ EvNow :: map (hook_event cc) (before ++ [hook]) ++ [EvNow])
    /\ fr_Success result = false
    /\ fr_Error result
       = Some (Wrapf "pre-failover hooks failed"
                 (Wrapf ("hook '" +:+ hook +:+ "' failed") e))
    /\ List.filter is_platform_call
          (EvNow :: map (hook_event cc) (before ++ [hook]) ++ [EvNow]) = [].
Proof.
  intros Hhooks Hpass Hfail.
  pose proof (executeHooks_fails cc before hook after e _ Hpass Hfail) as Hrun.
  rewrite <- Hhooks in Hrun.
  unfold performFailover. unfold bind at 1. unfold Now at 1. rewrite call_run.
  rewrite (bind_run _ _ _ _ _ Hrun).
  unfold bind, Now, call, ret. simpl.
  eexists. split.
  { f_equal. rewrite <- !app_assoc. reflexivity. }
  repeat split.
  rewrite List.filter_app, map_hook_event_no_platform. reflexivity.
Qed.

(** C10. With auto-failover disabled, [HandleContainerFailure] returns
    [nil] for every container id and leaves the trace as it is: it makes
    no platform call and runs no hook. *)
Theorem HandleContainerFailure_disabled fuel containerID tr :
  fo_AutoFailover (cfg_Failover config) = false ->
  HandleContainerFailure config fuel containerID tr = (Returned None, tr).
Proof.
  intros Hoff. unfold HandleContainerFailure. now rewrite Hoff.
Qed.

(** *** The retry loop *)

Lemma attempt_run cc src tgt path tr :
  exists restored,
    performBackupRestoreFailover cc src tgt path tr
    = (fst (performBackupRestoreFailover cc src tgt path tr),
       (tr ++ attempt_events cc tgt path restored)%list).
Proof.
  unfold performBackupRestoreFailover, bind, StopContainer,
    RestoreContainerFromBackup, StartContainer, call, ret.
  fold (attempt_storage cc).
  destruct (answer_RestoreContainerFromBackup _ _ _ _ _ _).
  - exists false. simpl. now rewrite <- app_assoc.
  - exists true.
    destruct (answer_StartContainer _ _); simpl; now rewrite <- !app_assoc.
Qed.

Lemma count_events_app p a b :
  count_events p (a ++ b) = (count_events p a + count_events p b)%nat.
Proof. unfold count_events. now rewrite List.filter_app, length_app. Qed.

Lemma attempt_chunk cc src tgt path tr out chunk :
  performBackupRestoreFailover cc src tgt path tr = (out, (tr ++ chunk)%list) ->
  exists restored, chunk = attempt_events cc tgt path restored.
Proof.
  intros E. destruct (attempt_run cc src tgt path tr) as [restored Hr].
  exists restored. rewrite E in Hr. apply (f_equal snd) in Hr. simpl in Hr.
  now apply app_inv_head in Hr.
Qed.

Lemma attempts_from_counts cc src tgt path d tr k final evs :
  attempts_from (performBackupRestoreFailover cc src tgt path) d tr k final evs ->
  (1 <= k)%nat
  /\ count_events is_sleep evs = (k - 1)%nat
  /\ count_events is_stop evs = k
  /\ count_events is_restore evs = k.
Proof.
  induction 1 as [tr final chunk Hatt | tr e chunk k final evs Hatt _ IH].
  - apply attempt_chunk in Hatt. destruct Hatt as [[] ->]; repeat split; auto.
  - apply attempt_chunk in Hatt. destruct Hatt as [restored ->].
    destruct IH as (Hk & Hsl & Hst & Hre).
    rewrite !count_events_app.
    change (EvSleep d :: evs) with ([EvSleep d] ++ evs)%list.
    rewrite !count_events_app, Hsl, Hst, Hre.
    destruct restored; cbn; repeat split; lia.
Qed.

Lemma retryLoop_run cc src tgt path : forall rem a fuel err0 tr,
  1 <= a <= fo_MaxRetries (cfg_Failover config) ->
  fo_MaxRetries (cfg_Failover config) < GoInt.int_max ->
  Z.to_nat (fo_MaxRetries (cfg_Failover config) - a) = rem ->
  (rem + 2 <= fuel)%nat ->
  exists k final evs,
    attempts_from (performBackupRestoreFailover cc src tgt path)
                  (fo_RetryDelay (cfg_Failover config)) tr k final evs
    /\ (k <= rem + 1)%nat
    /\ retryLoop config fuel cc src tgt path a err0 tr
       = (Returned (is_none final, final), (tr ++ evs)%list)
    /\ (final <> None -> k = (rem + 1)%nat).
Proof.
  set (n := fo_MaxRetries (cfg_Failover config)).
  induction rem as [|rem IH]; intros a fuel err0 tr Ha Hn Hrem Hfuel.
  - (* the attempt numbered [n], the last one *)
    assert (a = n) by lia. subst a.
    destruct fuel as [|[|fuel]]; [lia | lia |].
    destruct (attempt_run cc src tgt path tr) as [restored Hatt].
    set (out := fst (performBackupRestoreFailover cc src tgt path tr)) in *.
    exists 1%nat, out, (attempt_events cc tgt path restored).
    split; [now apply attempts_last|]. split; [lia|]. split; [|reflexivity].
    cbn [retryLoop]. fold n. rewrite Z.leb_refl.
    rewrite (bind_run _ _ _ _ _ Hatt).
    destruct out as [e|]; [|reflexivity].
    rewrite Z.ltb_irrefl. unfold bind at 1, ret at 1.
    rewrite GoIntFacts.incr_small by (unfold GoInt.int_min, GoInt.int_max in *; lia).
    destruct (Z.leb_spec (n + 1) n); [lia | reflexivity].
  - (* an earlier attempt *)
    assert (Halt : a < n) by lia.
    destruct fuel as [|fuel]; [lia|].
    destruct (attempt_run cc src tgt path tr) as [restored Hatt].
    set (out := fst (performBackupRestoreFailover cc src tgt path tr)) in *.
    cbn [retryLoop]. fold n.
    destruct (Z.leb_spec a n); [|lia].
    rewrite (bind_run _ _ _ _ _ Hatt).
    destruct out as [e|] eqn:Eout.
    + destruct (Z.ltb_spec a n); [|lia].
      unfold bind at 1, Sleep at 1. rewrite call_run.
      rewrite GoIntFacts.incr_small by (unfold GoInt.int_min, GoInt.int_max in *; lia).
      destruct (IH (a + 1) fuel (Some e)
                   ((tr ++ attempt_events cc tgt path restored)
                      ++ [EvSleep (fo_RetryDelay (cfg_Failover config))])%list)
        as (k & final & evs & Hfrom & Hk & Hrun & Hfin); try lia.
      exists (S k), final,
        (attempt_events cc tgt path restored
           ++ EvSleep (fo_RetryDelay (cfg_Failover config)) :: evs)%list.
      split.
      { eapply attempts_retry; [exact Hatt|].
        now rewrite <- app_assoc in Hfrom. }
      split; [lia|]. split.
      { rewrite Hrun. f_equal. rewrite <- !app_assoc. reflexivity. }
      intros Hf. rewrite (Hfin Hf). lia.
    + exists 1%nat, None, (attempt_events cc tgt path restored).
      split; [now apply attempts_last|]. split; [lia|].
      split; [reflexivity | congruence].
Qed.

(** What the part of [performFailover] from the retry loop on does, for a
    retry counter that cannot overflow. *)
Lemma failoverWithRetries_run fuel cc src tgt path startTime tr :
  1 <= fo_MaxRetries (cfg_Failover config) ->
  fo_MaxRetries (cfg_Failover config) < GoInt.int_max ->
  (Z.to_nat (fo_MaxRetries (cfg_Failover config)) < fuel)%nat ->
  exists k final evs result ran,
    attempts_from (performBackupRestoreFailover cc src tgt path)
                  (fo_RetryDelay (cfg_Failover config)) tr k final evs
    /\ (1 <= k <= Z.to_nat (fo_MaxRetries (cfg_Failover config)))%nat
    /\ (final <> None -> k = Z.to_nat (fo_MaxRetries (cfg_Failover config)))
    /\ failoverWithRetries config fuel cc src tgt path startTime tr
       = (Returned result, tr ++ evs ++ EvNow :: map (hook_event cc) ran)
    /\ fr_Success result = is_none final
    /\ (forall e, final = Some e ->
          ran = []
          /\ fr_Error result
             = Some (Wrapf ("backup-restore failover failed after "
                            +:+ fmt_d (fo_MaxRetries (cfg_Failover config))
                            +:+ " attempts") e))
    /\ (final = None -> fr_Error result = None)
    /\ count_events is_sleep (evs ++ EvNow :: map (hook_event cc) ran)
       = (k - 1)%nat
    /\ count_events is_stop (evs ++ EvNow :: map (hook_event cc) ran) = k
    /\ count_events is_restore (evs ++ EvNow :: map (hook_event cc) ran) = k.
Proof.
  set (n := fo_MaxRetries (cfg_Failover config)).
  intros Hn1 Hmax Hfuel.
  destruct (retryLoop_run cc src tgt path (Z.to_nat (n - 1)) 1 fuel None tr)
    as (k & final & evs & Hfrom & Hk & Hrun & Hfin); try (fold n; lia).
  destruct (attempts_from_counts _ _ _ _ _ _ _ _ _ Hfrom)
    as (Hk1 & Hsl & Hst & Hre).
  assert (Hcount : forall p ran,
             (forall h, p (hook_event cc h) = false) -> p EvNow = false ->
             count_events p (evs ++ EvNow :: map (hook_event cc) ran)
             = count_events p evs).
  { intros p ran Hp Hnow. rewrite count_events_app. unfold count_events at 2.
    simpl. rewrite Hnow.
    assert (List.filter p (map (hook_event cc) ran) = []) as ->.
    { induction ran as [|h ran IHr]; simpl; [reflexivity|]. now rewrite Hp. }
    simpl. lia. }
  unfold failoverWithRetries. rewrite (bind_run _ _ _ _ _ Hrun).
  unfold bind at 1, Now at 1. rewrite call_run.
  destruct final as [e|]; simpl is_none; cbv iota beta.
  - exists k, (Some e), evs. eexists. exists [].
    split; [exact Hfrom|]. split; [lia|].
    split; [intros _; rewrite Hfin by discriminate; lia|].
    split; [unfold ret; simpl; now rewrite <- app_assoc|].
    split; [reflexivity|].
    split; [intros e' He'; injection He' as He'; rewrite <- He'; split; reflexivity|].
    split; [discriminate|].
    rewrite !Hcount by reflexivity. auto.
  - destruct (executeHooks_run (fo_PostFailoverHooks (cfg_Failover config)) cc
                ((tr ++ evs) ++ [EvNow])) as (ran & Hhooks & _).
    exists k, None, evs. eexists. exists ran.
    split; [exact Hfrom|]. split; [lia|].
    split; [congruence|].
    split.
    { rewrite (bind_run _ _ _ _ _ Hhooks). unfold ret. f_equal.
      rewrite <- !app_assoc. reflexivity. }
    split; [reflexivity|]. split; [discriminate|]. split; [reflexivity|].
    rewrite !Hcount by reflexivity. auto.
Qed.

(** C5, for a retry counter that cannot overflow ([max_retries] below the
    largest [int]). For every [max_retries] [n >= 1], the retry loop performs
    [k] attempts with [1 <= k <= n]; every attempt but the last fails and is
    followed by exactly one sleep of the retry delay; nothing follows the
    last attempt but the final clock reading and, on success, the
    post-failover hooks; the result is successful exactly when the last
    attempt succeeded, and all [n] attempts are used up otherwise. So the
    sleep is invoked [k - 1] times, and stop and restore [k] times each. *)
Theorem failoverWithRetries_attempts fuel cc src tgt path startTime tr :
  1 <= fo_MaxRetries (cfg_Failover config) ->
  fo_MaxRetries (cfg_Failover config) < GoInt.int_max ->
  (Z.to_nat (fo_MaxRetries (cfg_Failover config)) < fuel)%nat ->
  exists k final evs result ran,
    attempts_from (performBackupRestoreFailover cc src tgt path)
                  (fo_RetryDelay (cfg_Failover config)) tr k final evs
    /\ (1 <= k <= Z.to_nat (fo_MaxRetries (cfg_Failover config)))%nat
    /\ (final <> None -> k = Z.to_nat (fo_MaxRetries (cfg_Failover config)))
    /\ failoverWithRetries config fuel cc src tgt path startTime tr
       = (Returned result, tr ++ evs ++ EvNow :: map (hook_event cc) ran)
    /\ fr_Success result = is_none final
    /\ (final <> None -> ran = [] /\ fr_Error result <> None)
    /\ count_events is_sleep (evs ++ EvNow :: map (hook_event cc) ran)
       = (k - 1)%nat
    /\ count_events is_stop (evs ++ EvNow :: map (hook_event cc) ran) = k
    /\ count_events is_restore (evs ++ EvNow :: map (hook_event cc) ran) = k.
Proof.
  intros Hn1 Hmax Hfuel.
  destruct (failoverWithRetries_run fuel cc src tgt path startTime tr Hn1 Hmax Hfuel)
    as (k & final & evs & result & ran & Hfrom & Hk & Hfin & Hrun & Hs & He & _ & Hc).
  exists k, final, evs, result, ran.
  repeat (split; [assumption|]).
  split; [|exact Hc].
  intros Hf. destruct final as [e|]; [|congruence].
  destruct (He e eq_refl) as [-> ->]. split; [reflexivity | discriminate].
Qed.

End EngineFacts.

(** *** The documented scenarios *)

(** [max_retries = 3], attempts 1 and 2 fail, attempt 3 succeeds: the result
    is successful and the sleep is invoked twice, between the attempts. *)
Example performFailover_three_attempts :
  exists result,
    performFailover (H := clusterClient 2) (H0 := quietHost)
      (testConfig true 3 3 [] []) 4 (container100 ["B"; "C"]) "A" "C" []
    = (Returned result,
       [ EvNow;
         EvBackupContainer 100 "local" "backup";
         EvStopContainer 100;
         EvRestoreContainerFromBackup 100 "C" "local-lvm" "mock:backup/file.tar.zst" true;
         EvSleep 5;
         EvStopContainer 100;
         EvRestoreContainerFromBackup 100 "C" "local-lvm" "mock:backup/file.tar.zst" true;
         EvSleep 5;
         EvStopContainer 100;
         EvRestoreContainerFromBackup 100 "C" "local-lvm" "mock:backup/file.tar.zst" true;
         EvStartContainer 100;
         EvNow ])
    /\ fr_Success result = true
    /\ fr_Error result = None.
Proof. eexists. split; [vm_compute; reflexivity | split; reflexivity]. Qed.

(** A vetoing pre-failover hook: nothing but the hook is run. *)
Example performFailover_veto :
  exists result,
    performFailover (H := clusterClient 0) (H0 := quietHost)
      (testConfig true 3 3 ["notify.sh"; "veto.sh"; "late.sh"] [])
      4 (container100 ["B"; "C"]) "A" "C" []
    = (Returned result,
       [ EvNow;
         EvHook "notify.sh" 100 "test-container";
         EvHook "veto.sh" 100 "test-container";
         EvNow ])
    /\ fr_Success result = false
    /\ fr_Error result
       = Some (Wrapf "pre-failover hooks failed"
                 (Wrapf "hook 'veto.sh' failed" (Errorf "exit status 1"))).
Proof. eexists. split; [vm_compute; reflexivity | split; reflexivity]. Qed.

Lemma failoverWithRetries_attempts_witness :
  exists k result evs,
    (1 <= k <= 3)%nat
    /\ failoverWithRetries (H := clusterClient 2) (H0 := quietHost)
         (testConfig true 3 3 [] []) 4 (container100 ["B"; "C"]) "A" "C"
         "mock:backup/file.tar.zst" 0 []
       = (Returned result, evs)
    /\ count_events is_sleep evs = (k - 1)%nat.
Proof.
  destruct (failoverWithRetries_attempts (H := clusterClient 2) (H0 := quietHost)
              (testConfig true 3 3 [] []) 4 (container100 ["B"; "C"]) "A" "C"
              "mock:backup/file.tar.zst" 0 [])
    as (k & final & evs & result & ran & _ & Hk & _ & Hrun & _ & _ & Hsl & _).
  - simpl. lia.
  - simpl. unfold GoInt.int_max. lia.
  - simpl. lia.
  - exists k, result, (evs ++ EvNow :: map (hook_event (container100 ["B"; "C"])) ran).
    split; [exact Hk|]. split; [exact Hrun | exact Hsl].
Defined.

Lemma performFailover_prehook_veto_witness :
  exists result,
    performFailover (H := clusterClient 0) (H0 := quietHost)
      (testConfig true 3 3 ["notify.sh"; "veto.sh"; "late.sh"] [])
      4 (container100 ["B"; "C"]) "A" "C" []
    = (Returned result,
       [] ++ EvNow :: map (hook_event (container100 ["B"; "C"]))
                          (["notify.sh"] ++ ["veto.sh"]) ++ [EvNow])
    /\ fr_Success result = false
    /\ fr_Error result
       = Some (Wrapf "pre-failover hooks failed"
                 (Wrapf ("hook '" +:+ "veto.sh" +:+ "' failed")
                    (Errorf "exit status 1")))
    /\ List.filter is_platform_call
          (EvNow :: map (hook_event (container100 ["B"; "C"]))
                        (["notify.sh"] ++ ["veto.sh"]) ++ [EvNow]) = [].
Proof.
  apply (performFailover_prehook_veto (H := clusterClient 0) (H0 := quietHost)
           (testConfig true 3 3 ["notify.sh"; "veto.sh"; "late.sh"] []) 4
           (container100 ["B"; "C"]) "A" "C" []
           ["notify.sh"] "veto.sh" ["late.sh"] (Errorf "exit status 1")).
  - reflexivity.
  - reflexivity.
  - reflexivity.
Defined.

Lemma HandleContainerFailure_disabled_witness :
  HandleContainerFailure (H := clusterClient 0) (H0 := quietHost)
    (testConfig false 3 3 [] []) 4 100 []
  = (Returned None, []).
Proof.
  apply (HandleContainerFailure_disabled (H := clusterClient 0) (H0 := quietHost)
           (testConfig false 3 3 [] []) 4 100 []).
  reflexivity.
Defined.

(** ** Recovery on the bundled client *)

Section BundledClient.
Context (sdk : ProxmoxSDK) `{Host}.
Variable config : Config.

Lemma Client_attempt cc src tgt path tr :
  performBackupRestoreFailover (H := Client sdk) cc src tgt path tr
  = (Some restoreError, tr ++ attempt_events cc tgt path false).
Proof.
  unfold performBackupRestoreFailover, bind, StopContainer,
    RestoreContainerFromBackup, call, ret.
  simpl. now rewrite <- app_assoc.
Qed.

Lemma Client_attempts_from cc src tgt path d tr k final evs :
  attempts_from (performBackupRestoreFailover (H := Client sdk) cc src tgt path)
                d tr k final evs ->
  final = Some restoreError /\ count_events is_start evs = 0%nat.
Proof.
  induction 1 as [tr final chunk Hatt | tr e chunk k final evs Hatt _ IH];
    rewrite Client_attempt in Hatt; injection Hatt as Hout Hchunk;
    apply app_inv_head in Hchunk; subst chunk.
  - split; [congruence | reflexivity].
  - destruct IH as [-> Hc]. split; [reflexivity|].
    rewrite count_events_app.
    change (EvSleep d :: evs) with ([EvSleep d] ++ evs).
    rewrite count_events_app, Hc. reflexivity.
Qed.

Lemma Client_retryLoop_fails cc src tgt path fuel : forall a err0 tr s e,
  fst (retryLoop (H := Client sdk) config fuel cc src tgt path a err0 tr)
  = Returned (s, e) ->
  s = false.
Proof.
  induction fuel as [|fuel IH]; intros a err0 tr s e; cbn [retryLoop].
  - discriminate.
  - destruct (a <=? fo_MaxRetries (cfg_Failover config))%Z.
    + rewrite (bind_run _ _ _ _ _ (Client_attempt cc src tgt path tr)).
      unfold bind at 1.
      destruct ((if (a <? fo_MaxRetries (cfg_Failover config))%Z
                 then Sleep (fo_RetryDelay (cfg_Failover config))
                 else ret tt) (tr ++ attempt_events cc tgt path false))
        as [u tr1].
      apply IH.
    + unfold ret. simpl. congruence.
Qed.

Lemma Client_performFailover_fails fuel cc src tgt tr result :
  fst (performFailover (H := Client sdk) config fuel cc src tgt tr)
  = Returned result ->
  fr_Success result = false.
Proof.
  unfold performFailover. unfold bind at 1.
  destruct (Now tr) as [startTime tr0].
  unfold bind at 1.
  destruct (executeHooks _ _ tr0) as [[err|] tr1].
  { unfold bind, Now, call, ret. simpl. now intros [= <-]. }
  unfold bind at 1.
  destruct (obtainBackup _ _ tr1) as [[path|err] tr2].
  2:{ unfold bind, Now, call, ret. simpl. now intros [= <-]. }
  unfold failoverWithRetries. unfold bind at 1.
  destruct (retryLoop config fuel cc src tgt path 1 None tr2) as [l tr3] eqn:El.
  destruct l as [[s e]|]; [|discriminate].
  assert (s = false) as ->.
  { eapply Client_retryLoop_fails. rewrite El. reflexivity. }
  unfold bind at 1. destruct (Now tr3) as [endTime tr4].
  destruct e as [e|].
  - unfold ret. simpl. now intros [= <-].
  - unfold bind at 1. destruct (executeHooks _ _ tr4) as [u tr5].
    unfold ret. simpl. now intros [= <-].
Qed.

(** When the retry counter reaches the largest [int] it wraps around and the
    loop goes on: with [max_retries] at that value the loop never leaves,
    one restore call per iteration. *)
Lemma Client_retryLoop_overflow cc src tgt path :
  fo_MaxRetries (cfg_Failover config) = GoInt.int_max ->
  forall fuel a err0 tr,
    a <= GoInt.int_max ->
    exists tr',
      retryLoop (H := Client sdk) config fuel cc src tgt path a err0 tr
      = (OutOfFuel, tr')
      /\ count_events is_restore tr' = (count_events is_restore tr + fuel)%nat.
Proof.
  intros Hmax. induction fuel as [|fuel IH]; intros a err0 tr Ha; cbn [retryLoop].
  - exists tr. split; [reflexivity | lia].
  - rewrite Hmax. destruct (Z.leb_spec a GoInt.int_max); [|lia].
    rewrite (bind_run _ _ _ _ _ (Client_attempt cc src tgt path tr)).
    unfold bind at 1.
    assert (Hnext : GoInt.incr a <= GoInt.int_max)
      by apply GoIntFacts.incr_in_range.
    destruct (a <? GoInt.int_max)%Z.
    + unfold Sleep at 1. rewrite call_run.
      destruct (IH (GoInt.incr a) (Some restoreError)
                   ((tr ++ attempt_events cc tgt path false)
                      ++ [EvSleep (fo_RetryDelay (cfg_Failover config))]) Hnext)
        as (tr' & Hrun & Hcount).
      exists tr'. split; [exact Hrun|].
      rewrite Hcount, !count_events_app. cbn. lia.
    + unfold ret at 1.
      destruct (IH (GoInt.incr a) (Some restoreError)
                   (tr ++ attempt_events cc tgt path false) Hnext)
        as (tr' & Hrun & Hcount).
      exists tr'. split; [exact Hrun|].
      rewrite Hcount, !count_events_app. cbn. lia.
Qed.

(** C9, for a retry counter that cannot overflow ([max_retries] below the
    largest [int]). On the bundled client, whose restore always answers
    "not yet implemented", a recovery that has reached the retry loop makes
    exactly [max_retries] attempts (none when that is not positive); each one
    calls stop and restore and never start, since it fails at the restore
    step; the result is returned with the success flag false and, when
    [max_retries >= 1], with the restore error wrapped in the
    "failed after n attempts" error. And whatever the configuration, a
    result [performFailover] returns on this client is never successful. *)
Theorem Client_recovery_fails fuel cc src tgt path startTime tr :
  fo_MaxRetries (cfg_Failover config) < GoInt.int_max ->
  (Z.to_nat (fo_MaxRetries (cfg_Failover config)) < fuel)%nat ->
  (exists result evs,
     failoverWithRetries (H := Client sdk) config fuel cc src tgt path startTime tr
     = (Returned result, tr ++ evs)
     /\ fr_Success result = false
     /\ count_events is_stop evs = Z.to_nat (fo_MaxRetries (cfg_Failover config))
     /\ count_events is_restore evs = Z.to_nat (fo_MaxRetries (cfg_Failover config))
     /\ count_events is_start evs = 0%nat
     /\ (1 <= fo_MaxRetries (cfg_Failover config) ->
         fr_Error result
         = Some (Wrapf ("backup-restore failover failed after "
                        +:+ fmt_d (fo_MaxRetries (cfg_Failover config))
                        +:+ " attempts") restoreError)))
  /\ (forall fuel' cc' src' tgt' tr' result',
        fst (performFailover (H := Client sdk) config fuel' cc' src' tgt' tr')
        = Returned result' ->
        fr_Success result' = false).
Proof.
  intros Hmax Hfuel. split; [|intros; eapply Client_performFailover_fails; eassumption].
  destruct (Z.le_gt_cases 1 (fo_MaxRetries (cfg_Failover config))) as [Hn|Hn].
  - destruct (failoverWithRetries_run (H := Client sdk) config fuel cc src tgt path
                startTime tr Hn Hmax Hfuel)
      as (k & final & evs & result & ran & Hfrom & Hk & Hfin & Hrun & Hs & He
          & _ & _ & Hst & Hre).
    destruct (Client_attempts_from _ _ _ _ _ _ _ _ _ Hfrom) as [-> Hstart].
    destruct (He restoreError eq_refl) as [-> Herr].
    rewrite (Hfin ltac:(discriminate)) in *.
    exists result, (evs ++ EvNow :: map (hook_event cc) []).
    split; [exact Hrun|]. split; [exact Hs|].
    split; [exact Hst|]. split; [exact Hre|].
    split; [|intros _; exact Herr].
    rewrite count_events_app, Hstart. reflexivity.
  - destruct fuel as [|fuel]; [lia|].
    destruct (executeHooks_run (fo_PostFailoverHooks (cfg_Failover config)) cc
                (tr ++ [EvNow])) as (ran & Hhooks & _).
    eexists. exists (EvNow :: map (hook_event cc) ran).
    assert (Hz : Z.to_nat (fo_MaxRetries (cfg_Failover config)) = 0%nat) by lia.
    rewrite Hz.
    split.
    { unfold failoverWithRetries. cbn [retryLoop].
      destruct (Z.leb_spec 1 (fo_MaxRetries (cfg_Failover config))); [lia|].
      unfold bind at 1, ret at 1. unfold bind at 1, Now at 1. rewrite call_run.
      rewrite (bind_run _ _ _ _ _ Hhooks). unfold ret. f_equal.
      now rewrite <- app_assoc. }
    split; [reflexivity|].
    assert (Hcount : forall p, (forall h, p (hook_event cc h) = false) ->
                               p EvNow = false ->
                               count_events p (EvNow :: map (hook_event cc) ran) = 0%nat).
    { intros p Hp Hnow. unfold count_events. simpl. rewrite Hnow.
      now rewrite filter_hook_events. }
    rewrite !Hcount by reflexivity. repeat split; lia.
Qed.

End BundledClient.

(** At [max_retries = 2^63 - 1] the bound on the number of attempts is lost:
    run for one iteration more than that, the loop on the bundled client has
    made more than [max_retries] restore calls (and is still going). *)
Lemma retry_counter_overflow :
  (Z.to_nat GoInt.int_max
   < count_events is_restore
       (snd (retryLoop (H := Client idleSDK)
               (testConfig true GoInt.int_max 3 [] [])
               (S (Z.to_nat GoInt.int_max)) (container100 ["B"; "C"])
               "A" "C" "local:backup/dump.tar.zst" 1 None [])))%nat.
Proof.
  destruct (Client_retryLoop_overflow idleSDK
              (testConfig true GoInt.int_max 3 [] [])
              (container100 ["B"; "C"]) "A" "C" "local:backup/dump.tar.zst"
              eq_refl (S (Z.to_nat GoInt.int_max)) 1 None [])
    as (tr' & Hrun & Hcount).
  - unfold GoInt.int_max. lia.
  - rewrite Hrun. cbn [snd]. rewrite Hcount.
    change (count_events is_restore []) with 0%nat.
    apply Nat.lt_succ_diag_r.
Qed.

(** With [max_retries = 2^63 - 1] a recovery on the bundled client that has
    reached the retry loop never returns a result. *)
Lemma bundled_recovery_never_returns :
  ~ exists fuel result,
      fst (failoverWithRetries (H := Client idleSDK) (H0 := quietHost)
             (testConfig true GoInt.int_max 3 [] []) fuel
             (container100 ["B"; "C"]) "A" "C" "local:backup/dump.tar.zst" 0 [])
      = Returned result.
Proof.
  intros (fuel & result & Hr).
  destruct (Client_retryLoop_overflow idleSDK
              (testConfig true GoInt.int_max 3 [] [])
              (container100 ["B"; "C"]) "A" "C" "local:backup/dump.tar.zst"
              eq_refl fuel 1 None [])
    as (tr' & Hrun & _).
  - unfold GoInt.int_max. lia.
  - unfold failoverWithRetries in Hr.
    rewrite (bind_run _ _ _ _ _ Hrun) in Hr. discriminate Hr.
Qed.

Lemma Client_recovery_fails_witness :
  exists result evs,
    failoverWithRetries (H := Client idleSDK) (H0 := quietHost)
      (testConfig true 3 3 [] []) 4 (container100 ["B"; "C"]) "A" "C"
      "local:backup/dump.tar.zst" 0 []
    = (Returned result, evs)
    /\ fr_Success result = false
    /\ count_events is_restore evs = 3%nat
    /\ count_events is_start evs = 0%nat.
Proof.
  destruct (Client_recovery_fails idleSDK (H := quietHost)
              (testConfig true 3 3 [] []) 4 (container100 ["B"; "C"]) "A" "C"
              "local:backup/dump.tar.zst" 0 [])
    as [(result & evs & Hrun & Hs & _ & Hre & Hst & _) _].
  - simpl. unfold GoInt.int_max. lia.
  - simpl. lia.
  - exists result, evs. split; [exact Hrun|]. split; [exact Hs|].
    split; [exact Hre | exact Hst].
Defined.

Example bundled_client_three_attempts :
  exists result,
    performFailover (H := Client idleSDK) (H0 := quietHost)
      (testConfig true 3 3 [] []) 4 (container100 ["B"; "C"]) "A" "C" []
    = (Returned result,
       [ EvNow;
         EvBackupContainer 100 "local" "backup";
         EvStopContainer 100;
         EvRestoreContainerFromBackup 100 "C" "local-lvm"
           "local:backup/vzdump-lxc-100-2024_01_01-00_00_00.tar.zst" true;
         EvSleep 5;
         EvStopContainer 100;
         EvRestoreContainerFromBackup 100 "C" "local-lvm"
           "local:backup/vzdump-lxc-100-2024_01_01-00_00_00.tar.zst" true;
         EvSleep 5;
         EvStopContainer 100;
         EvRestoreContainerFromBackup 100 "C" "local-lvm"
           "local:backup/vzdump-lxc-100-2024_01_01-00_00_00.tar.zst" true;
         EvNow ])
    /\ fr_Success result = false
    /\ fr_Error result
       = Some (Wrapf "backup-restore failover failed after 3 attempts" restoreError).
Proof. eexists. split; [vm_compute; reflexivity | split; reflexivity]. Qed.

(** ** The monitor *)

Section MonitorFacts.
Context `{APIClient} `{Host}.
Variable m : Monitor.

Lemma triggerCallbacks_run callbacks id tr :
  triggerCallbacks callbacks id tr
  = (tt, tr ++ map (fun callback => EvGo callback id) callbacks).
Proof.
  revert tr. induction callbacks as [|cb callbacks IH]; intros tr; simpl.
  - unfold ret. now rewrite app_nil_r.
  - unfold bind, Go. rewrite call_run, IH. now rewrite <- app_assoc.
Qed.

(** What one recorded failure does: the counter is incremented, and the
    callbacks are started exactly when the new count is at or above the
    threshold. *)
Lemma recordFailure_run state tr :
  recordFailure m state tr
  = (set_FailureCount state (GoInt.incr (cs_FailureCount state)),
     tr ++ (if (mon_FailureThreshold (cfg_Monitoring (m_config m))
                <=? GoInt.incr (cs_FailureCount state))%Z
            then dispatch_events m (cs_ID state) else [])).
Proof.
  unfold recordFailure. cbn [cs_FailureCount set_FailureCount cs_ID].
  rewrite Z.geb_leb.
  destruct (_ <=? _)%Z.
  - unfold bind. rewrite triggerCallbacks_run. reflexivity.
  - unfold ret. now rewrite app_nil_r.
Qed.

Lemma filter_dispatch_events (p : Event -> bool) id :
  (forall cb, p (EvGo cb id) = false) ->
  List.filter p (dispatch_events m id) = [].
Proof.
  intros Hp. unfold dispatch_events.
  induction (m_callbacks m) as [|cb cbs IH]; simpl; [reflexivity|].
  now rewrite Hp.
Qed.

(** A run of consecutive failed cycles. *)
Lemma recordCycles_failures k : forall state tr,
  0 <= cs_FailureCount state ->
  cs_FailureCount state + Z.of_nat k <= GoInt.int_max ->
  recordCycles m (repeat false k) state tr
  = (set_FailureCount state (cs_FailureCount state + Z.of_nat k),
     tr ++ concat (repeat (dispatch_events m (cs_ID state))
                     (dispatch_rounds
                        (mon_FailureThreshold (cfg_Monitoring (m_config m)))
                        (cs_FailureCount state) k))).
Proof.
  induction k as [|k IH]; intros state tr Hc Hk.
  - simpl. unfold ret. rewrite Z.add_0_r, app_nil_r. now destruct state.
  - cbn [repeat recordCycles recordCycle]. unfold bind. rewrite recordFailure_run.
    rewrite GoIntFacts.incr_small by (unfold GoInt.int_min, GoInt.int_max in *; lia).
    rewrite IH; cbn [cs_FailureCount set_FailureCount cs_ID]; try lia.
    f_equal.
    + destruct state; unfold set_FailureCount; simpl. f_equal. lia.
    + rewrite <- app_assoc. f_equal. cbn [dispatch_rounds].
      destruct (_ <=? _)%Z; reflexivity.
Qed.

Lemma dispatch_rounds_closed threshold k : forall c,
  0 <= c -> 1 <= threshold ->
  dispatch_rounds threshold c k
  = (k - Z.to_nat (threshold - 1 - c))%nat.
Proof.
  induction k as [|k IH]; intros c Hc Ht; [reflexivity|].
  cbn [dispatch_rounds]. rewrite IH by lia.
  destruct (Z.leb_spec threshold (c + 1)); lia.
Qed.

(** C1, as the code has it. One recorded failure starts the failure callbacks
    exactly when the incremented counter is at or above the threshold. So in
    a run of [k] consecutive failed cycles from a zero counter (threshold at
    least 1, [k] within [int]) nothing is dispatched on the first
    [threshold - 1] cycles, and the callbacks are dispatched on the cycle
    that brings the counter to the threshold and again on every later
    cycle of the run: [k - (threshold - 1)] rounds in all, not one. *)
Theorem recordFailure_dispatches_while_breached state k tr :
  cs_FailureCount state = 0 ->
  1 <= mon_FailureThreshold (cfg_Monitoring (m_config m)) ->
  Z.of_nat k <= GoInt.int_max ->
  (forall state' tr',
      recordFailure m state' tr'
      = (set_FailureCount state' (GoInt.incr (cs_FailureCount state')),
         tr' ++ (if (mon_FailureThreshold (cfg_Monitoring (m_config m))
                     <=? GoInt.incr (cs_FailureCount state'))%Z
                 then dispatch_events m (cs_ID state') else [])))
  /\ recordCycles m (repeat false k) state tr
     = (set_FailureCount state (Z.of_nat k),
        tr ++ concat
                (repeat (dispatch_events m (cs_ID state))
                   (k - (Z.to_nat (mon_FailureThreshold
                                     (cfg_Monitoring (m_config m))) - 1)))).
Proof.
  intros Hzero Ht Hk. split; [intros; apply recordFailure_run|].
  rewrite recordCycles_failures by (rewrite Hzero; lia).
  rewrite dispatch_rounds_closed by (rewrite ?Hzero; lia).
  rewrite Hzero. do 4 f_equal. lia.
Qed.

(** *** The two counters *)

Lemma recordSuccess_counters state :
  0 <= cs_FailureCount state ->
  0 <= cs_HealthyCount state < GoInt.int_max ->
  cs_FailureCount (recordSuccess state) = 0
  /\ cs_HealthyCount (recordSuccess state) = cs_HealthyCount state + 1.
Proof.
  intros Hf Hh. unfold recordSuccess.
  cbn [cs_FailureCount cs_HealthyCount set_HealthyCount].
  rewrite GoIntFacts.incr_small by (unfold GoInt.int_min, GoInt.int_max in *; lia).
  destruct (Z.gtb_spec (cs_FailureCount state) 0); simpl; split; lia.
Qed.

Lemma recordCycles_counters cycles : forall state tr,
  0 <= cs_FailureCount state ->
  0 <= cs_HealthyCount state ->
  cs_FailureCount state + Z.of_nat (length cycles) <= GoInt.int_max ->
  cs_HealthyCount state + Z.of_nat (length cycles) <= GoInt.int_max ->
  cs_FailureCount (fst (recordCycles m cycles state tr))
  = fold_left (fun c healthy => if healthy : bool then 0 else c + 1) cycles
              (cs_FailureCount state)
  /\ cs_HealthyCount (fst (recordCycles m cycles state tr))
     = cs_HealthyCount state + healthy_total cycles.
Proof.
  unfold healthy_total.
  induction cycles as [|healthy cycles IH]; intros state tr Hf Hh Hfl Hhl.
  - simpl. split; lia.
  - cbn [recordCycles recordCycle length] in *.
    destruct healthy.
    + rewrite (bind_run _ _ tr (recordSuccess state) tr eq_refl).
      destruct (recordSuccess_counters state Hf) as [Hf' Hh']; [lia|].
      destruct (IH (recordSuccess state) tr) as [IHf IHh]; try lia.
      rewrite IHf, IHh, Hf', Hh'. cbn [fold_left List.filter length]. split; lia.
    + rewrite (bind_run _ _ _ _ _ (recordFailure_run state tr)).
      assert (Hincr : GoInt.incr (cs_FailureCount state) = cs_FailureCount state + 1)
        by (apply GoIntFacts.incr_small;
            unfold GoInt.int_min, GoInt.int_max in *; lia).
      rewrite Hincr.
      destruct (IH (set_FailureCount state (cs_FailureCount state + 1))
                   (tr ++ (if (mon_FailureThreshold (cfg_Monitoring (m_config m))
                               <=? cs_FailureCount state + 1)%Z
                           then dispatch_events m (cs_ID state) else [])))
        as [IHf IHh];
        cbn [cs_FailureCount cs_HealthyCount set_FailureCount]; try lia.
      rewrite IHf, IHh. cbn [fold_left List.filter]. split; reflexivity.
Qed.

Lemma failure_streak_snoc cycles healthy :
  failure_streak (cycles ++ [healthy])
  = if healthy then 0 else failure_streak cycles + 1.
Proof. unfold failure_streak. now rewrite fold_left_app. Qed.

Lemma failure_streak_nonneg cycles : 0 <= failure_streak cycles.
Proof.
  induction cycles as [|healthy cycles IH] using rev_ind; [reflexivity|].
  rewrite failure_streak_snoc. destruct healthy; lia.
Qed.

Lemma failure_streak_nonzero cycles :
  failure_streak cycles <> 0 <-> exists before, cycles = before ++ [false].
Proof.
  destruct cycles as [|healthy cycles _] using rev_ind.
  - split; [now intros [] | intros [[|? ?] Hb]; discriminate].
  - rewrite failure_streak_snoc. pose proof (failure_streak_nonneg cycles).
    destruct healthy; split.
    + now intros [].
    + intros [before Hb]. apply app_inj_tail in Hb. destruct Hb; discriminate.
    + intros _. now exists cycles.
    + intros _. lia.
Qed.

Lemma healthy_total_nonzero cycles :
  healthy_total cycles <> 0 <-> In true cycles.
Proof.
  unfold healthy_total.
  induction cycles as [|healthy cycles IH]; simpl.
  - split; [now intros [] | now intros []].
  - destruct healthy; simpl.
    + split; [auto | lia].
    + rewrite IH. split; [auto | now intros [|]].
Qed.

(** C3, as the code has it. After any sequence of recorded cycles from zero
    counters (short enough for the counters not to overflow), the success
    count is the number of healthy cycles so far (it is cumulative: a failure
    does not reset it) and the failure count is the number of failed cycles
    since the last healthy one. So the failure count is zero right after a
    healthy cycle, and the two counters are both nonzero exactly when the
    last cycle failed and some earlier cycle was healthy. *)
Theorem counters_after_cycles cycles state tr :
  cs_FailureCount state = 0 ->
  cs_HealthyCount state = 0 ->
  Z.of_nat (length cycles) <= GoInt.int_max ->
  cs_FailureCount (fst (recordCycles m cycles state tr)) = failure_streak cycles
  /\ cs_HealthyCount (fst (recordCycles m cycles state tr)) = healthy_total cycles
  /\ (forall before, cycles = before ++ [true] ->
        cs_FailureCount (fst (recordCycles m cycles state tr)) = 0)
  /\ ((cs_FailureCount (fst (recordCycles m cycles state tr)) <> 0
       /\ cs_HealthyCount (fst (recordCycles m cycles state tr)) <> 0)
      <-> ((exists before, cycles = before ++ [false]) /\ In true cycles)).
Proof.
  intros Hf Hh Hlen.
  destruct (recordCycles_counters cycles state tr) as [Ef Eh];
    rewrite ?Hf, ?Hh; try lia.
  rewrite Hf in Ef. rewrite Hh in Eh. fold (failure_streak cycles) in Ef.
  rewrite Ef, Eh, Z.add_0_l.
  split; [reflexivity|]. split; [reflexivity|]. split.
  - intros before ->. now rewrite failure_streak_snoc.
  - now rewrite failure_streak_nonzero, healthy_total_nonzero.
Qed.

(** *** One check cycle *)

(** C7. When the platform status of the workload is fetched and is not
    "running", the check cycle makes the status call and one clock reading
    and nothing else: no probe is run, and only the node, the status and the
    last-seen time of the state change; the failure count, the success count,
    the probe results and the last-health-check time stay as they were. *)
Theorem checkContainer_not_running container state info tr :
  answer_GetContainer tr (cc_ID container) = Ok info ->
  ci_Status info <> "running" ->
  checkContainer m container state tr
  = (set_info state (ci_Node info) (ci_Status info)
       (answer_Now (tr ++ [EvGetContainer (cc_ID container)])),
     tr ++ [EvGetContainer (cc_ID container); EvNow])
  /\ count_events is_probe (snd (checkContainer m container state tr))
     = count_events is_probe tr
  /\ cs_FailureCount (fst (checkContainer m container state tr))
     = cs_FailureCount state
  /\ cs_HealthyCount (fst (checkContainer m container state tr))
     = cs_HealthyCount state
  /\ cs_HealthResults (fst (checkContainer m container state tr))
     = cs_HealthResults state
  /\ cs_LastHealthCheck (fst (checkContainer m container state tr))
     = cs_LastHealthCheck state
  /\ cs_Node (fst (checkContainer m container state tr)) = ci_Node info
  /\ cs_Status (fst (checkContainer m container state tr)) = ci_Status info.
Proof.
  intros Hget Hstatus.
  assert (Hrun : checkContainer m container state tr
                 = (set_info state (ci_Node info) (ci_Status info)
                      (answer_Now (tr ++ [EvGetContainer (cc_ID container)])),
                    tr ++ [EvGetContainer (cc_ID container); EvNow])).
  { unfold checkContainer. unfold bind at 1, GetContainer at 1.
    rewrite call_run, Hget. unfold bind at 1, Now at 1. rewrite call_run.
    apply String.eqb_neq in Hstatus. rewrite Hstatus. unfold ret. simpl.
    now rewrite <- app_assoc. }
  rewrite Hrun. cbn [fst snd].
  split; [reflexivity|]. split; [|repeat split].
  rewrite count_events_app. cbn. lia.
Qed.

(** C8. When fetching the platform status fails, the check cycle records a
    failure and stops: after the status call it does exactly what
    [recordFailure] does, so the failure counter is incremented, the
    callbacks are started under the same threshold test, and no probe is
    run. The counter moves exactly as in a cycle whose probes fail. *)
Theorem checkContainer_status_error container state err tr :
  answer_GetContainer tr (cc_ID container) = Err err ->
  checkContainer m container state tr
  = recordFailure m state (tr ++ [EvGetContainer (cc_ID container)])
  /\ cs_FailureCount (fst (checkContainer m container state tr))
     = GoInt.incr (cs_FailureCount state)
  /\ count_events is_probe (snd (checkContainer m container state tr))
     = count_events is_probe tr
  /\ (forall tr' info,
        answer_GetContainer tr' (cc_ID container) = Ok info ->
        ci_Status info = "running" ->
        fst (fst (runHealthChecks (cc_HealthChecks container) true []
                    (tr' ++ [EvGetContainer (cc_ID container); EvNow])))
        = false ->
        cs_FailureCount (fst (checkContainer m container state tr'))
        = GoInt.incr (cs_FailureCount state)).
Proof.
  intros Hget.
  assert (Hrun : checkContainer m container state tr
                 = recordFailure m state (tr ++ [EvGetContainer (cc_ID container)])).
  { unfold checkContainer. unfold bind at 1, GetContainer at 1.
    now rewrite call_run, Hget. }
  rewrite Hrun, recordFailure_run. cbn [fst snd].
  split; [reflexivity|]. split; [reflexivity|]. split.
  - rewrite !count_events_app.
    destruct (_ <=? _)%Z; [|cbn; lia].
    unfold count_events at 3. rewrite filter_dispatch_events by reflexivity.
    cbn. lia.
  - intros tr' info Hget' Hstatus Hfail.
    unfold checkContainer. unfold bind at 1, GetContainer at 1.
    rewrite call_run, Hget'. unfold bind at 1, Now at 1. rewrite call_run.
    apply String.eqb_eq in Hstatus. rewrite Hstatus. cbn [negb].
    rewrite <- app_assoc in *. cbn [app] in *.
    unfold bind at 1.
    destruct (runHealthChecks (cc_HealthChecks container) true []
                (tr' ++ [EvGetContainer (cc_ID container); EvNow]))
      as [[allHealthy results] tr2].
    cbn [fst] in Hfail. subst allHealthy.
    unfold bind at 1, Now at 1. rewrite call_run, recordFailure_run.
    reflexivity.
Qed.

End MonitorFacts.

(** Threshold 3, four failed cycles in a row: the callback is started on the
    third cycle and again on the fourth. *)
Lemma breach_refires_every_cycle :
  snd (recordCycles (testMonitor 3) [false; false; false] state100 [])
  = [EvGo FailoverCallback 100]
  /\ snd (recordCycles (testMonitor 3) [false; false; false; false] state100 [])
     = [EvGo FailoverCallback 100; EvGo FailoverCallback 100]
  /\ count_events is_go
       (snd (recordCycles (testMonitor 3) [false; false; false; false] state100 []))
     <> 1%nat.
Proof. repeat split; vm_compute; congruence. Qed.

Lemma recordFailure_dispatches_while_breached_witness :
  recordCycles (testMonitor 3) (repeat false 5) state100 []
  = (set_FailureCount state100 5,
     [] ++ concat (repeat (dispatch_events (testMonitor 3) 100) (5 - (3 - 1)))).
Proof.
  apply (recordFailure_dispatches_while_breached (testMonitor 3) state100 5 []).
  - reflexivity.
  - simpl. lia.
  - unfold GoInt.int_max. lia.
Defined.

(** A healthy cycle followed by a failed one leaves both counters at 1. *)
Lemma both_counters_nonzero :
  cs_FailureCount (fst (recordCycles (testMonitor 3) [true; false] state100 [])) = 1
  /\ cs_HealthyCount (fst (recordCycles (testMonitor 3) [true; false] state100 [])) = 1.
Proof. split; reflexivity. Qed.

Lemma counters_after_cycles_witness :
  cs_FailureCount
    (fst (recordCycles (testMonitor 3) [false; true; false; false] state100 []))
  = failure_streak [false; true; false; false].
Proof.
  apply (counters_after_cycles (testMonitor 3) [false; true; false; false]
           state100 []).
  - reflexivity.
  - reflexivity.
  - simpl. unfold GoInt.int_max. lia.
Defined.

Lemma checkContainer_not_running_witness :
  count_events is_probe
    (snd (checkContainer
            (H := scriptedClient (Ok (info100 "A" "stopped")) [node "A" true] 0)
            (H0 := quietHost) (testMonitor 3) (container100 ["B"; "C"])
            state100 []))
  = count_events is_probe [].
Proof.
  apply (checkContainer_not_running
           (H := scriptedClient (Ok (info100 "A" "stopped")) [node "A" true] 0)
           (H0 := quietHost) (testMonitor 3) (container100 ["B"; "C"])
           state100 (info100 "A" "stopped") []).
  - reflexivity.
  - discriminate.
Defined.

Lemma checkContainer_status_error_witness :
  cs_FailureCount
    (fst (checkContainer
            (H := scriptedClient (Err (Errorf "container 100 not found"))
                    [node "A" true] 0)
            (H0 := quietHost) (testMonitor 3) (container100 ["B"; "C"])
            state100 []))
  = GoInt.incr (cs_FailureCount state100).
Proof.
  apply (checkContainer_status_error
           (H := scriptedClient (Err (Errorf "container 100 not found"))
                   [node "A" true] 0)
           (H0 := quietHost) (testMonitor 3) (container100 ["B"; "C"])
           state100 (Errorf "container 100 not found") []).
  reflexivity.
Defined.

(** ** The daemon *)

Section DaemonFacts.
Context `{APIClient} `{Host}.
Variable config : Config.

(** [prepareFailover] and [performFailover] together are
    [HandleContainerFailure]. *)
Lemma HandleContainerFailure_phases fuel containerID tr :
  HandleContainerFailure config fuel containerID tr
  = (p <- prepareFailover config containerID ;;
     match p with
     | Skip err => ret (Returned err)
     | Proceed containerConfig sourceNode targetNode =>
         o <- performFailover config fuel containerConfig sourceNode targetNode ;;
         match o with
         | OutOfFuel => ret OutOfFuel
         | Returned result =>
             if fr_Success result then ret (Returned None)
             else ret (Returned (fr_Error result))
         end
     end) tr.
Proof.
  unfold HandleContainerFailure, prepareFailover.
  destruct (fo_AutoFailover (cfg_Failover config)); [|reflexivity]. cbn [negb].
  destruct (findContainerConfig config containerID) as [cc|]; [|reflexivity].
  unfold bind.
  destruct (GetContainer containerID tr) as [[info|err] tr1]; [|reflexivity].
  destruct (selectBestNode cc (ci_Node info) tr1) as [[target|err] tr2];
    reflexivity.
Qed.

Lemma filter_length_insert (p : Goroutine -> bool) (l : list Goroutine) i g g' :
  l !! i = Some g -> p g = false ->
  length (List.filter p (<[i := g']> l))
  = (length (List.filter p l) + (if p g' then 1 else 0))%nat.
Proof.
  revert i. induction l as [|x l IH]; intros i Hl Hg; [discriminate|].
  destruct i as [|i]; simpl in *.
  - injection Hl as ->. rewrite Hg. destruct (p g'); simpl; lia.
  - destruct (p x); simpl; rewrite (IH i Hl Hg); lia.
Qed.

(** A failed cycle that leaves the counter at or above the threshold starts
    one goroutine for the failover callback; here for a cycle that fails
    because the status cannot be fetched. *)
Lemma status_error_check_dispatches fuel s c state err :
  sys_states s !! cc_ID c = Some state ->
  answer_GetContainer (sys_trace s) (cc_ID c) = Err err ->
  mon_FailureThreshold (cfg_Monitoring config)
  <= GoInt.incr (cs_FailureCount state) ->
  started_by (drop (length (sys_trace s))
                (sys_trace (sys_step config fuel (StepCheck c) s)))
  = [dispatched (cs_ID state)].
Proof.
  intros Hstate Hget Hth. cbn [sys_step]. rewrite Hstate.
  unfold checkContainer. unfold bind at 1, GetContainer at 1.
  rewrite call_run, Hget, recordFailure_run. cbn [sys_trace].
  cbn [Daemon_monitor AddFailureCallback Monitor_New m_config m_callbacks
       cfg_Monitoring].
  destruct (Z.leb_spec (mon_FailureThreshold (cfg_Monitoring config))
              (GoInt.incr (cs_FailureCount state))); [|lia].
  rewrite <- app_assoc, drop_app_length. reflexivity.
Qed.

(** C2, as the code has it. Nothing serialises recoveries per workload.
    Suppose the check of a container dispatches a breach notification and
    the goroutine it starts gets as far as [performFailover] (auto-failover
    is on, the container is configured, its status is fetched and a target
    is found). Then that goroutine is one more recovery in flight for the
    container, whatever is in flight already: a second breach notification
    for a workload under recovery starts a second, concurrent recovery, and
    the recoveries in flight for every other workload go on undisturbed. *)
Theorem second_breach_starts_second_recovery fuel s c state cc src tgt :
  sys_states s !! cc_ID c = Some state ->
  started_by (drop (length (sys_trace s))
                (sys_trace (sys_step config fuel (StepCheck c) s)))
  = [dispatched (cc_ID c)] ->
  fst (prepareFailover config (cc_ID c)
         (sys_trace (sys_step config fuel (StepCheck c) s)))
  = Proceed cc src tgt ->
  sys_goroutines (sys_step config fuel (StepCheck c) s)
  = sys_goroutines s ++ [dispatched (cc_ID c)]
  /\ forall id,
       recoveries_in_flight
         (sys_step config fuel (StepEnter (length (sys_goroutines s)))
            (sys_step config fuel (StepCheck c) s)) id
       = (recoveries_in_flight s id + (if (id =? cc_ID c)%Z then 1 else 0))%nat.
Proof.
  intros Hstate Hgo Hprep.
  assert (Hpool : sys_goroutines (sys_step config fuel (StepCheck c) s)
                  = sys_goroutines s ++ [dispatched (cc_ID c)]).
  { revert Hgo. cbn [sys_step]. rewrite Hstate.
    destruct (checkContainer _ c state (sys_trace s)) as [state' tr'].
    cbn [sys_trace sys_goroutines]. now intros ->. }
  split; [exact Hpool|]. intros id.
  set (s1 := sys_step config fuel (StepCheck c) s) in *.
  assert (Hi : sys_goroutines s1 !! length (sys_goroutines s)
               = Some (dispatched (cc_ID c))).
  { rewrite Hpool. rewrite lookup_app_r by lia.
    now rewrite Nat.sub_diag. }
  cbn [sys_step]. rewrite Hi. cbn [dispatched].
  destruct (prepareFailover config (cc_ID c) (sys_trace s1)) as [p tr2].
  cbn [fst] in Hprep. subst p.
  unfold recoveries_in_flight. cbn [sys_goroutines].
  rewrite (filter_length_insert _ _ _ _ _ Hi eq_refl).
  rewrite Hpool, List.filter_app, length_app. cbn.
  rewrite Z.eqb_sym. destruct (id =? cc_ID c)%Z; simpl; lia.
Qed.

End DaemonFacts.

(** Threshold 1, the probes of container 100 keep failing: the first failed
    cycle starts a recovery, and the second failed cycle starts another one
    while the first is still in flight. *)
Lemma two_recoveries_for_one_workload :
  sys_goroutines one_recovery_run
  = [ recovering 100 (container100 ["B"; "C"]) "A" "C" ]
  /\ sys_goroutines overlapping_run
     = [ recovering 100 (container100 ["B"; "C"]) "A" "C";
         recovering 100 (container100 ["B"; "C"]) "A" "C" ]
  /\ recoveries_in_flight overlapping_run 100 = 2%nat
  /\ ~ (recoveries_in_flight overlapping_run 100 <= 1)%nat.
Proof.
  split; [vm_compute; reflexivity|]. split; [vm_compute; reflexivity|].
  assert (E : recoveries_in_flight overlapping_run 100 = 2%nat)
    by (vm_compute; reflexivity).
  split; [exact E | rewrite E; lia].
Qed.

Lemma second_breach_starts_second_recovery_witness :
  recoveries_in_flight
    (sys_step (H := clusterClient 0) (H0 := failingHost) twoConfig 4
       (StepEnter (length (sys_goroutines one_recovery_run)))
       (sys_step (H := clusterClient 0) (H0 := failingHost) twoConfig 4
          (StepCheck (container100 ["B"; "C"])) one_recovery_run)) 100
  = (recoveries_in_flight one_recovery_run 100 + 1)%nat.
Proof.
  eapply (second_breach_starts_second_recovery
            (H := clusterClient 0) (H0 := failingHost) twoConfig 4
            one_recovery_run (container100 ["B"; "C"])).
  - vm_compute. reflexivity.
  - vm_compute. reflexivity.
  - vm_compute. reflexivity.
Defined.

(** Recoveries for two different workloads in flight together. *)
Example two_recoveries_for_two_workloads :
  let s := sys_run (H := clusterClient 0) (H0 := failingHost) twoConfig 4
             [ StepCheck (container100 ["B"; "C"]); StepCheck container101;
               StepEnter 0; StepEnter 1 ]
             (sys_init (H0 := failingHost) twoConfig) in
  recoveries_in_flight s 100 = 1%nat /\ recoveries_in_flight s 101 = 1%nat.
Proof. split; vm_compute; reflexivity. Qed.

(** * Further properties of the engine *)

Section EngineMore.
Context `{APIClient} `{Host}.
Variable config : Config.

Lemma executeHooks_pass cc hooks : forall tr,
  hooks_pass cc hooks tr = true ->
  executeHooks hooks cc tr = (None, tr ++ map (hook_event cc) hooks).
Proof.
  rewrite executeHooks_eq.
  induction hooks as [|h hooks IH]; intros tr Hpass; simpl in *.
  - unfold ret. now rewrite app_nil_r.
  - apply andb_true_iff in Hpass. destruct Hpass as [Hh Hpass].
    unfold bind, runHook, call.
    destruct (answer_Hook tr h (cc_ID cc) (cc_Name cc)); [discriminate|].
    fold (hook_event cc h). rewrite IH by exact Hpass.
    now rewrite <- app_assoc.
Qed.

Lemma findLatestBackup_run containerID tr :
  findLatestBackup config containerID tr
  = (fst (findLatestBackup config containerID tr),
     tr ++ [EvGetBackups (bk_Storage (cfg_Backup config))]).
Proof.
  unfold findLatestBackup, bind, GetBackups, call.
  destruct (answer_GetBackups tr _) as [backups|err]; [|reflexivity].
  now destruct (fold_left _ backups None).
Qed.

Lemma obtainBackup_run cc tr :
  exists e,
    obtainBackup config cc tr = (fst (obtainBackup config cc tr), tr ++ [e])
    /\ is_attempt_event e = false /\ is_observation e = false
    /\ is_hook e = false.
Proof.
  unfold obtainBackup.
  destruct (fo_BackupBeforeFailover (cfg_Failover config)).
  - eexists. unfold bind, BackupContainer, call.
    destruct (answer_BackupContainer _ _ _ _); simpl; repeat split; reflexivity.
  - exists (EvGetBackups (bk_Storage (cfg_Backup config))).
    unfold bind. rewrite findLatestBackup_run.
    destruct (fst (findLatestBackup config (cc_ID cc) tr)); simpl;
      repeat split; reflexivity.
Qed.

(** Whatever the fuel and the retry limit, the loop adds attempt events
    only. *)
Lemma retryLoop_events cc src tgt path fuel : forall attempt err0 tr,
  exists evs,
    retryLoop config fuel cc src tgt path attempt err0 tr
    = (fst (retryLoop config fuel cc src tgt path attempt err0 tr), tr ++ evs)
    /\ List.Forall (fun e => is_attempt_event e = true) evs.
Proof.
  induction fuel as [|fuel IH]; intros attempt err0 tr; cbn [retryLoop].
  - exists []. unfold ret. simpl. now rewrite app_nil_r.
  - destruct (attempt <=? fo_MaxRetries (cfg_Failover config))%Z.
    2:{ exists []. unfold ret. simpl. now rewrite app_nil_r. }
    destruct (attempt_run cc src tgt path tr) as [restored Hatt].
    rewrite (bind_run _ _ _ _ _ Hatt).
    assert (Hchunk : List.Forall (fun e => is_attempt_event e = true)
                       (attempt_events cc tgt path restored)).
    { unfold attempt_events. destruct restored; repeat constructor. }
    destruct (fst (performBackupRestoreFailover cc src tgt path tr)) as [e|].
    2:{ exists (attempt_events cc tgt path restored). now unfold ret. }
    unfold bind at 1.
    destruct (attempt <? fo_MaxRetries (cfg_Failover config))%Z.
    + unfold Sleep at 1. rewrite call_run.
      destruct (IH (GoInt.incr attempt) (Some e)
                   ((tr ++ attempt_events cc tgt path restored)
                      ++ [EvSleep (fo_RetryDelay (cfg_Failover config))]))
        as (evs & Hrun & Hevs).
      exists (attempt_events cc tgt path restored
              ++ EvSleep (fo_RetryDelay (cfg_Failover config)) :: evs).
      split.
      * rewrite Hrun at 1. cbn [fst snd]. f_equal.
        rewrite <- !app_assoc. reflexivity.
      * apply Forall_app. split; [exact Hchunk|]. now constructor.
    + unfold ret at 1.
      destruct (IH (GoInt.incr attempt) (Some e)
                   (tr ++ attempt_events cc tgt path restored))
        as (evs & Hrun & Hevs).
      exists (attempt_events cc tgt path restored ++ evs).
      split.
      * rewrite Hrun at 1. cbn [fst snd]. f_equal. now rewrite <- app_assoc.
      * apply Forall_app. now split.
Qed.

Lemma hook_events_quiet cc ran :
  List.Forall (fun e => is_observation e = false /\ is_attempt_event e = false)
              (map (hook_event cc) ran).
Proof. induction ran; simpl; constructor; auto. Qed.

Lemma executeHooks_snd hooks cc tr :
  exists ran, snd (executeHooks hooks cc tr) = tr ++ map (hook_event cc) ran.
Proof.
  destruct (executeHooks_run hooks cc tr) as (ran & Hrun & _).
  exists ran. now rewrite Hrun.
Qed.

Lemma obtainBackup_snd cc tr :
  exists e, snd (obtainBackup config cc tr) = tr ++ [e]
            /\ is_attempt_event e = false /\ is_observation e = false.
Proof.
  destruct (obtainBackup_run cc tr) as (e & Hrun & Ha & Ho & _).
  exists e. now rewrite Hrun.
Qed.

Lemma retryLoop_snd cc src tgt path fuel attempt err0 tr :
  exists evs,
    snd (retryLoop config fuel cc src tgt path attempt err0 tr) = tr ++ evs
    /\ List.Forall (fun e => is_attempt_event e = true) evs.
Proof.
  destruct (retryLoop_events cc src tgt path fuel attempt err0 tr)
    as (evs & Hrun & Hevs).
  exists evs. now rewrite Hrun.
Qed.

Lemma attempt_events_not_observation evs :
  List.Forall (fun e => is_attempt_event e = true) evs ->
  List.Forall (fun e => is_observation e = false) evs.
Proof.
  intros Hevs. eapply List.Forall_impl; [|exact Hevs].
  intros e He. destruct e; try discriminate; reflexivity.
Qed.

Lemma hook_events_not_observation cc ran :
  List.Forall (fun e => is_observation e = false) (map (hook_event cc) ran).
Proof.
  eapply List.Forall_impl; [|apply hook_events_quiet]. now intros e [He _].
Qed.

(** The events of the part of a recovery from the retry loop on. *)
Lemma failoverWithRetries_events fuel cc src tgt path startTime tr :
  exists evs,
    snd (failoverWithRetries config fuel cc src tgt path startTime tr) = tr ++ evs
    /\ List.Forall (fun e => is_observation e = false) evs.
Proof.
  unfold failoverWithRetries, bind.
  destruct (retryLoop_snd cc src tgt path fuel 1 None tr) as (evs & Hloop & Hevs).
  apply attempt_events_not_observation in Hevs.
  destruct (retryLoop config fuel cc src tgt path 1 None tr) as [l tr1].
  cbn [snd] in Hloop. subst tr1.
  destruct l as [[success err]|].
  2:{ exists evs. now unfold ret. }
  change (Now (tr ++ evs)) with (answer_Now (tr ++ evs), (tr ++ evs) ++ [EvNow]).
  destruct err as [err|].
  { exists (evs ++ [EvNow]). unfold ret. cbn [snd]. split.
    - now rewrite <- app_assoc.
    - apply Forall_app. split; [exact Hevs | now repeat constructor]. }
  destruct (executeHooks_snd (fo_PostFailoverHooks (cfg_Failover config)) cc
              ((tr ++ evs) ++ [EvNow])) as (ran & Hpost).
  destruct (executeHooks _ cc ((tr ++ evs) ++ [EvNow])) as [r tr2].
  cbn [snd] in Hpost. subst tr2. unfold ret. cbn [snd].
  exists (evs ++ EvNow :: map (hook_event cc) ran). split.
  - rewrite <- !app_assoc. reflexivity.
  - apply Forall_app. split; [exact Hevs|].
    constructor; [reflexivity | apply hook_events_not_observation].
Qed.

(** The events of a whole recovery, whatever its outcome. *)
Lemma performFailover_events fuel cc src tgt tr :
  exists evs,
    snd (performFailover config fuel cc src tgt tr) = tr ++ evs
    /\ List.Forall (fun e => is_observation e = false) evs.
Proof.
  unfold performFailover, bind.
  change (Now tr) with (answer_Now tr, tr ++ [EvNow]).
  destruct (executeHooks_snd (fo_PreFailoverHooks (cfg_Failover config)) cc
              (tr ++ [EvNow])) as (ran & Hpre).
  pose proof (hook_events_not_observation cc ran) as Hran.
  destruct (executeHooks _ cc (tr ++ [EvNow])) as [r1 tr1].
  cbn [snd] in Hpre. subst tr1.
  destruct r1 as [err|].
  { exists (EvNow :: map (hook_event cc) ran ++ [EvNow]).
    unfold Now, call, ret. cbn [snd]. split.
    - now rewrite <- !app_assoc.
    - constructor; [reflexivity|]. apply Forall_app. split; [exact Hran|].
      now repeat constructor. }
  destruct (obtainBackup_snd cc ((tr ++ [EvNow]) ++ map (hook_event cc) ran))
    as (eb & Hb & _ & Hbq).
  destruct (obtainBackup config cc _) as [r2 tr2].
  cbn [snd] in Hb. subst tr2.
  destruct r2 as [path|err].
  2:{ exists (EvNow :: map (hook_event cc) ran ++ [eb; EvNow]).
      unfold Now, call, ret. cbn [snd]. split.
      - rewrite <- !app_assoc. reflexivity.
      - constructor; [reflexivity|]. apply Forall_app. split; [exact Hran|].
        now repeat constructor. }
  destruct (failoverWithRetries_events fuel cc src tgt path (answer_Now tr)
              (((tr ++ [EvNow]) ++ map (hook_event cc) ran) ++ [eb]))
    as (evs & Hrest & Hevs).
  rewrite Hrest.
  exists (EvNow :: map (hook_event cc) ran ++ eb :: evs). split.
  - rewrite <- !app_assoc. reflexivity.
  - constructor; [reflexivity|]. apply Forall_app. split; [exact Hran|].
    now constructor.
Qed.

Lemma findContainerConfig_none containerID :
  ~ In containerID (map cc_ID (mon_Containers (cfg_Monitoring config))) ->
  findContainerConfig config containerID = None.
Proof.
  unfold findContainerConfig.
  induction (mon_Containers (cfg_Monitoring config)) as [|c l IH]; simpl;
    [reflexivity|].
  intros Hnot. destruct (Z.eqb_spec (cc_ID c) containerID); [tauto|].
  apply IH. tauto.
Qed.

(** X1. A manual failover without the force flag is refused for a running
    container: the status is fetched and nothing else happens. *)
Theorem TriggerFailover_running_refused fuel containerID targetNode cc info tr :
  findContainerConfig config containerID = Some cc ->
  answer_GetContainer tr containerID = Ok info ->
  ci_Status info = "running" ->
  TriggerFailover config fuel containerID targetNode false tr
  = (Returned (Some (Errorf "container is running and force flag not set")),
     tr ++ [EvGetContainer containerID]).
Proof.
  intros Hcc Hget Hrun. unfold TriggerFailover. rewrite Hcc.
  unfold bind, GetContainer. rewrite call_run, Hget, Hrun. reflexivity.
Qed.

(** X2. With auto-failover on, the automatic failover of a container is the
    manual one with the force flag and no target given. *)
Theorem HandleContainerFailure_is_forced_trigger fuel containerID tr :
  fo_AutoFailover (cfg_Failover config) = true ->
  HandleContainerFailure config fuel containerID tr
  = TriggerFailover config fuel containerID "" true tr.
Proof.
  intros Hauto. unfold HandleContainerFailure, TriggerFailover, chooseTarget.
  rewrite Hauto. cbn [negb andb String.eqb].
  destruct (findContainerConfig config containerID) as [cc|]; [|reflexivity].
  unfold bind.
  destruct (GetContainer containerID tr) as [[info|err] tr1]; [|reflexivity].
  destruct (selectBestNode cc (ci_Node info) tr1) as [[target|err] tr2];
    reflexivity.
Qed.

(** X3. A target node given to a manual failover is used as it is: after the
    status fetch the recovery runs towards it, and nothing looks at the
    cluster (no node listing, no further status fetch), so the target is
    checked neither against the failover nodes nor for being online or
    different from the current node. *)
Theorem TriggerFailover_explicit_target fuel containerID targetNode force cc info tr :
  targetNode <> "" ->
  findContainerConfig config containerID = Some cc ->
  answer_GetContainer tr containerID = Ok info ->
  force = true \/ ci_Status info <> "running" ->
  TriggerFailover config fuel containerID targetNode force tr
  = (match fst (performFailover config fuel cc (ci_Node info) targetNode
                  (tr ++ [EvGetContainer containerID])) with
     | Returned result => Returned (verdict result)
     | OutOfFuel => OutOfFuel
     end,
     snd (performFailover config fuel cc (ci_Node info) targetNode
            (tr ++ [EvGetContainer containerID])))
  /\ exists evs,
       snd (TriggerFailover config fuel containerID targetNode force tr)
       = tr ++ EvGetContainer containerID :: evs
       /\ List.Forall (fun e => is_observation e = false) evs.
Proof.
  intros Htarget Hcc Hget Hforce.
  assert (Hrun : TriggerFailover config fuel containerID targetNode force tr
    = (match fst (performFailover config fuel cc (ci_Node info) targetNode
                    (tr ++ [EvGetContainer containerID])) with
       | Returned result => Returned (verdict result)
       | OutOfFuel => OutOfFuel
       end,
       snd (performFailover config fuel cc (ci_Node info) targetNode
              (tr ++ [EvGetContainer containerID])))).
  { unfold TriggerFailover, chooseTarget. rewrite Hcc.
    unfold bind at 1, GetContainer at 1. rewrite call_run, Hget.
    assert (negb force && String.eqb (ci_Status info) "running" = false) as ->.
    { destruct Hforce as [->|Hs]; [reflexivity|].
      apply String.eqb_neq in Hs. rewrite Hs. apply andb_false_r. }
    apply String.eqb_neq in Htarget. rewrite Htarget.
    unfold bind, ret.
    destruct (performFailover config fuel cc (ci_Node info) targetNode
                (tr ++ [EvGetContainer containerID])) as [[result|] tr1];
      [|reflexivity].
    unfold verdict. cbn [fst snd]. now destruct (fr_Success result). }
  split; [exact Hrun|].
  rewrite Hrun. cbn [snd].
  destruct (performFailover_events fuel cc (ci_Node info) targetNode
              (tr ++ [EvGetContainer containerID])) as (evs & Hevs & Hq).
  exists evs. split; [|exact Hq]. rewrite Hevs. now rewrite <- app_assoc.
Qed.

(** X4. A failover asked for a container that is not in the configuration is
    an error and touches nothing: no platform call, no hook. *)
Theorem failover_of_unconfigured_container fuel containerID targetNode force tr :
  ~ In containerID (map cc_ID (mon_Containers (cfg_Monitoring config))) ->
  TriggerFailover config fuel containerID targetNode force tr
  = (Returned (Some (Errorf ("container " +:+ fmt_d containerID
                             +:+ " not found in configuration"))), tr)
  /\ (fo_AutoFailover (cfg_Failover config) = true ->
      HandleContainerFailure config fuel containerID tr
      = (Returned (Some (Errorf ("container " +:+ fmt_d containerID
                                 +:+ " not found in configuration"))), tr)).
Proof.
  intros Hnot. apply findContainerConfig_none in Hnot.
  unfold TriggerFailover, HandleContainerFailure. rewrite Hnot.
  split; [reflexivity|]. now intros ->.
Qed.

(** X5. When the pre-failover hooks pass and the backup step fails (the
    backup cannot be created, or none is found), the recovery is given up
    with that error before any attempt: nothing is stopped, restored or
    started, no sleep. *)
Theorem performFailover_backup_failure fuel cc src tgt tr err :
  hooks_pass cc (fo_PreFailoverHooks (cfg_Failover config)) (tr ++ [EvNow]) = true ->
  fst (obtainBackup config cc
         ((tr ++ [EvNow])
            ++ map (hook_event cc) (fo_PreFailoverHooks (cfg_Failover config))))
  = Err err ->
  exists result e,
    performFailover config fuel cc src tgt tr
    = (Returned result,
       tr ++ EvNow :: map (hook_event cc) (fo_PreFailoverHooks (cfg_Failover config))
          ++ [e; EvNow])
    /\ fr_Success result = false
    /\ fr_Error result = Some err
    /\ (exists cause, err = Wrapf "backup failed" cause
                      \/ err = Wrapf "failed to find backup" cause)
    /\ List.filter is_attempt_event
         (EvNow :: map (hook_event cc) (fo_PreFailoverHooks (cfg_Failover config))
            ++ [e; EvNow]) = [].
Proof.
  intros Hpass Hback.
  pose proof (executeHooks_pass cc _ _ Hpass) as Hpre.
  destruct (obtainBackup_run cc
              ((tr ++ [EvNow])
                 ++ map (hook_event cc) (fo_PreFailoverHooks (cfg_Failover config))))
    as (e & Hb & Hea & _ & _).
  rewrite Hback in Hb.
  assert (Hcause : exists cause, err = Wrapf "backup failed" cause
                                 \/ err = Wrapf "failed to find backup" cause).
  { revert Hback. unfold obtainBackup, bind.
    destruct (fo_BackupBeforeFailover (cfg_Failover config)).
    - destruct (BackupContainer _ _ _ _) as [[p|e0] tr1]; [discriminate|].
      intros [= <-]. eauto.
    - destruct (findLatestBackup _ _ _) as [[p|e0] tr1]; [discriminate|].
      intros [= <-]. eauto. }
  unfold performFailover. unfold bind at 1. unfold Now at 1. rewrite call_run.
  rewrite (bind_run _ _ _ _ _ Hpre). rewrite (bind_run _ _ _ _ _ Hb).
  unfold bind, Now, call, ret. cbn [failAt fr_Success fr_Error].
  eexists. exists e. split.
  { f_equal. rewrite <- !app_assoc. reflexivity. }
  repeat split; [exact Hcause|].
  cbn [List.filter is_attempt_event is_stop is_restore is_start is_sleep orb].
  rewrite List.filter_app.
  rewrite (filter_hook_events is_attempt_event) by reflexivity.
  cbn. now rewrite Hea.
Qed.

(** The hooks [executeHooks] runs are those of [hooks_run]. *)
Lemma executeHooks_hooks_run hooks cc : forall tr,
  executeHooks hooks cc tr
  = (fst (executeHooks hooks cc tr),
     tr ++ map (hook_event cc) (hooks_run cc hooks tr)).
Proof.
  rewrite executeHooks_eq.
  induction hooks as [|h hooks IH]; intros tr.
  - simpl. unfold ret. now rewrite app_nil_r.
  - cbn [executeHooks_loop hooks_run]. unfold bind, runHook. rewrite call_run.
    fold (hook_event cc h).
    destruct (answer_Hook tr h (cc_ID cc) (cc_Name cc)) as [e|].
    + reflexivity.
    + cbn [is_none]. rewrite IH at 1. cbn [fst snd map].
      now rewrite <- app_assoc.
Qed.

Lemma hooks_run_pass cc hooks : forall tr,
  hooks_pass cc hooks tr = true -> hooks_run cc hooks tr = hooks.
Proof.
  induction hooks as [|h hooks IH]; intros tr Hpass; [reflexivity|].
  cbn [hooks_pass hooks_run] in *.
  apply andb_true_iff in Hpass. destruct Hpass as [-> Hpass].
  now rewrite IH.
Qed.

Lemma attempts_from_pos (attempt : M (option error)) d tr k final evs :
  attempts_from attempt d tr k final evs -> (1 <= k)%nat.
Proof. induction 1; lia. Qed.

(** A run of attempts of which the last succeeds is what the retry loop
    does, from whatever attempt number leaves room for it. *)
Lemma retryLoop_success cc src tgt path tr k final evs :
  attempts_from (performBackupRestoreFailover cc src tgt path)
                (fo_RetryDelay (cfg_Failover config)) tr k final evs ->
  final = None ->
  forall a fuel err0,
    GoInt.int_min <= a ->
    a + Z.of_nat k - 1 <= fo_MaxRetries (cfg_Failover config) ->
    fo_MaxRetries (cfg_Failover config) <= GoInt.int_max ->
    (k <= fuel)%nat ->
    retryLoop config fuel cc src tgt path a err0 tr
    = (Returned (true, None), tr ++ evs).
Proof.
  induction 1 as [tr final chunk Hatt | tr e chunk k final evs Hatt Hfrom IH];
    intros Hfinal a fuel err0 Hmin Ha Hmax Hfuel.
  - subst final. destruct fuel as [|fuel]; [lia|].
    cbn [retryLoop].
    destruct (Z.leb_spec a (fo_MaxRetries (cfg_Failover config))); [|lia].
    now rewrite (bind_run _ _ _ _ _ Hatt).
  - pose proof (attempts_from_pos _ _ _ _ _ _ Hfrom) as Hk.
    destruct fuel as [|fuel]; [lia|].
    cbn [retryLoop].
    destruct (Z.leb_spec a (fo_MaxRetries (cfg_Failover config))); [|lia].
    rewrite (bind_run _ _ _ _ _ Hatt).
    destruct (Z.ltb_spec a (fo_MaxRetries (cfg_Failover config))); [|lia].
    unfold bind at 1, Sleep at 1. rewrite call_run.
    rewrite GoIntFacts.incr_small by lia.
    rewrite <- app_assoc.
    rewrite (IH Hfinal (a + 1) fuel (Some e)) by lia.
    f_equal. rewrite <- !app_assoc. reflexivity.
Qed.

(** X6. A failure of the post-failover hooks does not undo a recovery: once
    an attempt has succeeded, be it the first or a retry, the result is
    successful and carries no error, and the callers return nil, whatever
    the post-failover hooks answer. *)
Theorem post_hook_failure_keeps_success fuel cc src tgt path startTime tr k evs :
  attempts_from (performBackupRestoreFailover cc src tgt path)
                (fo_RetryDelay (cfg_Failover config)) tr k None evs ->
  Z.of_nat k <= fo_MaxRetries (cfg_Failover config) ->
  fo_MaxRetries (cfg_Failover config) <= GoInt.int_max ->
  (k <= fuel)%nat ->
  exists result,
    failoverWithRetries config fuel cc src tgt path startTime tr
    = (Returned result,
       tr ++ evs
          ++ EvNow
          :: map (hook_event cc)
               (hooks_run cc (fo_PostFailoverHooks (cfg_Failover config))
                  (tr ++ evs ++ [EvNow])))
    /\ fr_Success result = true
    /\ fr_Error result = None
    /\ verdict result = None.
Proof.
  intros Hfrom Hk Hmax Hfuel.
  unfold failoverWithRetries.
  rewrite (bind_run _ _ _ _ _
             (retryLoop_success cc src tgt path tr k None evs Hfrom eq_refl
                1 fuel None ltac:(unfold GoInt.int_min; lia) ltac:(lia)
                Hmax Hfuel)).
  unfold bind at 1, Now at 1. rewrite call_run.
  rewrite (bind_run _ _ _ _ _
             (executeHooks_hooks_run
                (fo_PostFailoverHooks (cfg_Failover config)) cc
                ((tr ++ evs) ++ [EvNow]))).
  unfold ret. eexists. split.
  - f_equal. rewrite <- !app_assoc. reflexivity.
  - repeat split.
Qed.

(** X7. With a retry limit of zero or less no attempt is made, and the
    recovery still goes on to the post-failover hooks (they are run in
    order, up to the first that fails) and returns a result with the
    success flag false and no error, for which the callers return nil. *)
Theorem no_attempt_without_retries fuel cc src tgt path startTime tr :
  fo_MaxRetries (cfg_Failover config) <= 0 ->
  (0 < fuel)%nat ->
  exists result,
    failoverWithRetries config fuel cc src tgt path startTime tr
    = (Returned result,
       tr ++ EvNow
          :: map (hook_event cc)
               (hooks_run cc (fo_PostFailoverHooks (cfg_Failover config))
                  (tr ++ [EvNow])))
    /\ (hooks_pass cc (fo_PostFailoverHooks (cfg_Failover config))
                   (tr ++ [EvNow]) = true ->
        hooks_run cc (fo_PostFailoverHooks (cfg_Failover config)) (tr ++ [EvNow])
        = fo_PostFailoverHooks (cfg_Failover config))
    /\ fr_Success result = false
    /\ fr_Error result = None
    /\ verdict result = None
    /\ List.filter is_attempt_event
         (EvNow
          :: map (hook_event cc)
               (hooks_run cc (fo_PostFailoverHooks (cfg_Failover config))
                  (tr ++ [EvNow]))) = [].
Proof.
  intros Hn Hfuel. destruct fuel as [|fuel]; [lia|].
  eexists. split.
  { unfold failoverWithRetries. cbn [retryLoop].
    destruct (Z.leb_spec 1 (fo_MaxRetries (cfg_Failover config))); [lia|].
    unfold bind at 1, ret at 1. unfold bind at 1, Now at 1. rewrite call_run.
    rewrite (bind_run _ _ _ _ _
               (executeHooks_hooks_run
                  (fo_PostFailoverHooks (cfg_Failover config)) cc
                  (tr ++ [EvNow]))).
    unfold ret. f_equal. now rewrite <- app_assoc. }
  split; [apply hooks_run_pass|].
  repeat split.
  cbn. now rewrite (filter_hook_events is_attempt_event).
Qed.

End EngineMore.

Lemma TriggerFailover_running_refused_witness :
  TriggerFailover (H := clusterClient 0) (H0 := quietHost)
    (testConfig true 3 3 [] []) 5 100 "C" false []
  = (Returned (Some (Errorf "container is running and force flag not set")),
     [] ++ [EvGetContainer 100]).
Proof.
  apply (TriggerFailover_running_refused (H := clusterClient 0) (H0 := quietHost)
           (testConfig true 3 3 [] []) 5 100 "C" (container100 ["B"; "C"])
           (info100 "A" "running") []).
  - reflexivity.
  - reflexivity.
  - reflexivity.
Defined.

Lemma HandleContainerFailure_is_forced_trigger_witness :
  HandleContainerFailure (H := clusterClient 1) (H0 := quietHost)
    (testConfig true 3 3 [] []) 5 100 []
  = TriggerFailover (H := clusterClient 1) (H0 := quietHost)
      (testConfig true 3 3 [] []) 5 100 "" true [].
Proof.
  apply (HandleContainerFailure_is_forced_trigger (H := clusterClient 1)
           (H0 := quietHost) (testConfig true 3 3 [] []) 5 100 []).
  reflexivity.
Defined.

Lemma TriggerFailover_explicit_target_witness :
  exists evs,
    snd (TriggerFailover (H := clusterClient 0) (H0 := quietHost)
           (testConfig true 3 3 [] []) 5 100 "elsewhere" true [])
    = [] ++ EvGetContainer 100 :: evs
    /\ List.Forall (fun e => is_observation e = false) evs.
Proof.
  apply (TriggerFailover_explicit_target (H := clusterClient 0) (H0 := quietHost)
           (testConfig true 3 3 [] []) 5 100 "elsewhere" true
           (container100 ["B"; "C"]) (info100 "A" "running") []).
  - discriminate.
  - reflexivity.
  - reflexivity.
  - left. reflexivity.
Defined.

Lemma failover_of_unconfigured_container_witness :
  TriggerFailover (H := clusterClient 0) (H0 := quietHost)
    (testConfig true 3 3 [] []) 5 999 "C" true []
  = (Returned (Some (Errorf ("container " +:+ fmt_d 999
                             +:+ " not found in configuration"))), []).
Proof.
  destruct (failover_of_unconfigured_container (H := clusterClient 0)
              (H0 := quietHost) (testConfig true 3 3 [] []) 5 999 "C" true [])
    as [Hrun _].
  - simpl. lia.
  - exact Hrun.
Defined.

Lemma performFailover_backup_failure_witness :
  exists result e,
    performFailover (H := backupClient []) (H0 := quietHost)
      (reuseConfig 3 ["notify.sh"] []) 5 (container100 ["B"; "C"]) "A" "C" []
    = (Returned result,
       [] ++ EvNow :: map (hook_event (container100 ["B"; "C"])) ["notify.sh"]
          ++ [e; EvNow])
    /\ fr_Success result = false
    /\ fr_Error result
       = Some (Wrapf "failed to find backup"
                 (Errorf "no backup found for container 100")).
Proof.
  destruct (performFailover_backup_failure (H := backupClient [])
              (H0 := quietHost) (reuseConfig 3 ["notify.sh"] []) 5
              (container100 ["B"; "C"]) "A" "C" []
              (Wrapf "failed to find backup"
                 (Errorf "no backup found for container 100")))
    as (result & e & Hrun & Hs & He & _).
  - reflexivity.
  - vm_compute. reflexivity.
  - exists result, e. split; [exact Hrun|]. split; [exact Hs | exact He].
Defined.

(** The first restore fails, the retry succeeds, and the post-failover hook
    fails. *)
Lemma post_hook_failure_keeps_success_witness :
  exists result,
    failoverWithRetries (H := clusterClient 1) (H0 := quietHost)
      (testConfig true 3 3 [] ["veto.sh"; "late.sh"]) 4
      (container100 ["B"; "C"]) "A" "C" "local:backup/dump.tar.zst" 0 []
    = (Returned result,
       [] ++ (attempt_events (container100 ["B"; "C"]) "C"
                "local:backup/dump.tar.zst" false
              ++ EvSleep 5
              :: attempt_events (container100 ["B"; "C"]) "C"
                   "local:backup/dump.tar.zst" true)
          ++ EvNow :: map (hook_event (container100 ["B"; "C"])) ["veto.sh"])
    /\ fr_Success result = true
    /\ fr_Error result = None
    /\ verdict result = None.
Proof.
  apply (post_hook_failure_keeps_success (H := clusterClient 1) (H0 := quietHost)
           (testConfig true 3 3 [] ["veto.sh"; "late.sh"]) 4
           (container100 ["B"; "C"]) "A" "C" "local:backup/dump.tar.zst" 0 []
           2
           (attempt_events (container100 ["B"; "C"]) "C"
              "local:backup/dump.tar.zst" false
            ++ EvSleep 5
            :: attempt_events (container100 ["B"; "C"]) "C"
                 "local:backup/dump.tar.zst" true)).
  - apply (attempts_retry _ _ [] (Wrapf "failed to restore container"
                                    (Errorf "restore failed"))).
    + reflexivity.
    + apply attempts_last. reflexivity.
  - simpl. lia.
  - simpl. unfold GoInt.int_max. lia.
  - lia.
Defined.

Lemma no_attempt_without_retries_witness :
  exists result,
    failoverWithRetries (H := clusterClient 0) (H0 := quietHost)
      (testConfig true 0 3 [] ["notify.sh"; "done.sh"]) 1
      (container100 ["B"; "C"]) "A" "C" "local:backup/dump.tar.zst" 0 []
    = (Returned result,
       [] ++ EvNow
          :: map (hook_event (container100 ["B"; "C"])) ["notify.sh"; "done.sh"])
    /\ fr_Success result = false
    /\ fr_Error result = None
    /\ verdict result = None.
Proof.
  destruct (no_attempt_without_retries (H := clusterClient 0) (H0 := quietHost)
              (testConfig true 0 3 [] ["notify.sh"; "done.sh"]) 1
              (container100 ["B"; "C"]) "A" "C" "local:backup/dump.tar.zst" 0 [])
    as (result & Hrun & _ & Hs & He & Hv & _).
  - simpl. lia.
  - lia.
  - exists result. split; [exact Hrun|]. split; [exact Hs|].
    split; [exact He | exact Hv].
Defined.

(** ** The latest backup *)

Lemma ascii_compare_refl x : Ascii.compare x x = Eq.
Proof. unfold Ascii.compare. apply N.compare_refl. Qed.

Lemma string_compare_lt_trans a : forall b c,
  String.compare a b = Lt -> String.compare b c = Lt -> String.compare a c = Lt.
Proof.
  induction a as [|x a IH]; intros [|y b] [|z c]; simpl; try discriminate; auto.
  destruct (Ascii.compare x y) eqn:Exy; try discriminate;
    destruct (Ascii.compare y z) eqn:Eyz; try discriminate; intros H1 H2.
  - apply Ascii.compare_eq_iff in Exy, Eyz. subst.
    rewrite ascii_compare_refl. eauto.
  - apply Ascii.compare_eq_iff in Exy. subst. now rewrite Eyz.
  - apply Ascii.compare_eq_iff in Eyz. subst. now rewrite Exy.
  - unfold Ascii.compare in *. rewrite N.compare_lt_iff in *.
    assert (Hxz : (N_of_ascii x < N_of_ascii z)%N) by lia.
    apply N.compare_lt_iff in Hxz. now rewrite Hxz.
Qed.

Lemma string_ltb_asym a b : String.ltb a b = true -> String.ltb b a = false.
Proof.
  unfold String.ltb. rewrite (String.compare_antisym b a).
  now destruct (String.compare a b).
Qed.

(** "Not smaller than" is transitive. *)
Lemma string_ltb_false_trans a b c :
  String.ltb a b = false -> String.ltb b c = false -> String.ltb a c = false.
Proof.
  unfold String.ltb. intros Hab Hbc.
  destruct (String.compare a c) eqn:Eac; try reflexivity.
  destruct (String.compare a b) eqn:Eab; try discriminate.
  - apply String.compare_eq_iff in Eab. subst. now rewrite Eac in Hbc.
  - destruct (String.compare b c) eqn:Ebc; try discriminate.
    + apply String.compare_eq_iff in Ebc. subst. congruence.
    + assert (Hba : String.compare b a = Lt)
        by (rewrite String.compare_antisym, Eab; reflexivity).
      pose proof (string_compare_lt_trans _ _ _ Hba Eac). congruence.
Qed.

Lemma string_ltb_irrefl a : String.ltb a a = false.
Proof.
  unfold String.ltb. destruct (String.compare a a) eqn:E; try reflexivity.
  pose proof (String.compare_antisym a a) as Ha. rewrite E in Ha. discriminate.
Qed.

Lemma latestBackup_fold prefix : forall backups latest,
  match fold_left (latestBackup_step prefix) backups latest with
  | None =>
      latest = None
      /\ forall b, In b backups -> String.prefix prefix (bi_Filename b) = false
  | Some best =>
      (latest = Some best
       \/ (In best backups /\ String.prefix prefix (bi_Filename best) = true))
      /\ (forall a, latest = Some a ->
            String.ltb (bi_Filename best) (bi_Filename a) = false)
      /\ (forall b, In b backups ->
            String.prefix prefix (bi_Filename b) = true ->
            String.ltb (bi_Filename best) (bi_Filename b) = false)
  end.
Proof.
  induction backups as [|x backups IH]; intros latest; simpl.
  - destruct latest as [a|].
    + split; [now left|]. split; [|now intros b []].
      intros a' [= <-]. apply string_ltb_irrefl.
    + split; [reflexivity | now intros b []].
  - set (acc := latestBackup_step prefix latest x).
    pose proof (IH acc) as IH'.
    destruct (String.prefix prefix (bi_Filename x)) eqn:Epre.
    2:{ assert (Hacc : acc = latest)
          by (unfold acc, latestBackup_step; now rewrite Epre).
        clearbody acc. subst acc.
        destruct (fold_left _ backups latest) as [best|].
        - destruct IH' as (Hin & Hlat & Hall). split; [|split].
          + destruct Hin as [Hin|[Hin Hp]]; [now left | right; split; auto].
          + exact Hlat.
          + intros b [<-|Hb] Hp; [congruence | now apply Hall].
        - destruct IH' as [Hl Hall]. split; [exact Hl|].
          intros b [<-|Hb]; [exact Epre | now apply Hall]. }
    destruct latest as [a|].
    + destruct (String.ltb (bi_Filename a) (bi_Filename x)) eqn:Eax.
      * assert (Hacc : acc = Some x)
          by (unfold acc, latestBackup_step; now rewrite Epre, Eax).
        clearbody acc. subst acc.
        destruct (fold_left _ backups (Some x)) as [best|];
          [|destruct IH'; discriminate].
        destruct IH' as (Hin & Hlat & Hall).
        assert (Hbx : String.ltb (bi_Filename best) (bi_Filename x) = false)
          by now apply Hlat.
        split; [|split].
        -- right. destruct Hin as [Hin|[Hin Hp]]; [|split; auto].
           injection Hin as <-. split; auto.
        -- intros a' Ha'. injection Ha' as <-.
           apply (string_ltb_false_trans _ (bi_Filename x)); [exact Hbx|].
           now apply string_ltb_asym.
        -- intros b [<-|Hb] Hp; [exact Hbx | now apply Hall].
      * assert (Hacc : acc = Some a)
          by (unfold acc, latestBackup_step; now rewrite Epre, Eax).
        clearbody acc. subst acc.
        destruct (fold_left _ backups (Some a)) as [best|];
          [|destruct IH'; discriminate].
        destruct IH' as (Hin & Hlat & Hall).
        split; [|split].
        -- destruct Hin as [Hin|[Hin Hp]]; [now left | right; split; auto].
        -- exact Hlat.
        -- intros b [<-|Hb] Hp; [|now apply Hall].
           apply (string_ltb_false_trans _ (bi_Filename a));
             [now apply Hlat | exact Eax].
    + assert (Hacc : acc = Some x)
        by (unfold acc, latestBackup_step; now rewrite Epre).
      clearbody acc. subst acc.
      destruct (fold_left _ backups (Some x)) as [best|];
        [|destruct IH'; discriminate].
      destruct IH' as (Hin & Hlat & Hall).
      split; [|split].
      * right. destruct Hin as [Hin|[Hin Hp]]; [|split; auto].
        injection Hin as <-. split; auto.
      * discriminate.
      * intros b [<-|Hb] Hp; [now apply Hlat | now apply Hall].
Qed.

Section BackupFacts.
Context `{APIClient} `{Host}.
Variable config : Config.

(** X8. Among the backups listed on the configured storage,
    [findLatestBackup] picks one whose file name starts with the container's
    prefix and that no other such file name exceeds in byte order, and
    returns it as storage:filename; it fails exactly when no listed file
    name has the prefix. One listing call is made. *)
Theorem findLatestBackup_greatest containerID backups tr :
  answer_GetBackups tr (bk_Storage (cfg_Backup config)) = Ok backups ->
  snd (findLatestBackup config containerID tr)
  = tr ++ [EvGetBackups (bk_Storage (cfg_Backup config))]
  /\ match fst (findLatestBackup config containerID tr) with
     | Ok path =>
         exists best,
           In best backups
           /\ has_backup_prefix containerID best = true
           /\ path = bi_Storage best +:+ ":" +:+ bi_Filename best
           /\ forall b, In b backups -> has_backup_prefix containerID b = true ->
                        String.ltb (bi_Filename best) (bi_Filename b) = false
     | Err err =>
         err = Errorf ("no backup found for container " +:+ fmt_d containerID)
         /\ forall b, In b backups -> has_backup_prefix containerID b = false
     end.
Proof.
  intros Hlist. split; [now rewrite findLatestBackup_run|].
  unfold findLatestBackup, bind, GetBackups. rewrite call_run, Hlist.
  pose proof (latestBackup_fold ("vzdump-lxc-" +:+ fmt_d containerID +:+ "-")
                backups None) as Hfold.
  destruct (fold_left _ backups None) as [best|]; cbn [fst ret].
  - destruct Hfold as ([Hin|[Hin Hp]] & _ & Hall); [discriminate|].
    exists best. repeat split; assumption.
  - destruct Hfold as [_ Hall]. split; [reflexivity | exact Hall].
Qed.

End BackupFacts.

Lemma findLatestBackup_greatest_witness :
  snd (findLatestBackup (H := backupClient listedBackups)
         (reuseConfig 3 [] []) 100 [])
  = [] ++ [EvGetBackups "local"]
  /\ match fst (findLatestBackup (H := backupClient listedBackups)
                  (reuseConfig 3 [] []) 100 []) with
     | Ok path =>
         exists best,
           In best listedBackups
           /\ has_backup_prefix 100 best = true
           /\ path = bi_Storage best +:+ ":" +:+ bi_Filename best
           /\ forall b, In b listedBackups -> has_backup_prefix 100 b = true ->
                        String.ltb (bi_Filename best) (bi_Filename b) = false
     | Err err =>
         err = Errorf ("no backup found for container " +:+ fmt_d 100)
         /\ forall b, In b listedBackups -> has_backup_prefix 100 b = false
     end.
Proof.
  apply (findLatestBackup_greatest (H := backupClient listedBackups)
           (reuseConfig 3 [] []) 100 listedBackups []).
  reflexivity.
Defined.

Section BundledBackup.
Context (sdk : ProxmoxSDK) `{Host}.
Variable config : Config.

(** X9. On the bundled client, whose backup listing is always empty, a
    recovery configured to reuse the latest backup
    ([backup_before_failover] off) never reaches the retry loop: it ends
    with an error (no backup found, unless a pre-failover hook failed first)
    and nothing is stopped, restored or started. *)
Theorem bundled_recovery_needs_fresh_backup fuel cc src tgt tr :
  fo_BackupBeforeFailover (cfg_Failover config) = false ->
  exists result evs,
    performFailover (H := Client sdk) config fuel cc src tgt tr
    = (Returned result, tr ++ evs)
    /\ fr_Success result = false
    /\ (fr_Error result
        = Some (Wrapf "failed to find backup"
                  (Errorf ("no backup found for container " +:+ fmt_d (cc_ID cc))))
        \/ exists e, fr_Error result = Some (Wrapf "pre-failover hooks failed" e))
    /\ List.filter is_attempt_event evs = [].
Proof.
  intros Hflag. unfold performFailover. unfold bind at 1, Now at 1.
  rewrite call_run.
  destruct (executeHooks_run (fo_PreFailoverHooks (cfg_Failover config)) cc
              (tr ++ [EvNow])) as (ran & Hpre & _).
  rewrite (bind_run _ _ _ _ _ Hpre).
  destruct (fst (executeHooks _ cc (tr ++ [EvNow]))) as [err|].
  - unfold bind, Now, call, ret. cbn [failAt fr_Success fr_Error].
    eexists. exists (EvNow :: map (hook_event cc) ran ++ [EvNow]).
    split; [f_equal; now rewrite <- !app_assoc|].
    split; [reflexivity|]. split; [right; eauto|].
    cbn. rewrite List.filter_app.
    now rewrite (filter_hook_events is_attempt_event).
  - unfold obtainBackup. rewrite Hflag.
    unfold findLatestBackup, bind, GetBackups, Now, call, ret.
    cbn [answer_GetBackups Client Client_GetBackups fold_left failAt
         fr_Success fr_Error].
    eexists.
    exists (EvNow :: map (hook_event cc) ran
            ++ [EvGetBackups (bk_Storage (cfg_Backup config)); EvNow]).
    split; [f_equal; rewrite <- !app_assoc; reflexivity|].
    split; [reflexivity|]. split; [now left|].
    cbn. rewrite List.filter_app.
    now rewrite (filter_hook_events is_attempt_event).
Qed.

End BundledBackup.

Lemma bundled_recovery_needs_fresh_backup_witness :
  exists result evs,
    performFailover (H := Client idleSDK) (H0 := quietHost)
      (reuseConfig 3 [] []) 4 (container100 ["B"; "C"]) "A" "C" []
    = (Returned result, [] ++ evs)
    /\ fr_Success result = false
    /\ List.filter is_attempt_event evs = [].
Proof.
  destruct (bundled_recovery_needs_fresh_backup idleSDK (H := quietHost)
              (reuseConfig 3 [] []) 4 (container100 ["B"; "C"]) "A" "C" [])
    as (result & evs & Hrun & Hs & _ & Hq).
  - reflexivity.
  - exists result, evs. split; [exact Hrun|]. split; [exact Hs | exact Hq].
Defined.

(** ** More on target selection *)

(** X10. When the node listing names a node more than once, the last entry
    of that name decides: the status map holds, for every name, the last
    listed node of that name, and none for a name that is not listed. *)
Theorem nodeStatusMap_last_entry (nodes : list NodeInfo) (name : string) :
  nodeStatusMap nodes !! name
  = List.find (fun n => String.eqb (ni_Name n) name) (rev nodes).
Proof.
  induction nodes as [|n nodes IH] using rev_ind; [reflexivity|].
  rewrite nodeStatusMap_snoc, rev_app_distr. simpl.
  destruct (String.eqb_spec (ni_Name n) name) as [->|Hne].
  - apply lookup_insert_eq.
  - rewrite lookup_insert_ne by exact Hne. exact IH.
Qed.

Lemma collectCandidates_nil_iff nodeStatus current names : forall i,
  collectCandidates nodeStatus current i names = []
  <-> List.Forall (fun c => c = current \/ nodeStatus !! c = None) names.
Proof.
  induction names as [|n names IH]; intros i; simpl.
  - split; [constructor | reflexivity].
  - destruct (String.eqb_spec n current) as [->|Hne].
    + rewrite IH. split; [intros; constructor; auto | now inversion 1].
    + destruct (nodeStatus !! n) as [node|] eqn:El.
      * split; [discriminate|]. inversion 1 as [|? ? [Hc|Hc] _]; congruence.
      * rewrite IH. split; [intros; constructor; auto | now inversion 1].
Qed.

Lemma find_eligible_none nodes current names :
  List.find (eligible nodes current) names = None
  <-> List.Forall (fun c => c = current \/ is_live nodes c = false) names.
Proof.
  induction names as [|n names IH]; simpl.
  - split; [constructor | reflexivity].
  - unfold eligible at 1.
    destruct (String.eqb_spec n current) as [->|Hne]; cbn [negb andb].
    + rewrite IH. split; [intros; constructor; auto | now inversion 1].
    + destruct (is_live nodes n) eqn:El.
      * split; [discriminate|]. inversion 1 as [|? ? [Hc|Hc] _]; congruence.
      * rewrite IH. split; [intros; constructor; auto | now inversion 1].
Qed.

(** X11. The two ways target selection finds nobody are told apart: the
    error is "no available failover nodes" exactly when every configured
    failover node is the current host or is not named in the node listing,
    and "no online failover nodes available" exactly when some other
    configured node is named in the listing but none of them is online
    there. *)
Theorem selectBestNode_error_kinds `{APIClient}
    (cc : ContainerConfig) (current : string) (nodes : list NodeInfo) (tr : Trace) :
  cc_FailoverNodes cc <> [] ->
  answer_GetNodes tr = Ok nodes ->
  (fst (selectBestNode cc current tr) = Err (ErrNoAvailable (cc_ID cc))
   <-> List.Forall (fun c => c = current \/ ~ In c (map ni_Name nodes))
                   (cc_FailoverNodes cc))
  /\ (fst (selectBestNode cc current tr) = Err (ErrNoOnline (cc_ID cc))
      <-> ~ List.Forall (fun c => c = current \/ ~ In c (map ni_Name nodes))
                        (cc_FailoverNodes cc)
          /\ List.Forall (fun c => c = current \/ is_live nodes c = false)
                         (cc_FailoverNodes cc)).
Proof.
  intros Hne Hnodes.
  assert (Hlisted :
    List.Forall (fun c => c = current \/ nodeStatusMap nodes !! c = None)
                (cc_FailoverNodes cc)
    <-> List.Forall (fun c => c = current \/ ~ In c (map ni_Name nodes))
                    (cc_FailoverNodes cc)).
  { rewrite !List.Forall_forall.
    split; intros Hall c Hc; (destruct (Hall c Hc) as [Hcur|Hun]; [now left|]);
      right; now apply nodeStatusMap_unlisted. }
  rewrite <- Hlisted. clear Hlisted.
  rewrite (selectBestNode_run cc current nodes tr Hne Hnodes). cbn [fst].
  rewrite <- (collectCandidates_nil_iff (nodeStatusMap nodes) current
                (cc_FailoverNodes cc) 0).
  rewrite <- find_eligible_none.
  assert (Hdiff : ErrNoAvailable (cc_ID cc) <> ErrNoOnline (cc_ID cc))
    by (unfold ErrNoAvailable, ErrNoOnline; simpl; discriminate).
  pose proof (collect_nil_not_eligible nodes current (cc_FailoverNodes cc) 0)
    as Hnil.
  destruct (List.find (eligible nodes current) (cc_FailoverNodes cc)) as [t|].
  - split; split; try discriminate.
    + intros Hc. specialize (Hnil Hc). discriminate.
    + now intros [_ ?].
  - destruct (collectCandidates _ _ _ _) as [|c l]; split; split.
    + reflexivity.
    + reflexivity.
    + intros E. exfalso. apply Hdiff. congruence.
    + now intros [Hc _].
    + intros E. exfalso. apply Hdiff. congruence.
    + discriminate.
    + intros _. split; [discriminate | reflexivity].
    + reflexivity.
Qed.

(** Node B is listed, and offline: the error is the one about online nodes;
    node C is not listed. *)
Lemma selectBestNode_error_kinds_witness :
  (fst (selectBestNode (H := scriptedClient (Ok (info100 "A" "running"))
                               [node "A" true; node "B" false] 0)
          (container100 ["A"; "B"; "C"]) "A" [])
   = Err (ErrNoAvailable 100)
   <-> List.Forall
         (fun c => c = "A"
                   \/ ~ In c (map ni_Name [node "A" true; node "B" false]))
         ["A"; "B"; "C"])
  /\ (fst (selectBestNode (H := scriptedClient (Ok (info100 "A" "running"))
                                  [node "A" true; node "B" false] 0)
             (container100 ["A"; "B"; "C"]) "A" [])
      = Err (ErrNoOnline 100)
      <-> ~ List.Forall
              (fun c => c = "A"
                        \/ ~ In c (map ni_Name [node "A" true; node "B" false]))
              ["A"; "B"; "C"]
          /\ List.Forall
               (fun c => c = "A"
                         \/ is_live [node "A" true; node "B" false] c = false)
               ["A"; "B"; "C"]).
Proof.
  apply (selectBestNode_error_kinds
           (H := scriptedClient (Ok (info100 "A" "running"))
                   [node "A" true; node "B" false] 0)
           (container100 ["A"; "B"; "C"]) "A" [node "A" true; node "B" false] []).
  - discriminate.
  - reflexivity.
Defined.

Example select_listed_offline :
  fst (selectBestNode (H := scriptedClient (Ok (info100 "A" "running"))
                              [node "A" true; node "B" false] 0)
         (container100 ["A"; "B"; "C"]) "A" [])
  = Err (ErrNoOnline 100).
Proof. vm_compute. reflexivity. Qed.

(** ** Configuration checks *)

Lemma validateContainers_ok containers :
  validateContainers containers = None <-> List.Forall container_ok containers.
Proof.
  induction containers as [|c containers IH]; simpl.
  - split; [constructor | reflexivity].
  - destruct (Z.leb_spec (cc_ID c) 0) as [Hid|Hid].
    { split; [discriminate|]. intros Hall. apply List.Forall_inv in Hall.
      destruct Hall as (Hpos & _). lia. }
    destruct (cc_HealthChecks c) as [|hc hcs] eqn:Eh; simpl.
    { split; [discriminate|]. intros Hall. apply List.Forall_inv in Hall.
      destruct Hall as (_ & Hh & _). congruence. }
    destruct (cc_FailoverNodes c) as [|fn fns] eqn:Ef; simpl.
    { split; [discriminate|]. intros Hall. apply List.Forall_inv in Hall.
      destruct Hall as (_ & _ & Hf). congruence. }
    rewrite IH. split.
    + intros Hall. constructor; [|exact Hall].
      unfold container_ok. rewrite Eh, Ef. repeat split; try discriminate. lia.
    + intros Hall. now apply List.Forall_inv_tail in Hall.
Qed.

Lemma validate_containers_ok (config : LoadedConfig) :
  validate config = None ->
  List.Forall container_ok (mon_Containers (cfg_Monitoring (lc_Config config))).
Proof.
  unfold validate.
  repeat (match goal with |- context [if ?b then _ else _] => destruct b end;
          try discriminate).
  apply validateContainers_ok.
Qed.

(** X12. [validate] accepts a configuration exactly when the endpoint and
    the user name are set, a password or both token fields are set, at least
    one container is monitored, and every monitored container has a positive
    id, at least one health check and at least one failover node. Nothing
    else is checked: not the retry limit, the failure threshold, the check
    types or the hooks. *)
Theorem validate_accepts_iff (config : LoadedConfig) :
  validate config = None
  <-> px_Endpoint (lc_Proxmox config) <> ""
      /\ px_Username (lc_Proxmox config) <> ""
      /\ (px_Password (lc_Proxmox config) <> ""
          \/ (px_TokenID (lc_Proxmox config) <> ""
              /\ px_Secret (lc_Proxmox config) <> ""))
      /\ mon_Containers (cfg_Monitoring (lc_Config config)) <> []
      /\ List.Forall container_ok
           (mon_Containers (cfg_Monitoring (lc_Config config))).
Proof.
  unfold validate.
  destruct (String.eqb_spec (px_Endpoint (lc_Proxmox config)) "") as [He|He].
  { split; [discriminate | tauto]. }
  destruct (String.eqb_spec (px_Username (lc_Proxmox config)) "") as [Hu|Hu].
  { split; [discriminate | tauto]. }
  destruct (String.eqb_spec (px_Password (lc_Proxmox config)) "") as [Hp|Hp];
    destruct (String.eqb_spec (px_TokenID (lc_Proxmox config)) "") as [Ht|Ht];
    destruct (String.eqb_spec (px_Secret (lc_Proxmox config)) "") as [Hs|Hs];
    cbn [andb orb];
    try (split; [discriminate | tauto]);
    (destruct (mon_Containers (cfg_Monitoring (lc_Config config))) as [|c l] eqn:Ec;
     [ cbn; split; [discriminate | tauto]
     | cbn [length Nat.eqb]; rewrite validateContainers_ok;
       split; [intros Hall; repeat split; auto; discriminate | tauto] ]).
Qed.

Section ValidatedConfig.
Context `{APIClient} `{Host}.

Lemma findContainerConfig_first config containers id :
  mon_Containers (cfg_Monitoring config) = containers ->
  In id (map cc_ID containers) ->
  exists cc, findContainerConfig config id = Some cc
             /\ cc_ID cc = id /\ In cc containers.
Proof.
  intros <-. unfold findContainerConfig.
  induction (mon_Containers (cfg_Monitoring config)) as [|c l IH]; simpl;
    [now intros []|].
  destruct (Z.eqb_spec (cc_ID c) id) as [Hid|Hid].
  - intros _. exists c. auto.
  - intros [Hc|Hin]; [congruence|].
    destruct (IH Hin) as (cc & Hf & Hi & Hl). exists cc. auto.
Qed.

(** X13. In a configuration [validate] has accepted, every monitored
    container id is found again by the failover entry points, as a
    container with at least one failover node; so target selection for it
    never fails for want of configured nodes and always consults the node
    listing, with exactly one call. *)
Theorem validated_container_is_selectable (config : LoadedConfig) c current tr :
  validate config = None ->
  In c (mon_Containers (cfg_Monitoring (lc_Config config))) ->
  exists cc,
    findContainerConfig (lc_Config config) (cc_ID c) = Some cc
    /\ cc_ID cc = cc_ID c
    /\ cc_FailoverNodes cc <> []
    /\ snd (selectBestNode cc current tr) = tr ++ [EvGetNodes].
Proof.
  intros Hvalid Hin. apply validate_containers_ok in Hvalid. rename Hvalid into Hall.
  destruct (findContainerConfig_first (lc_Config config) _ (cc_ID c) eq_refl)
    as (cc & Hfind & Hid & Hcc); [now apply in_map|].
  rewrite List.Forall_forall in Hall. destruct (Hall cc Hcc) as (_ & _ & Hnodes).
  exists cc. repeat split; try assumption.
  unfold selectBestNode.
  destruct (cc_FailoverNodes cc) as [|n0 names]; [congruence|].
  unfold bind, GetNodes. rewrite call_run.
  destruct (answer_GetNodes tr) as [nodes|err]; [|reflexivity].
  destruct (collectCandidates _ _ _ _); [reflexivity|].
  now destruct (negb _).
Qed.

End ValidatedConfig.

Lemma validated_container_is_selectable_witness :
  exists cc,
    findContainerConfig (lc_Config (loadedConfig (testConfig true 3 3 [] []))) 100
    = Some cc
    /\ cc_ID cc = 100
    /\ cc_FailoverNodes cc <> []
    /\ snd (selectBestNode (H := clusterClient 0) cc "A" []) = [] ++ [EvGetNodes].
Proof.
  apply (validated_container_is_selectable (H := clusterClient 0)
           (loadedConfig (testConfig true 3 3 [] []))
           (container100 ["B"; "C"]) "A" []).
  - reflexivity.
  - simpl. left. reflexivity.
Defined.

(** ** More on the monitor *)

Section MonitorMore.
Context `{APIClient} `{Host}.
Variable m : Monitor.

Lemma runHealthChecks_run checks : forall allHealthy results tr,
  runHealthChecks checks allHealthy results tr
  = ((allHealthy && forallb cr_Success (probeResults checks tr),
      results ++ probeResults checks tr),
     tr ++ map EvRunHealthCheck checks).
Proof.
  induction checks as [|check checks IH]; intros allHealthy results tr.
  - simpl. unfold ret. now rewrite andb_true_r, !app_nil_r.
  - cbn [runHealthChecks probeResults forallb map].
    unfold bind, RunHealthCheck. rewrite call_run, IH.
    rewrite <- !app_assoc. cbn [app]. f_equal. f_equal.
    destruct (cr_Success (answer_RunHealthCheck tr check)), allHealthy;
      reflexivity.
Qed.

Lemma probeResults_length checks : forall tr,
  length (probeResults checks tr) = length checks.
Proof.
  induction checks as [|check checks IH]; intros tr; simpl; [reflexivity|].
  now rewrite IH.
Qed.

Lemma checkContainer_running_run container state info tr :
  answer_GetContainer tr (cc_ID container) = Ok info ->
  ci_Status info = "running" ->
  checkContainer m container state tr
  = let tr1 := tr ++ [EvGetContainer (cc_ID container); EvNow] in
    let results := probeResults (cc_HealthChecks container) tr1 in
    let tr2 := tr1 ++ map EvRunHealthCheck (cc_HealthChecks container) in
    let state' :=
      set_results
        (set_info state (ci_Node info) (ci_Status info)
           (answer_Now (tr ++ [EvGetContainer (cc_ID container)])))
        (answer_Now tr2) results in
    if forallb cr_Success results then (recordSuccess state', tr2 ++ [EvNow])
    else recordFailure m state' (tr2 ++ [EvNow]).
Proof.
  intros Hget Hrun. unfold checkContainer.
  unfold bind at 1, GetContainer at 1. rewrite call_run, Hget.
  unfold bind at 1, Now at 1. rewrite call_run.
  rewrite Hrun. cbn [String.eqb Ascii.eqb Bool.eqb negb].
  unfold bind at 1. rewrite runHealthChecks_run.
  unfold bind at 1, Now at 1. rewrite call_run.
  cbn [andb app]. rewrite <- !app_assoc. cbn [app].
  destruct (forallb cr_Success _); reflexivity.
Qed.

(** X14. For a running container one cycle runs every configured probe
    once, in the configured order, also after one of them has failed; it
    keeps one result per probe; and it records a healthy cycle when all of
    them succeeded and a failed one otherwise. *)
Theorem checkContainer_runs_every_probe container state info tr :
  answer_GetContainer tr (cc_ID container) = Ok info ->
  ci_Status info = "running" ->
  exists results state',
    length results = length (cc_HealthChecks container)
    /\ results
       = probeResults (cc_HealthChecks container)
           (tr ++ [EvGetContainer (cc_ID container); EvNow])
    /\ cs_HealthResults state' = results
    /\ cs_FailureCount state' = cs_FailureCount state
    /\ cs_HealthyCount state' = cs_HealthyCount state
    /\ checkContainer m container state tr
       = (if forallb cr_Success results then ret (recordSuccess state')
          else recordFailure m state')
           (tr ++ [EvGetContainer (cc_ID container); EvNow]
               ++ map EvRunHealthCheck (cc_HealthChecks container) ++ [EvNow]).
Proof.
  intros Hget Hrun.
  rewrite (checkContainer_running_run container state info tr Hget Hrun).
  cbv zeta.
  exists (probeResults (cc_HealthChecks container)
            (tr ++ [EvGetContainer (cc_ID container); EvNow])).
  exists (set_results
            (set_info state (ci_Node info) (ci_Status info)
               (answer_Now (tr ++ [EvGetContainer (cc_ID container)])))
            (answer_Now
               ((tr ++ [EvGetContainer (cc_ID container); EvNow])
                  ++ map EvRunHealthCheck (cc_HealthChecks container)))
            (probeResults (cc_HealthChecks container)
               (tr ++ [EvGetContainer (cc_ID container); EvNow]))).
  split; [apply probeResults_length|]. split; [reflexivity|].
  split; [reflexivity|]. split; [reflexivity|]. split; [reflexivity|].
  rewrite <- !app_assoc. cbn [app].
  now destruct (forallb cr_Success _).
Qed.

Lemma recordSuccess_resets state :
  0 <= cs_FailureCount state ->
  cs_FailureCount (recordSuccess state) = 0
  /\ cs_ID (recordSuccess state) = cs_ID state.
Proof.
  intros Hf. unfold recordSuccess.
  cbn [cs_FailureCount set_HealthyCount].
  destruct (Z.gtb_spec (cs_FailureCount state) 0); simpl; split;
    try reflexivity; lia.
Qed.

(** X15. One healthy cycle re-arms the threshold, whatever the failure
    count was before it: of the [k] failed cycles that follow it, the first
    [threshold - 1] start no callback, and the callbacks are started again
    from the cycle that brings the new count to the threshold. *)
Theorem healthy_cycle_rearms state k tr :
  0 <= cs_FailureCount state ->
  1 <= mon_FailureThreshold (cfg_Monitoring (m_config m)) ->
  Z.of_nat k <= GoInt.int_max ->
  snd (recordCycles m (true :: repeat false k) state tr)
  = tr ++ concat
            (repeat (dispatch_events m (cs_ID state))
               (k - (Z.to_nat (mon_FailureThreshold
                                 (cfg_Monitoring (m_config m))) - 1)))
  /\ cs_FailureCount (fst (recordCycles m (true :: repeat false k) state tr))
     = Z.of_nat k.
Proof.
  intros Hf Ht Hk. destruct (recordSuccess_resets state Hf) as [Hzero Hid].
  assert (Hrun : recordCycles m (true :: repeat false k) state tr
                 = recordCycles m (repeat false k) (recordSuccess state) tr)
    by reflexivity.
  rewrite Hrun. clear Hrun.
  rewrite recordCycles_failures by (rewrite Hzero; lia).
  rewrite dispatch_rounds_closed by (rewrite ?Hzero; lia).
  rewrite Hzero, Hid. cbn [fst snd cs_FailureCount set_FailureCount].
  split; [|lia]. do 3 f_equal. lia.
Qed.

End MonitorMore.

Lemma checkContainer_runs_every_probe_witness :
  exists results state',
    length results = 2%nat
    /\ cs_HealthResults state' = results
    /\ checkContainer (H := clusterClient 0) (H0 := quietHost) (testMonitor 3)
         mistypedContainer state100 []
       = (if forallb cr_Success results then ret (recordSuccess state')
          else recordFailure (testMonitor 3) state')
           ([] ++ [EvGetContainer 100; EvNow]
               ++ map EvRunHealthCheck (cc_HealthChecks mistypedContainer)
               ++ [EvNow]).
Proof.
  destruct (checkContainer_runs_every_probe (H := clusterClient 0)
              (H0 := quietHost) (testMonitor 3) mistypedContainer state100
              (info100 "A" "running") [])
    as (results & state' & Hlen & _ & Hres & _ & _ & Hrun).
  - reflexivity.
  - reflexivity.
  - exists results, state'. split; [exact Hlen|]. split; [exact Hres | exact Hrun].
Defined.

Lemma healthy_cycle_rearms_witness :
  snd (recordCycles (testMonitor 3) (true :: repeat false 4)
         (set_FailureCount state100 7) [])
  = [] ++ concat (repeat (dispatch_events (testMonitor 3) 100)
                    (4 - (Z.to_nat 3 - 1)))
  /\ cs_FailureCount
       (fst (recordCycles (testMonitor 3) (true :: repeat false 4)
               (set_FailureCount state100 7) []))
     = Z.of_nat 4.
Proof.
  apply (healthy_cycle_rearms (testMonitor 3) (set_FailureCount state100 7) 4 []).
  - simpl. lia.
  - simpl. lia.
  - unfold GoInt.int_max. lia.
Defined.

(** ** Daemon start-up *)

Section StartupFacts.
Context `{APIClient} `{Host}.
Variable config : Config.

Lemma lookupContainers_run containers : forall tr,
  lookupContainers containers tr = (tt, tr ++ lookup_events containers).
Proof.
  induction containers as [|c containers IH]; intros tr; simpl.
  - unfold ret. now rewrite app_nil_r.
  - unfold bind, GetContainer. rewrite call_run, IH.
    now rewrite <- app_assoc.
Qed.

Lemma initStates_run containers : forall states tr,
  snd (initStates containers states tr) = tr ++ repeat EvNow (length containers)
  /\ forall id,
       (In id (map cc_ID containers) ->
        exists state, fst (initStates containers states tr) !! id = Some state
                      /\ fresh_state id state)
       /\ (~ In id (map cc_ID containers) ->
           fst (initStates containers states tr) !! id = states !! id).
Proof.
  induction containers as [|c containers IH]; intros states tr.
  - simpl. rewrite app_nil_r. split; [reflexivity|].
    intros id. split; [now intros []|reflexivity].
  - cbn [initStates]. unfold bind, Now. rewrite call_run.
    destruct (IH (<[cc_ID c := initialState c (answer_Now tr)]> states)
                 (tr ++ [EvNow])) as [Htr Hst].
    split.
    + rewrite Htr, <- app_assoc. reflexivity.
    + intros id. destruct (Hst id) as [Hin Hout]. split.
      * intros Hid.
        destruct (in_dec Z.eq_dec id (map cc_ID containers)) as [Hi|Hn];
          [now apply Hin|].
        rewrite (Hout Hn).
        destruct Hid as [Hid|Hid]; [|contradiction].
        rewrite <- Hid, lookup_insert_eq. eexists. split; [reflexivity|].
        repeat split.
      * intros Hn. simpl in Hn.
        rewrite Hout by tauto. apply lookup_insert_ne. tauto.
Qed.

(** X16. Start-up fails only when the node listing fails, and then nothing
    else is done. Otherwise every configured container is looked up once,
    in the configured order, and whatever the lookups answer (a container
    that cannot be found does not stop the daemon) monitoring begins with
    one zeroed state per configured id and no other state. *)
Theorem Daemon_Start_run tr :
  match answer_GetNodes tr with
  | Err err =>
      Daemon_Start config tr
      = (Err (Wrapf "failed to validate Proxmox connectivity"
                (Wrapf "failed to get nodes" err)),
         tr ++ [EvGetNodes])
  | Ok _ =>
      exists states,
        Daemon_Start config tr
        = (Ok states,
           tr ++ EvGetNodes
              :: lookup_events (mon_Containers (cfg_Monitoring config))
              ++ repeat EvNow (length (mon_Containers (cfg_Monitoring config))))
        /\ forall id,
             (In id (map cc_ID (mon_Containers (cfg_Monitoring config))) ->
              exists state, states !! id = Some state /\ fresh_state id state)
             /\ (~ In id (map cc_ID (mon_Containers (cfg_Monitoring config))) ->
                 states !! id = None)
  end.
Proof.
  destruct (answer_GetNodes tr) as [nodes|err] eqn:Hnodes;
    unfold Daemon_Start, validateConnectivity;
    unfold bind at 1; unfold bind at 1, GetNodes at 1; rewrite call_run, Hnodes;
    [|reflexivity].
  unfold bind at 1. rewrite lookupContainers_run. unfold ret at 1.
  destruct (initStates_run (mon_Containers (cfg_Monitoring config)) ∅
              ((tr ++ [EvGetNodes])
                 ++ lookup_events (mon_Containers (cfg_Monitoring config))))
    as [Htr Hst].
  unfold bind.
  destruct (initStates _ ∅ _) as [states tr'] eqn:Einit.
  cbn [fst snd] in Htr, Hst. exists states. split.
  - unfold ret. f_equal. rewrite Htr, <- !app_assoc. reflexivity.
  - intros id. destruct (Hst id) as [Hin Hout]. split; [exact Hin|].
    intros Hn. now rewrite (Hout Hn).
Qed.

End StartupFacts.

(** ** The health checker *)

(** X17. Whatever the check and whatever the network answers, the result of
    a health check is marked successful exactly when it carries no error. *)
Theorem RunHealthCheck_success_iff_no_error net check start finish :
  cr_Success (Checker_RunHealthCheck net check start finish) = true
  <-> cr_Error (Checker_RunHealthCheck net check start finish) = None.
Proof.
  unfold Checker_RunHealthCheck. cbn [cr_Success cr_Error].
  destruct (_ || _).
  { unfold pingCheck. destruct (net_Dial _ _ _); simpl; split; congruence. }
  destruct (String.eqb _ "tcp").
  { unfold tcpCheck. destruct (net_Dial _ _ _); simpl; split; congruence. }
  destruct (_ || _); [|simpl; split; congruence].
  unfold httpCheck. destruct (net_NewRequest _ _); [simpl; split; congruence|].
  destruct (net_Do _ _); [|simpl; split; congruence].
  destruct (_ && _); simpl; split; congruence.
Qed.

(** X18. A check of type http or https succeeds exactly when the request
    for its URL can be created and is answered with a status from 200 to
    399: a redirect counts as healthy, a 4xx or 5xx answer does not. *)
Theorem http_check_status_range net check start finish :
  hc_Type check = "http" \/ hc_Type check = "https" ->
  cr_Success (Checker_RunHealthCheck net check start finish) = true
  <-> net_NewRequest net
        (httpURL (hc_Type check) (hc_Target check) (hc_Port check) (hc_Path check))
      = None
      /\ exists statusCode,
           net_Do net
             (httpURL (hc_Type check) (hc_Target check) (hc_Port check)
                (hc_Path check))
           = Ok statusCode
           /\ 200 <= statusCode < 400.
Proof.
  intros Htype. unfold Checker_RunHealthCheck. cbn [cr_Success].
  assert (Hdispatch :
    (if String.eqb (hc_Type check) "ping" || String.eqb (hc_Type check) "icmp"
     then pingCheck net (hc_Target check)
     else if String.eqb (hc_Type check) "tcp"
          then tcpCheck net (hc_Target check) (hc_Port check)
          else if String.eqb (hc_Type check) "http"
                  || String.eqb (hc_Type check) "https"
               then httpCheck net (hc_Type check) (hc_Target check)
                      (hc_Port check) (hc_Path check)
               else (false, Some (Errorf ("unknown health check type: "
                                          +:+ hc_Type check))))
    = httpCheck net (hc_Type check) (hc_Target check) (hc_Port check)
        (hc_Path check)).
  { destruct Htype as [-> | ->]; reflexivity. }
  rewrite Hdispatch. unfold httpCheck.
  destruct (net_NewRequest net _) as [err|].
  { simpl. split; [discriminate | now intros [? _]]. }
  destruct (net_Do net _) as [statusCode|err].
  - destruct (Z.geb_spec statusCode 200), (Z.ltb_spec statusCode 400);
      cbn [andb fst]; split;
      try discriminate;
      try (intros [_ (code & [= <-] & Hrange)]; lia).
    intros _. split; [reflexivity|]. exists statusCode. split; [reflexivity|lia].
  - simpl. split; [discriminate|]. intros [_ (code & Hc & _)]. discriminate.
Qed.

Lemma http_check_status_range_witness :
  cr_Success
    (Checker_RunHealthCheck (openNetwork 302)
       {| hc_Type := "https"; hc_Target := "app.local"; hc_Port := 0;
          hc_Path := ""; hc_Timeout := 10; hc_Interval := 30 |} 0 1) = true
  <-> net_NewRequest (openNetwork 302)
        (httpURL "https" "app.local" 0 "") = None
      /\ exists statusCode,
           net_Do (openNetwork 302) (httpURL "https" "app.local" 0 "")
           = Ok statusCode
           /\ 200 <= statusCode < 400.
Proof.
  apply (http_check_status_range (openNetwork 302)
           {| hc_Type := "https"; hc_Target := "app.local"; hc_Port := 0;
              hc_Path := ""; hc_Timeout := 10; hc_Interval := 30 |} 0 1).
  right. reflexivity.
Defined.

Lemma unknown_type_fails net check start finish :
  known_check_type (hc_Type check) = false ->
  cr_Success (Checker_RunHealthCheck net check start finish) = false.
Proof.
  unfold known_check_type, Checker_RunHealthCheck. cbn [existsb cr_Success].
  destruct (String.eqb (hc_Type check) "ping"); [discriminate|].
  destruct (String.eqb (hc_Type check) "icmp"); [discriminate|].
  destruct (String.eqb (hc_Type check) "tcp"); [discriminate|].
  destruct (String.eqb (hc_Type check) "http"); [discriminate|].
  destruct (String.eqb (hc_Type check) "https"); [discriminate|].
  reflexivity.
Qed.

Lemma probeResults_unknown net hooks clock checks : forall tr,
  List.Exists (fun check => known_check_type (hc_Type check) = false) checks ->
  forallb cr_Success (probeResults (H := checkerHost net hooks clock) checks tr)
  = false.
Proof.
  induction checks as [|check checks IH]; intros tr Hex;
    [now apply List.Exists_nil in Hex|].
  cbn [probeResults forallb answer_RunHealthCheck checkerHost].
  apply List.Exists_cons in Hex. destruct Hex as [Hu|Hex].
  - now rewrite unknown_type_fails.
  - rewrite IH by exact Hex. apply andb_false_r.
Qed.

(** X19. A health check whose type the checker does not know (anything but
    ping, icmp, tcp, http and https, in lower case) makes every cycle of a
    running container a failed one, whatever the network answers: the
    failure count goes up by one on each cycle. *)
Theorem unknown_check_type_fails_every_cycle `{APIClient}
    net hooks clock m container state info tr :
  answer_GetContainer tr (cc_ID container) = Ok info ->
  ci_Status info = "running" ->
  List.Exists (fun check => known_check_type (hc_Type check) = false)
              (cc_HealthChecks container) ->
  cs_FailureCount
    (fst (checkContainer (H0 := checkerHost net hooks clock) m container state tr))
  = GoInt.incr (cs_FailureCount state)
  /\ cs_HealthyCount
       (fst (checkContainer (H0 := checkerHost net hooks clock) m container
               state tr))
     = cs_HealthyCount state.
Proof.
  intros Hget Hrun Hex.
  rewrite (checkContainer_running_run (H0 := checkerHost net hooks clock)
             m container state info tr Hget Hrun).
  cbv zeta. rewrite probeResults_unknown by exact Hex.
  rewrite recordFailure_run. split; reflexivity.
Qed.

Lemma unknown_check_type_fails_every_cycle_witness :
  cs_FailureCount
    (fst (checkContainer (H := clusterClient 0)
            (H0 := checkerHost (openNetwork 200) (fun _ _ _ _ => None)
                     (fun tr => Z.of_nat (length tr)))
            (testMonitor 3) mistypedContainer state100 []))
  = GoInt.incr (cs_FailureCount state100).
Proof.
  apply (unknown_check_type_fails_every_cycle (H := clusterClient 0)
           (openNetwork 200) (fun _ _ _ _ => None)
           (fun tr => Z.of_nat (length tr))
           (testMonitor 3) mistypedContainer state100 (info100 "A" "running") []).
  - reflexivity.
  - reflexivity.
  - right. left. reflexivity.
Defined.

(** ** The status and restore commands *)

Section CommandFacts.
Context `{APIClient} `{Host}.

Lemma lookupAnswers_length containers : forall tr,
  length (lookupAnswers containers tr) = length containers.
Proof.
  induction containers as [|c containers IH]; intros tr; simpl;
    [reflexivity | now rewrite IH].
Qed.

Lemma collectStatuses_run containers : forall acc tr,
  exists rows,
    collectStatuses containers acc tr
    = (acc ++ rows, tr ++ status_events containers)
    /\ List.Forall2 (fun lookup row => status_row (fst lookup) (snd lookup) row)
         (combine containers (lookupAnswers containers tr)) rows.
Proof.
  induction containers as [|c containers IH]; intros acc tr.
  - exists []. simpl. unfold ret. rewrite !app_nil_r. split; [reflexivity|constructor].
  - cbn [collectStatuses lookupAnswers combine].
    unfold bind at 1, Now at 1. rewrite call_run.
    unfold bind at 1, GetContainer at 1. rewrite call_run.
    rewrite <- (app_assoc tr [EvNow] [EvGetContainer (cc_ID c)]).
    change ([EvNow] ++ [EvGetContainer (cc_ID c)])
      with [EvNow; EvGetContainer (cc_ID c)].
    match goal with
    | |- context [collectStatuses containers (acc ++ [?row]) ?tr'] =>
        destruct (IH (acc ++ [row]) tr') as (rows & Hrun & Hrows);
        exists (row :: rows)
    end.
    split.
    + rewrite Hrun. unfold status_events. cbn [map concat].
      rewrite <- !app_assoc. reflexivity.
    + constructor; [|exact Hrows]. cbn [fst snd].
      destruct (answer_GetContainer (tr ++ [EvNow]) (cc_ID c));
        repeat split; auto.
Qed.

(** X20. The status command makes one row per configured container, in the
    configured order, from one lookup each. The row of a container whose
    lookup answered says "reachable" and shows the node and the status the
    lookup gave; the row of a container whose lookup failed says "error"
    and shows the error text, with node and status empty. No health check
    is run for it. *)
Theorem status_rows_follow_configuration containers tr :
  exists rows,
    collectStatuses containers [] tr = (rows, tr ++ status_events containers)
    /\ length (lookupAnswers containers tr) = length containers
    /\ List.Forall2 (fun lookup row => status_row (fst lookup) (snd lookup) row)
         (combine containers (lookupAnswers containers tr)) rows
    /\ map st_ID rows = map cc_ID containers
    /\ List.filter is_probe (status_events containers) = [].
Proof.
  destruct (collectStatuses_run containers [] tr) as (rows & Hrun & Hrows).
  exists rows. split; [exact Hrun|].
  split; [apply lookupAnswers_length|]. split; [exact Hrows|]. split.
  - clear Hrun. revert tr rows Hrows.
    induction containers as [|c containers IH]; intros tr rows Hrows.
    + now inversion Hrows.
    + cbn [lookupAnswers combine] in Hrows.
      inversion Hrows as [|lookup row lookups rows' Hrow Hrest]; subst.
      cbn [map]. destruct Hrow as (-> & _). f_equal.
      exact (IH _ _ Hrest).
  - unfold status_events. clear.
    induction containers as [|c containers IH]; [reflexivity|].
    simpl. exact IH.
Qed.

End CommandFacts.

(** X21. On the bundled client the restore command never succeeds, whatever
    its arguments and whatever the cluster answers. *)
Theorem bundled_restore_command_fails (sdk : ProxmoxSDK)
    containerID backupPath targetNode storage force tr :
  exists err,
    fst (runBackupRestore (H := Client sdk) containerID backupPath targetNode
           storage force tr) = Some err.
Proof.
  unfold runBackupRestore, restoreTarget.
  destruct (String.eqb targetNode "").
  - unfold bind at 1. unfold bind at 1, GetNodes at 1. rewrite call_run.
    destruct (answer_GetNodes tr) as [[|first rest]|err];
      cbn [ret fst]; eauto.
  - cbn. eauto.
Qed.

(** ** The error column of the status output *)





(** ** Backup file names *)

Lemma prefix_append_same p : forall s t,
  String.prefix (p +:+ s) (p +:+ t) = String.prefix s t.
Proof.
  induction p as [|c p IH]; intros s t; [reflexivity|].
  change (String.prefix (String c (p +:+ s)) (String c (p +:+ t))
          = String.prefix s t).
  cbn [String.prefix].
  destruct (ascii_dec c c); [apply IH | congruence].
Qed.

Lemma is_digit_pretty_N_char x : is_digit (pretty_N_char x) = true.
Proof.
  unfold pretty_N_char.
  destruct x as [|p]; [reflexivity|].
  do 4 (destruct p as [p|p|]; try reflexivity).
Qed.

Lemma all_digits_append a b :
  all_digits a = true -> all_digits b = true -> all_digits (a +:+ b) = true.
Proof.
  induction a as [|c a IH]; simpl; [auto|].
  intros Ha Hb. apply andb_true_iff in Ha. destruct Ha as [Hc Ha].
  now rewrite Hc, IH.
Qed.

Lemma pretty_N_go_digits x : forall s,
  exists d, pretty_N_go x s = d +:+ s /\ all_digits d = true.
Proof.
  induction (N.lt_wf_0 x) as [x _ IH]; intros s.
  destruct (N.eq_dec x 0%N) as [->|Hx].
  - exists "". now rewrite pretty_N_go_0.
  - rewrite pretty_N_go_step by lia.
    destruct (IH (x `div` 10)%N (N.div_lt x 10 ltac:(lia) eq_refl)
                 (String (pretty_N_char (x `mod` 10)) s)) as (d & -> & Hd).
    exists (d +:+ String (pretty_N_char (x `mod` 10)) "").
    split.
    + clear. induction d as [|c d IHd]; [reflexivity|].
      change (String c (d +:+ String (pretty_N_char (x `mod` 10)) s)
              = String c ((d +:+ String (pretty_N_char (x `mod` 10)) "") +:+ s)).
      now rewrite IHd.
    + apply all_digits_append; [exact Hd|].
      simpl. now rewrite is_digit_pretty_N_char.
Qed.

Lemma fmt_d_digits z : 0 <= z -> all_digits (fmt_d z) = true.
Proof.
  intros Hz. unfold fmt_d, pretty, pretty_Z.
  destruct z as [|p|p]; [reflexivity| |lia].
  unfold pretty, pretty_positive, pretty, pretty_N.
  destruct (decide (N.pos p = 0%N)); [reflexivity|].
  destruct (pretty_N_go_digits (N.pos p) "") as (d & -> & Hd).
  apply all_digits_append; [exact Hd | reflexivity].
Qed.

Lemma prefix_cons c s c' t :
  String.prefix (String c s) (String c' t)
  = if ascii_dec c c' then String.prefix s t else false.
Proof. reflexivity. Qed.

Lemma digits_before_dash d1 : forall d2 x r,
  all_digits d1 = true -> all_digits d2 = true ->
  String.prefix (d1 +:+ String "-" x) (d2 +:+ String "-" r) = true ->
  d1 = d2.
Proof.
  induction d1 as [|c d1 IH]; intros [|c' d2] x r H1 H2 Hp;
    cbn [all_digits] in H1, H2.
  - reflexivity.
  - change (String.prefix (String "-" x) (String c' (d2 +:+ String "-" r)) = true)
      in Hp.
    rewrite prefix_cons in Hp.
    destruct (ascii_dec "-" c') as [<-|]; [|discriminate].
    change (is_digit "-") with false in H2. discriminate.
  - change (String.prefix (String c (d1 +:+ String "-" x)) (String "-" r) = true)
      in Hp.
    rewrite prefix_cons in Hp.
    destruct (ascii_dec c "-") as [->|]; [|discriminate].
    change (is_digit "-") with false in H1. discriminate.
  - change (String.prefix (String c (d1 +:+ String "-" x))
                          (String c' (d2 +:+ String "-" r)) = true) in Hp.
    rewrite prefix_cons in Hp.
    apply andb_true_iff in H1, H2. destruct H1 as [_ H1], H2 as [_ H2].
    destruct (ascii_dec c c') as [->|]; [|discriminate].
    f_equal. now apply (IH d2 x r).
Qed.

(** X23. The file names the client makes up for backups tell containers
    apart: a backup named for container [b] carries the prefix
    [findLatestBackup] looks for under container [a] only when [a] is [b],
    so the backup of container 1000 is never taken for one of container
    100. *)
Theorem backup_prefix_tells_containers_apart (a b : Z) (storage timestamp : string) :
  0 <= a -> 0 <= b ->
  has_backup_prefix a (backup storage (backupFilename b timestamp)) = (a =? b)%Z.
Proof.
  intros Ha Hb. unfold has_backup_prefix, backupFilename.
  cbn [bi_Filename backup].
  rewrite (prefix_append_same "vzdump-lxc-").
  destruct (Z.eqb_spec a b) as [->|Hne].
  - rewrite prefix_append_same.
    change (String.prefix ("-" +:+ "") ("-" +:+ (timestamp +:+ ".tar.zst"))
            = true).
    rewrite prefix_append_same.
    now destruct (timestamp +:+ ".tar.zst").
  - destruct (String.prefix _ _) eqn:Hp; [|reflexivity].
    exfalso. apply Hne. apply (inj fmt_d).
    apply (digits_before_dash (fmt_d a) (fmt_d b) ""
             (timestamp +:+ ".tar.zst"));
      auto using fmt_d_digits.
Qed.

Lemma backup_prefix_tells_containers_apart_witness :
  has_backup_prefix 100
    (backup "local" (backupFilename 1000 "2025_01_01-00_00_00"))
  = (100 =? 1000)%Z.
Proof.
  apply (backup_prefix_tells_containers_apart 100 1000 "local"
           "2025_01_01-00_00_00"); lia.
Defined.

(** ** A recovery that succeeds *)

Section RecoveryPath.
Context `{APIClient} `{Host}.
Variable config : Config.


End RecoveryPath.

